(** * Adaptive provider scheduling of claude-code-hub: a shallow embedding

    The development follows the TypeScript sources

    - [lib/scheduler/performance-scorer.ts]   ([PerformanceScorer])
    - [repository/provider-analytics-multiwindow.ts] (window fusion)
    - [lib/scheduler/mab-algorithm.ts]        ([MABScheduler])
    - [lib/scheduler/realtime-decision-engine.ts] ([RealtimeDecisionEngine])
    - [lib/scheduler/auto-scheduler.ts]       ([AutoScheduler])
    - [repository/schedule-logs.ts], [repository/provider-analytics.ts]

    Conventions.

    - Database integers (weights, priorities, request counts, ids) are [Z].
    - Rates, latencies, scores and percentages are [Q].  A JavaScript
      [number] is an IEEE double; arithmetic here is exact, so the model
      describes the computation up to floating-point rounding.  Rounding
      shows where a double is turned into an integer.  [Math.floor] of a
      weight times a decimal constant or percentage: when the exact
      product is an integer the double can fall just below it and the
      source then floors to one less ([Math.floor(90 * 0.7)] is 62,
      [Math.floor(100 * (29 / 100))] is 28); it never floors to more.
      [Math.round]: when the exact argument is a half the double can fall
      just below it and the source then rounds down (error rate 0.0625 and
      450 ms give ten times the score as 944.4999999999999, hence 94.4).
      Where a theorem speaks of such a value it states a range, an
      ordering or a bound that holds of the exact and of the double
      computation alike.  The concrete inputs used below are chosen so
      that both agree.
    - [async] functions that can throw are computations in the monad
      [Async]: a state transformer over [World] returning either a value or
      a thrown error.  [try { } catch { }] is [try_catch].
    - Human-readable reason strings (built with [toFixed]) and the cost
      strings, which no decision depends on, are left out of the records,
      and so is [ucbValue] ([Math.sqrt], [Math.log]), which is stored in a
      decision but read by none of the functions below. *)

From Stdlib Require Import ZArith QArith Qround Qminmax Qabs Lqa List String
  Lia Bool.
Import ListNotations.
Local Open Scope Z_scope.

(** ** JavaScript [Math] on exact numbers *)

Module Math.

(** [Math.floor], on the exact value of its argument. *)
Definition floor (x : Q) : Z := Qfloor x.

(** [Math.round] rounds to the nearest integer, ties towards +infinity;
    here on the exact value of its argument. *)
Definition round (x : Q) : Z := Qfloor (x + (1 # 2)).

Definition max (x y : Q) : Q := Qmax x y.
Definition min (x y : Q) : Q := Qmin x y.

End Math.

(** On integers [Math.max], [Math.min], [Math.abs] and [Math.sign] are
    [Z.max], [Z.min], [Z.abs] and [Z.sgn]. *)

(** [x < y] on [Q] as a boolean. *)
Definition Qltb (x y : Q) : bool := negb (Qle_bool y x).

(** The nullish coalescing operator [o ?? d]. *)
Definition orElse {A : Type} (o : option A) (d : A) : A :=
  match o with
  | Some x => x
  | None => d
  end.

(** ** types/schedule.ts *)

Inductive CircuitState := closed | open | half_open.

Inductive ScheduleAction :=
  promote | demote | maintain | recover | circuit_penalty | explore.

Record ProviderMetrics := {
  todayRequests : Z;
  todayAvgResponseTime : Q;
  todayErrorRate : Q;
  yesterdayRequests : Z;
  yesterdayAvgResponseTime : Q;
  yesterdayErrorRate : Q
}.

(** One window of [MultiWindowMetrics] ([shortTerm], [mediumTerm],
    [longTerm]). *)
Record WindowStats := {
  requests : Z;
  errorRate : Q;
  avgResponseTime : Q
}.

(** The [weighted] component of [MultiWindowMetrics]. *)
Record WeightedStats := {
  w_requests : Z;
  w_errorRate : Q;
  w_avgResponseTime : Q;
  w_performanceScore : Q
}.

Record MultiWindowMetrics := {
  shortTerm : WindowStats;
  mediumTerm : WindowStats;
  longTerm : WindowStats;
  weighted : WeightedStats
}.

(** ** lib/scheduler/performance-scorer.ts *)

Module PerformanceScorer.

Definition calculateScore (metrics : ProviderMetrics) : Q :=
  let successRate := (1 - todayErrorRate metrics)%Q in
  let successScore := Math.max 0 (Math.min 60 (successRate * 60)) in
  let normalizedTime := Math.min (todayAvgResponseTime metrics / 10000) 1 in
  let speedScore := Math.max 0 (Math.min 40 ((1 - normalizedTime) * 40)) in
  let totalScore := (successScore + speedScore)%Q in
  (inject_Z (Math.round (totalScore * 10)) / 10)%Q.

Definition calculateConfidence (sampleSize minSize : Z) : Z :=
  if sampleSize >=? minSize * 5 then 100
  else if sampleSize >=? minSize * 2 then 80
  else if sampleSize >=? minSize then 50
  else if sampleSize >? 0 then
    Math.round ((inject_Z sampleSize / inject_Z minSize) * 50)
  else 0.

(** The linear ramp of [calculateConfidence] below [minSize]. *)
Definition ramp (sampleSize minSize : Z) : Z :=
  Math.round ((inject_Z sampleSize / inject_Z minSize) * 50).

(** The score formula as the specification words it: success term
    [min(60, max(0, (1-e)*60))], speed term
    [min(40, max(0, (1 - min(t/10000, 1))*40))]; [score_formula] is their
    sum before rounding, [score_spec] the sum rounded to one decimal with
    ties rounded up. *)
Definition round_one_decimal (x : Q) : Q :=
  (inject_Z (Math.round (x * 10)) / 10)%Q.





End PerformanceScorer.

(** Metrics that carry only today's error rate and latency, as built by the
    window fusion before scoring. *)
Definition metrics_of (reqs : Z) (e t : Q) : ProviderMetrics :=
  {| todayRequests := reqs;
     todayAvgResponseTime := t;
     todayErrorRate := e;
     yesterdayRequests := 0;
     yesterdayAvgResponseTime := 0;
     yesterdayErrorRate := 0 |}.

(** ** repository/provider-analytics-multiwindow.ts *)

Record ProviderMultiWindowAnalytics := {
  pa_id : Z;
  pa_name : string;
  pa_weight : Z;
  pa_priority : Z;
  pa_baseWeight : option Z;
  pa_basePriority : option Z;
  pa_metrics : MultiWindowMetrics;
  pa_circuitState : CircuitState
}.

Module MultiWindow.

Definition decayShort : Q := 0.6%Q.
Definition decayMedium : Q := 0.3%Q.
Definition decayLong : Q := 0.1%Q.

(** The body of the row mapping of [getProviderMultiWindowAnalytics] from
    the three windows to the [weighted] record. *)
Definition fuse (shortTerm mediumTerm longTerm : WindowStats) : WeightedStats :=
  let totalRequests :=
    requests shortTerm + requests mediumTerm + requests longTerm in
  let '(weightedErrorRate, weightedAvgResponseTime) :=
    if totalRequests =? 0 then (0, 0)%Q
    else
      let shortWeight :=
        (inject_Z (requests shortTerm) / inject_Z totalRequests)%Q in
      let mediumWeight :=
        (inject_Z (requests mediumTerm) / inject_Z totalRequests)%Q in
      let longWeight :=
        (inject_Z (requests longTerm) / inject_Z totalRequests)%Q in
      let normalizedShort := (shortWeight * decayShort)%Q in
      let normalizedMedium := (mediumWeight * decayMedium)%Q in
      let normalizedLong := (longWeight * decayLong)%Q in
      let totalWeight :=
        (normalizedShort + normalizedMedium + normalizedLong)%Q in
      if Qltb 0 totalWeight then
        ((errorRate shortTerm * normalizedShort
          + errorRate mediumTerm * normalizedMedium
          + errorRate longTerm * normalizedLong) / totalWeight,
         (avgResponseTime shortTerm * normalizedShort
          + avgResponseTime mediumTerm * normalizedMedium
          + avgResponseTime longTerm * normalizedLong) / totalWeight)%Q
      else (0, 0)%Q in
  let performanceScore :=
    PerformanceScorer.calculateScore
      (metrics_of totalRequests weightedErrorRate weightedAvgResponseTime) in
  {| w_requests := totalRequests;
     w_errorRate := weightedErrorRate;
     w_avgResponseTime := weightedAvgResponseTime;
     w_performanceScore := performanceScore |}.

Definition toMetrics (shortTerm mediumTerm longTerm : WindowStats)
  : MultiWindowMetrics :=
  {| shortTerm := shortTerm;
     mediumTerm := mediumTerm;
     longTerm := longTerm;
     weighted := fuse shortTerm mediumTerm longTerm |}.

End MultiWindow.


(** ** types/schedule.ts, continued *)

Record MABDecision := {
  mab_providerId : Z;
  mab_providerName : string;
  isExploration : bool;
  currentWeight : Z;
  currentPriority : Z;
  suggestedWeight : Z;
  suggestedPriority : Z;
  mab_metrics : MultiWindowMetrics;
  mab_confidence : Z
}.

Record BeforeState := {
  b_weight : Z;
  b_priority : Z;
  b_performanceScore : Q;
  b_circuitState : CircuitState
}.

Record AfterState := {
  a_weight : Z;
  a_priority : Z;
  a_performanceScore : Q
}.

Record Baseline := {
  bl_weight : Z;
  bl_priority : Z
}.

Record ScheduleDecision := {
  providerId : Z;
  providerName : string;
  beforeState : BeforeState;
  afterState : AfterState;
  metrics : ProviderMetrics;
  action : ScheduleAction;
  confidence : Z;
  baseline : Baseline
}.

Record ScheduleSummary := {
  promoted : Z;
  demoted : Z;
  maintained : Z;
  recovered : Z;
  circuitOpen : Z
}.

(** ** lib/scheduler/mab-algorithm.ts *)

Record MABConfig := {
  explorationRate : Q;
  minSampleSize : Z;
  circuitRecoveryWeightPercent : Q;
  maxWeightAdjustmentPercent : Q
}.

Record Adjustment := {
  adj_suggestedWeight : Z;
  adj_suggestedPriority : Z
}.

Module MABScheduler.

Definition calculateAdjustment (provider : ProviderMultiWindowAnalytics)
    (baseWeight basePriority : Z) (config : MABConfig) : Adjustment :=
  let performanceScore := w_performanceScore (weighted (pa_metrics provider)) in
  let requests := w_requests (weighted (pa_metrics provider)) in
  match pa_circuitState provider with
  | open =>
      {| adj_suggestedWeight := 0; adj_suggestedPriority := 999 |}
  | half_open =>
      let recoveryWeight :=
        Math.floor (inject_Z baseWeight
                    * (circuitRecoveryWeightPercent config / 100)) in
      {| adj_suggestedWeight := Z.max 1 recoveryWeight;
         adj_suggestedPriority := basePriority + 1 |}
  | closed =>
      if requests <? minSampleSize config then
        let explorationWeight :=
          Z.max 1 (Math.floor (inject_Z baseWeight * 0.5)) in
        {| adj_suggestedWeight := explorationWeight;
           adj_suggestedPriority := basePriority |}
      else
        let currentWeight := pa_weight provider in
        let '(targetWeight, targetPriority) :=
          if Qle_bool 85 performanceScore then
            let increase :=
              Math.floor (inject_Z baseWeight
                          * (maxWeightAdjustmentPercent config / 100)) in
            (Z.min 100 (currentWeight + increase), Z.max 0 (basePriority - 1))
          else if Qle_bool 70 performanceScore then
            (baseWeight, basePriority)
          else if Qle_bool 50 performanceScore then
            let decrease :=
              Math.floor (inject_Z baseWeight
                          * (maxWeightAdjustmentPercent config / 200)) in
            (Z.max 1 (currentWeight - decrease), basePriority + 1)
          else
            let decrease :=
              Math.floor (inject_Z baseWeight
                          * (maxWeightAdjustmentPercent config / 100)) in
            (Z.max 1 (currentWeight - decrease), basePriority + 2) in
        let maxChange :=
          Math.floor (inject_Z currentWeight
                      * (maxWeightAdjustmentPercent config / 100)) in
        let weightDelta := targetWeight - currentWeight in
        let suggestedWeight :=
          if Z.abs weightDelta >? maxChange then
            currentWeight + Z.sgn weightDelta * maxChange
          else targetWeight in
        {| adj_suggestedWeight := Z.max 1 (Z.min 100 suggestedWeight);
           adj_suggestedPriority := Z.max 0 targetPriority |}
  end.

(** [minSampleSize = 0] with a negative request count would divide by zero
    in the source; request counts are never negative. *)
Definition calculateConfidence (requests minSampleSize : Z) : Z :=
  if requests =? 0 then 0
  else if requests >=? minSampleSize * 2 then 100
  else
    Z.min 100
      (Math.floor (inject_Z requests / inject_Z (minSampleSize * 2) * 100)).

Definition generateDecision (config : MABConfig)
    (provider : ProviderMultiWindowAnalytics) : MABDecision :=
  let baseWeight := orElse (pa_baseWeight provider) (pa_weight provider) in
  let basePriority := orElse (pa_basePriority provider) (pa_priority provider) in
  let adj := calculateAdjustment provider baseWeight basePriority config in
  let confidence :=
    calculateConfidence (w_requests (weighted (pa_metrics provider)))
                        (minSampleSize config) in
  let isExploration :=
    w_requests (weighted (pa_metrics provider)) <? minSampleSize config in
  {| mab_providerId := pa_id provider;
     mab_providerName := pa_name provider;
     isExploration := isExploration;
     currentWeight := pa_weight provider;
     currentPriority := pa_priority provider;
     suggestedWeight := adj_suggestedWeight adj;
     suggestedPriority := adj_suggestedPriority adj;
     mab_metrics := pa_metrics provider;
     mab_confidence := confidence |}.

(** The [for] loop pushing one decision per provider. *)
Definition generateDecisions (providers : list ProviderMultiWindowAnalytics)
    (config : MABConfig) : list MABDecision :=
  map (generateDecision config) providers.

End MABScheduler.

(** ** Summaries, shared by both engines *)

Definition emptySummary : ScheduleSummary :=
  {| promoted := 0; demoted := 0; maintained := 0; recovered := 0;
     circuitOpen := 0 |}.

Definition affected (summary : ScheduleSummary) : Z :=
  promoted summary + demoted summary + recovered summary.

(** ** The provider table and the analytics of the rule scheduler *)

(** A row of the [providers] table, with the columns the schedulers read or
    write ([types/provider.ts]).  Rows with [deleted_at] set are not part of
    the table. *)
Record Provider := {
  id : Z;
  name : string;
  weight : Z;
  priority : Z;
  baseWeight : option Z;
  basePriority : option Z;
  isEnabled : bool;
  lastScheduleTime : option Z
}.

(** [ProviderAnalytics] of [types/schedule.ts], as far as [applyStrategy]
    reads it. *)
Record ProviderAnalytics := {
  an_id : Z;
  an_metrics : ProviderMetrics;
  an_performanceScore : Q;
  an_confidence : Z
}.

Record ScheduleConfig := {
  enableAutoSchedule : bool;
  scheduleTime : string;
  sc_minSampleSize : Z;
  scheduleWindowHours : Z
}.


(** ** The world the schedulers act on *)

Inductive Outcome (A : Type) :=
| Returned (a : A)
| Thrown (msg : string).
Arguments Returned {A} a.
Arguments Thrown {A} msg.

(** The partial record passed to [updateProvider]; an absent key is
    [None]. *)
Record ProviderUpdate := {
  u_weight : option Z;
  u_priority : option Z;
  u_last_schedule_time : option Z;
  u_base_weight : option Z;
  u_base_priority : option Z
}.

(** The argument of [createScheduleLog]. *)
Record ScheduleLogData := {
  execution_time : Z;
  executed_by : string;
  dry_run : bool;
  total_providers : Z;
  analyzed_providers : Z;
  affected_providers : Z;
  log_decisions : list ScheduleDecision;
  log_summary : ScheduleSummary
}.

(** Where [logger.error] is called. *)
Inductive ErrorSite :=
| RealtimeExecutionFailed
| RealtimeUpdateFailed
| RealtimeLogFailed
| AutoExecutionFailed
| MultiWindowAnalyticsFailed
| ProviderAnalyticsFailed
| CreateScheduleLogFailed.

Definition ErrorSite_eq_dec (a b : ErrorSite) : {a = b} + {a <> b}.
Proof. decide equality. Defined.

(** Calls that leave the process, in the order they are made. *)
Inductive Event :=
| UpdateProviderCall (providerId : Z) (data : ProviderUpdate)
| CreateScheduleLogCall (data : ScheduleLogData)
| LoggerError (site : ErrorSite).

Record World := {
  providers : list Provider;
  scheduleLogs : list (Z * ScheduleLogData);
  events : list Event
}.

Record SystemSettings := {
  shortTermWindowMinutes : option Z;
  mediumTermWindowMinutes : option Z;
  longTermWindowMinutes : option Z
}.

(** What a cycle reads but does not write: the clock, the settings row
    ([getSystemSettings] returns it or throws), the telemetry aggregates
    computed by the SQL queries ([windowStats minutes id] for the realtime
    engine, [dailyMetrics id] for the rule scheduler), the circuit breaker
    ([getCircuitState] of [lib/circuit-breaker.ts], which is not among the
    sources), and which calls to the database fail ([Some msg] is the
    message of the error thrown). *)
Record Env := {
  now : Z;
  settings : Outcome SystemSettings;
  windowStats : Z -> Z -> WindowStats;
  dailyMetrics : Z -> ProviderMetrics;
  getCircuitState : Z -> CircuitState;
  multiWindowQueryError : option string;
  findProviderListError : option string;
  providerAnalyticsQueryError : option string;
  updateProviderError : Z -> option string;
  createScheduleLogError : option string
}.

(** ** Asynchronous functions that may throw *)

Definition Async (A : Type) : Type := World -> Outcome A * World.

Definition ret {A : Type} (a : A) : Async A := fun w => (Returned a, w).

Definition throw {A : Type} (msg : string) : Async A :=
  fun w => (Thrown msg, w).

Definition bind {A B : Type} (m : Async A) (k : A -> Async B) : Async B :=
  fun w =>
    match m w with
    | (Returned a, w') => k a w'
    | (Thrown msg, w') => (Thrown msg, w')
    end.

(** [try { m } catch (error) { handler }]: what [m] did before throwing
    stays done. *)
Definition try_catch {A : Type} (m : Async A) (handler : string -> Async A)
  : Async A :=
  fun w =>
    match m w with
    | (Returned a, w') => (Returned a, w')
    | (Thrown msg, w') => handler msg w'
    end.

(** A [try]/[catch] whose handler returns without throwing. *)
Definition catch_all {A : Type} (m : Async A)
    (handler : string -> World -> A * World) : World -> A * World :=
  fun w =>
    match m w with
    | (Returned a, w') => (a, w')
    | (Thrown msg, w') => handler msg w'
    end.

Declare Scope async_scope.
Delimit Scope async_scope with async.
Notation "x <- m ;; k" := (bind m (fun x => k))
  (at level 61, m at next level, right associativity) : async_scope.
Notation "m ;;; k" := (bind m (fun _ => k))
  (at level 61, right associativity) : async_scope.
Local Open Scope async_scope.

Definition emit (e : Event) : Async unit :=
  fun w =>
    (Returned tt,
     {| providers := providers w;
        scheduleLogs := scheduleLogs w;
        events := events w ++ [e] |}).

Fixpoint forEach {A : Type} (l : list A) (body : A -> Async unit)
  : Async unit :=
  match l with
  | [] => ret tt
  | x :: rest => body x ;;; forEach rest body
  end.

(** ** Repository functions *)

Definition applyUpdate (data : ProviderUpdate) (p : Provider) : Provider :=
  {| id := id p;
     name := name p;
     weight := orElse (u_weight data) (weight p);
     priority := orElse (u_priority data) (priority p);
     baseWeight :=
       match u_base_weight data with
       | Some b => Some b
       | None => baseWeight p
       end;
     basePriority :=
       match u_base_priority data with
       | Some b => Some b
       | None => basePriority p
       end;
     isEnabled := isEnabled p;
     lastScheduleTime :=
       match u_last_schedule_time data with
       | Some t => Some t
       | None => lastScheduleTime p
       end |}.

(** Modelled from the spec: [repository/provider.ts] is not among the
    sources.  The provider store offers
    [update(id, {weight?, priority?, baseWeight?, basePriority?,
    lastScheduleTime?}) -> Provider|NotFound]: the keys present overwrite
    the columns of the row with that id, the others are kept, and an unknown
    id changes nothing.  The call is recorded, then fails or takes
    effect. *)
Definition updateProvider (env : Env) (providerId : Z) (data : ProviderUpdate)
  : Async unit :=
  emit (UpdateProviderCall providerId data) ;;;
  match updateProviderError env providerId with
  | Some msg => throw msg
  | None =>
      fun w =>
        (Returned tt,
         {| providers :=
              map (fun p => if id p =? providerId then applyUpdate data p else p)
                  (providers w);
            scheduleLogs := scheduleLogs w;
            events := events w |})
  end.

(** Modelled from the spec: [findProviderList] of [repository/provider.ts]
    is not among the sources.  The provider store offers
    [list(enabledOnly) -> Provider[]]; the rule scheduler asks for the first
    [limit] rows from [offset] and filters on [isEnabled] itself. *)
Definition findProviderList (env : Env) (limit offset : nat)
  : Async (list Provider) :=
  match findProviderListError env with
  | Some msg => throw msg
  | None => fun w => (Returned (firstn limit (skipn offset (providers w))), w)
  end.

(** [createScheduleLog] of [repository/schedule-logs.ts]: insert one row and
    return its id; a failing insert is logged and thrown again. *)
Definition createScheduleLog (env : Env) (data : ScheduleLogData) : Async Z :=
  emit (CreateScheduleLogCall data) ;;;
  match createScheduleLogError env with
  | Some msg => emit (LoggerError CreateScheduleLogFailed) ;;; throw msg
  | None =>
      fun w =>
        let logId := Z.of_nat (List.length (scheduleLogs w)) + 1 in
        (Returned logId,
         {| providers := providers w;
            scheduleLogs := scheduleLogs w ++ [(logId, data)];
            events := events w |})
  end.

Definition getSystemSettings (env : Env) : Async SystemSettings :=
  fun w => (settings env, w).

(** [ORDER BY p.priority ASC, p.weight DESC] *)
Definition rowBefore (p q : Provider) : bool :=
  (priority p <? priority q)
  || ((priority p =? priority q) && (weight q <=? weight p)).

Fixpoint insertRow (p : Provider) (rows : list Provider) : list Provider :=
  match rows with
  | [] => [p]
  | q :: rest => if rowBefore p q then p :: q :: rest else q :: insertRow p rest
  end.

Definition orderRows (rows : list Provider) : list Provider :=
  fold_right insertRow [] rows.

(** The rows both analytics queries select: enabled providers, ordered. *)
Definition enabledRows (w : World) : list Provider :=
  orderRows (filter isEnabled (providers w)).

Definition toMultiWindowAnalytics (env : Env) (short medium long : Z)
    (row : Provider) : ProviderMultiWindowAnalytics :=
  {| pa_id := id row;
     pa_name := name row;
     pa_weight := weight row;
     pa_priority := priority row;
     pa_baseWeight := baseWeight row;
     pa_basePriority := basePriority row;
     pa_metrics :=
       MultiWindow.toMetrics (windowStats env short (id row))
                             (windowStats env medium (id row))
                             (windowStats env long (id row));
     pa_circuitState := getCircuitState env (id row) |}.

Definition getProviderMultiWindowAnalytics (env : Env)
    (shortTermMinutes mediumTermMinutes longTermMinutes : Z)
  : Async (list ProviderMultiWindowAnalytics) :=
  match multiWindowQueryError env with
  | Some msg => emit (LoggerError MultiWindowAnalyticsFailed) ;;; throw msg
  | None =>
      fun w =>
        (Returned
           (map (toMultiWindowAnalytics env shortTermMinutes mediumTermMinutes
                                        longTermMinutes)
                (enabledRows w)), w)
  end.

(** [getProviderAnalytics] of [repository/provider-analytics.ts]. *)
Definition toProviderAnalytics (env : Env) (row : Provider) : ProviderAnalytics :=
  let metrics := dailyMetrics env (id row) in
  {| an_id := id row;
     an_metrics := metrics;
     an_performanceScore := PerformanceScorer.calculateScore metrics;
     an_confidence :=
       PerformanceScorer.calculateConfidence (todayRequests metrics) 10 |}.

Definition getProviderAnalytics (env : Env) : Async (list ProviderAnalytics) :=
  match providerAnalyticsQueryError env with
  | Some msg => emit (LoggerError ProviderAnalyticsFailed) ;;; throw msg
  | None => fun w => (Returned (map (toProviderAnalytics env) (enabledRows w)), w)
  end.

(** ** Results of a cycle *)

(** [RealtimeScheduleResult] of the realtime engine. *)
Record RealtimeScheduleResult := {
  r_ok : bool;
  r_executionTime : Z;
  r_totalProviders : Z;
  r_affectedProviders : Z;
  r_decisions : list ScheduleDecision;
  r_summary : ScheduleSummary;
  r_error : option string
}.

(** [ScheduleResult] of the rule scheduler. *)
Record ScheduleResult := {
  s_ok : bool;
  s_logId : option Z;
  s_totalProviders : Z;
  s_analyzedProviders : Z;
  s_affectedProviders : Z;
  s_decisions : list ScheduleDecision;
  s_summary : ScheduleSummary;
  s_error : option string
}.

(** ** lib/scheduler/realtime-decision-engine.ts *)

Module RealtimeDecisionEngine.

Definition classify (mab : MABDecision) : ScheduleAction :=
  let weightChange := suggestedWeight mab - currentWeight mab in
  if (w_requests (weighted (mab_metrics mab)) =? 0) || isExploration mab then
    explore
  else if weightChange >? 0 then promote
  else if weightChange <? 0 then demote
  else if currentWeight mab
          <? (if w_requests (weighted (mab_metrics mab)) >? 0
              then currentWeight mab else 1)
  then recover
  else maintain.

Definition convertToScheduleDecision (mab : MABDecision) : ScheduleDecision :=
  let action := classify mab in
  {| providerId := mab_providerId mab;
     providerName := mab_providerName mab;
     beforeState :=
       {| b_weight := currentWeight mab;
          b_priority := currentPriority mab;
          b_performanceScore := w_performanceScore (weighted (mab_metrics mab));
          b_circuitState := closed |};
     afterState :=
       {| a_weight := suggestedWeight mab;
          a_priority := suggestedPriority mab;
          a_performanceScore := w_performanceScore (weighted (mab_metrics mab)) |};
     metrics :=
       metrics_of (w_requests (weighted (mab_metrics mab)))
                  (w_errorRate (weighted (mab_metrics mab)))
                  (w_avgResponseTime (weighted (mab_metrics mab)));
     action := action;
     confidence := mab_confidence mab;
     baseline :=
       {| bl_weight := currentWeight mab;
          bl_priority := currentPriority mab |} |}.

Definition convertToScheduleDecisions (mabDecisions : list MABDecision)
  : list ScheduleDecision :=
  map convertToScheduleDecision mabDecisions.

Definition count (summary : ScheduleSummary) (decision : ScheduleDecision)
  : ScheduleSummary :=
  match action decision with
  | promote =>
      {| promoted := promoted summary + 1; demoted := demoted summary;
         maintained := maintained summary; recovered := recovered summary;
         circuitOpen := circuitOpen summary |}
  | demote =>
      {| promoted := promoted summary; demoted := demoted summary + 1;
         maintained := maintained summary; recovered := recovered summary;
         circuitOpen := circuitOpen summary |}
  | maintain =>
      {| promoted := promoted summary; demoted := demoted summary;
         maintained := maintained summary + 1; recovered := recovered summary;
         circuitOpen := circuitOpen summary |}
  | recover =>
      {| promoted := promoted summary; demoted := demoted summary;
         maintained := maintained summary; recovered := recovered summary + 1;
         circuitOpen := circuitOpen summary |}
  | circuit_penalty =>
      {| promoted := promoted summary; demoted := demoted summary;
         maintained := maintained summary; recovered := recovered summary;
         circuitOpen := circuitOpen summary + 1 |}
  | explore =>
      {| promoted := promoted summary; demoted := demoted summary;
         maintained := maintained summary + 1; recovered := recovered summary;
         circuitOpen := circuitOpen summary |}
  end.

Definition calculateSummary (decisions : list ScheduleDecision)
  : ScheduleSummary :=
  fold_left count decisions emptySummary.

(** The filter at the head of [applyDecisions]: decisions whose weight or
    priority changes. *)
Definition changed (d : ScheduleDecision) : bool :=
  negb (a_weight (afterState d) =? b_weight (beforeState d))
  || negb (a_priority (afterState d) =? b_priority (beforeState d)).


Definition updateOf (env : Env) (decision : ScheduleDecision) : ProviderUpdate :=
  {| u_weight := Some (a_weight (afterState decision));
     u_priority := Some (a_priority (afterState decision));
     u_last_schedule_time := Some (now env);
     u_base_weight :=
       if bl_weight (baseline decision) =? b_weight (beforeState decision)
       then Some (b_weight (beforeState decision)) else None;
     u_base_priority :=
       if bl_priority (baseline decision) =? b_priority (beforeState decision)
       then Some (b_priority (beforeState decision)) else None |}.

Definition applyDecisions (env : Env) (decisions : list ScheduleDecision)
  : Async unit :=
  let updates := filter changed decisions in
  forEach updates (fun decision =>
    try_catch
      (updateProvider env (providerId decision) (updateOf env decision))
      (fun _ => emit (LoggerError RealtimeUpdateFailed))).

Definition logData (decisions : list ScheduleDecision)
    (summary : ScheduleSummary) (executionTime : Z) (dryRun : bool)
  : ScheduleLogData :=
  {| execution_time := executionTime;
     executed_by := "realtime-auto";
     dry_run := dryRun;
     total_providers := Z.of_nat (List.length decisions);
     analyzed_providers :=
       Z.of_nat (List.length (filter (fun d => confidence d >=? 50) decisions));
     affected_providers := affected summary;
     log_decisions := decisions;
     log_summary := summary |}.

Definition logExecution (env : Env) (decisions : list ScheduleDecision)
    (summary : ScheduleSummary) (executionTime : Z) (dryRun : bool)
  : Async unit :=
  try_catch
    (createScheduleLog env (logData decisions summary executionTime dryRun)
       ;;; ret tt)
    (fun _ => emit (LoggerError RealtimeLogFailed)).

Definition emptyResult (ok : bool) (executionTime : Z) (error : option string)
  : RealtimeScheduleResult :=
  {| r_ok := ok;
     r_executionTime := executionTime;
     r_totalProviders := 0;
     r_affectedProviders := 0;
     r_decisions := [];
     r_summary := emptySummary;
     r_error := error |}.

(** Steps 3 and 4 of [execute] on the rows the analytics query returns. *)
Definition decisionsOf (env : Env) (config : MABConfig)
    (settings : SystemSettings) (w : World) : list ScheduleDecision :=
  convertToScheduleDecisions
    (MABScheduler.generateDecisions
       (map (toMultiWindowAnalytics env
               (orElse (shortTermWindowMinutes settings) 60)
               (orElse (mediumTermWindowMinutes settings) 360)
               (orElse (longTermWindowMinutes settings) 1440))
            (enabledRows w))
       config).

(** Step 6 of [execute]: [if (!dryRun) await this.applyDecisions(decisions)]. *)
Definition commit (env : Env) (decisions : list ScheduleDecision)
    (dryRun : bool) : Async unit :=
  if negb dryRun then applyDecisions env decisions else ret tt.

(** The body of the [try] block of [execute]. *)
Definition run (env : Env) (config : MABConfig) (dryRun : bool)
    (executionTime : Z) : Async RealtimeScheduleResult :=
  settings <- getSystemSettings env ;;
  providers <- getProviderMultiWindowAnalytics env
                 (orElse (shortTermWindowMinutes settings) 60)
                 (orElse (mediumTermWindowMinutes settings) 360)
                 (orElse (longTermWindowMinutes settings) 1440) ;;
  if (List.length providers =? 0)%nat then
    ret (emptyResult true executionTime None)
  else
    let mabDecisions := MABScheduler.generateDecisions providers config in
    let decisions := convertToScheduleDecisions mabDecisions in
    let summary := calculateSummary decisions in
    commit env decisions dryRun ;;;
    logExecution env decisions summary executionTime dryRun ;;;
    ret {| r_ok := true;
           r_executionTime := executionTime;
           r_totalProviders := Z.of_nat (List.length providers);
           r_affectedProviders := affected summary;
           r_decisions := decisions;
           r_summary := summary;
           r_error := None |}.

Definition execute (env : Env) (config : MABConfig) (dryRun : bool)
  : World -> RealtimeScheduleResult * World :=
  let executionTime := now env in
  catch_all (run env config dryRun executionTime)
    (fun msg w =>
       (emptyResult false executionTime (Some msg),
        snd (emit (LoggerError RealtimeExecutionFailed) w))).

End RealtimeDecisionEngine.

(** ** lib/scheduler/auto-scheduler.ts *)


Module AutoScheduler.

Definition applyStrategy (provider : Provider) (analytics : ProviderAnalytics)
    (circuitState : CircuitState) (config : ScheduleConfig) : ScheduleDecision :=
  let score := an_performanceScore analytics in
  let confidence := an_confidence analytics in
  let baseWeight := orElse (baseWeight provider) (weight provider) in
  let basePriority := orElse (basePriority provider) (priority provider) in
  let beforeState :=
    {| b_weight := weight provider;
       b_priority := priority provider;
       b_performanceScore := score;
       b_circuitState := circuitState |} in
  let decide (w p : Z) (act : ScheduleAction) : ScheduleDecision :=
    {| providerId := id provider;
       providerName := name provider;
       beforeState := beforeState;
       afterState :=
         {| a_weight := w; a_priority := p; a_performanceScore := score |};
       metrics := an_metrics analytics;
       action := act;
       confidence := confidence;
       baseline := {| bl_weight := baseWeight; bl_priority := basePriority |} |} in
  if confidence <? 50 then
    decide (weight provider) (priority provider) maintain
  else
    match circuitState with
    | open =>
        let newWeight :=
          Z.max 1 (Math.floor (inject_Z (weight provider) * 0.7)) in
        let newPriority := priority provider + 2 in
        decide newWeight newPriority circuit_penalty
    | _ =>
        if Qltb 80 score
           && ((weight provider <? baseWeight)
               || (priority provider >? basePriority))
        then decide baseWeight basePriority recover
        else if Qltb 85 score then
          let newWeight :=
            Z.min 100 (Math.floor (inject_Z (weight provider) * 1.2)) in
          let newPriority := Z.max 0 (priority provider - 1) in
          decide newWeight newPriority promote
        else if Qltb score 60 then
          let newWeight :=
            Z.max 1 (Math.floor (inject_Z (weight provider) * 0.8)) in
          let newPriority := priority provider + 1 in
          decide newWeight newPriority demote
        else decide (weight provider) (priority provider) maintain
    end.

Definition count (summary : ScheduleSummary) (decision : ScheduleDecision)
  : ScheduleSummary :=
  match action decision with
  | promote =>
      {| promoted := promoted summary + 1; demoted := demoted summary;
         maintained := maintained summary; recovered := recovered summary;
         circuitOpen := circuitOpen summary |}
  | demote =>
      {| promoted := promoted summary; demoted := demoted summary + 1;
         maintained := maintained summary; recovered := recovered summary;
         circuitOpen := circuitOpen summary |}
  | maintain =>
      {| promoted := promoted summary; demoted := demoted summary;
         maintained := maintained summary + 1; recovered := recovered summary;
         circuitOpen := circuitOpen summary |}
  | recover =>
      {| promoted := promoted summary; demoted := demoted summary;
         maintained := maintained summary; recovered := recovered summary + 1;
         circuitOpen := circuitOpen summary |}
  | circuit_penalty =>
      {| promoted := promoted summary; demoted := demoted summary;
         maintained := maintained summary; recovered := recovered summary;
         circuitOpen := circuitOpen summary + 1 |}
  | explore => summary
  end.

Definition calculateSummary (decisions : list ScheduleDecision)
  : ScheduleSummary :=
  fold_left count decisions emptySummary.

(** The filter at the head of [applyDecisions]. *)
Definition toUpdate (d : ScheduleDecision) : bool :=
  negb (match action d with maintain => true | _ => false end)
  && (confidence d >=? 50).


Definition getConfig : ScheduleConfig :=
  {| enableAutoSchedule := false;
     scheduleTime := "02:00";
     sc_minSampleSize := 10;
     scheduleWindowHours := 24 |}.

(** [new Map(analyticsData.map(a => [a.id, a])).get(id)]: of several entries
    with one key the last one stays. *)
Definition analyticsGet (analyticsData : list ProviderAnalytics) (key : Z)
  : option ProviderAnalytics :=
  find (fun a => an_id a =? key) (rev analyticsData).

(** The [for] loop of [generateDecisions]: disabled providers and providers
    without analytics are skipped. *)
Definition decide (env : Env) (config : ScheduleConfig)
    (providers : list Provider) (analyticsData : list ProviderAnalytics)
  : list ScheduleDecision :=
  flat_map
    (fun provider =>
       if negb (isEnabled provider) then []
       else
         match analyticsGet analyticsData (id provider) with
         | None => []
         | Some analytics =>
             [applyStrategy provider analytics
                (getCircuitState env (id provider)) config]
         end)
    providers.

(** [Promise.all] of the two reads: the first failure is what is thrown. *)
Definition generateDecisions (env : Env) (config : ScheduleConfig)
  : Async (list ScheduleDecision) :=
  providers <- findProviderList env 1000 0 ;;
  analyticsData <- getProviderAnalytics env ;;
  ret (decide env config providers analyticsData).

(** The decisions [generateDecisions] returns when both reads succeed. *)
Definition decisionsOf (env : Env) (config : ScheduleConfig) (w : World)
  : list ScheduleDecision :=
  decide env config (firstn 1000 (skipn 0 (providers w)))
         (map (toProviderAnalytics env) (enabledRows w)).

Definition updateOf (decision : ScheduleDecision) : ProviderUpdate :=
  {| u_weight := Some (a_weight (afterState decision));
     u_priority := Some (a_priority (afterState decision));
     u_last_schedule_time := None;
     u_base_weight :=
       if bl_weight (baseline decision) =? b_weight (beforeState decision)
       then Some (b_weight (beforeState decision)) else None;
     u_base_priority :=
       if bl_priority (baseline decision) =? b_priority (beforeState decision)
       then Some (b_priority (beforeState decision)) else None |}.

Definition applyDecisions (env : Env) (decisions : list ScheduleDecision)
  : Async unit :=
  let updates := filter toUpdate decisions in
  forEach updates (fun decision =>
    updateProvider env (providerId decision) (updateOf decision)).

Definition logData (env : Env) (decisions : list ScheduleDecision)
    (summary : ScheduleSummary) (executedBy : string) (dryRun : bool)
  : ScheduleLogData :=
  {| execution_time := now env;
     executed_by := executedBy;
     dry_run := dryRun;
     total_providers := Z.of_nat (List.length decisions);
     analyzed_providers :=
       Z.of_nat (List.length (filter (fun d => confidence d >=? 50) decisions));
     affected_providers := affected summary;
     log_decisions := decisions;
     log_summary := summary |}.

Definition logExecution (env : Env) (decisions : list ScheduleDecision)
    (summary : ScheduleSummary) (executedBy : string) (dryRun : bool)
  : Async Z :=
  createScheduleLog env (logData env decisions summary executedBy dryRun).

(** Step 4 of [execute]:
    [if (!dryRun && decisions.length > 0) await this.applyDecisions(decisions)]. *)
Definition commit (env : Env) (decisions : list ScheduleDecision)
    (dryRun : bool) : Async unit :=
  if negb dryRun && (0 <? List.length decisions)%nat
  then applyDecisions env decisions else ret tt.

(** The body of the [try] block of [execute]. *)
Definition run (env : Env) (dryRun : bool) (executedBy : string)
    (config : option ScheduleConfig) : Async ScheduleResult :=
  let scheduleConfig := orElse config getConfig in
  decisions <- generateDecisions env scheduleConfig ;;
  let summary := calculateSummary decisions in
  commit env decisions dryRun ;;;
  logId <- logExecution env decisions summary executedBy dryRun ;;
  ret {| s_ok := true;
         s_logId := Some logId;
         s_totalProviders := Z.of_nat (List.length decisions);
         s_analyzedProviders :=
           Z.of_nat
             (List.length (filter (fun d => confidence d >=? 50) decisions));
         s_affectedProviders := affected summary;
         s_decisions := decisions;
         s_summary := summary;
         s_error := None |}.

Definition execute (env : Env) (dryRun : bool) (executedBy : string)
    (config : option ScheduleConfig) : World -> ScheduleResult * World :=
  catch_all (run env dryRun executedBy config)
    (fun msg w =>
       ({| s_ok := false;
           s_logId := None;
           s_totalProviders := 0;
           s_analyzedProviders := 0;
           s_affectedProviders := 0;
           s_decisions := [];
           s_summary := emptySummary;
           s_error := Some msg |},
        snd (emit (LoggerError AutoExecutionFailed) w))).

End AutoScheduler.

(** ** Observations on a run *)

(** The calls to [updateProvider] among the events, in order. *)
Definition updateCalls (es : list Event) : list (Z * ProviderUpdate) :=
  flat_map (fun e => match e with
                     | UpdateProviderCall i d => [(i, d)]
                     | _ => []
                     end) es.

(** The calls to [createScheduleLog] among the events, in order. *)
Definition logCalls (es : list Event) : list ScheduleLogData :=
  flat_map (fun e => match e with
                     | CreateScheduleLogCall d => [d]
                     | _ => []
                     end) es.

(** The provider table together with the writes attempted on it. *)
Definition providerStore (w : World) : list Provider * list (Z * ProviderUpdate) :=
  (providers w, updateCalls (events w)).

(** The log table together with the writes attempted on it. *)
Definition logStore (w : World) : list (Z * ScheduleLogData) * list ScheduleLogData :=
  (scheduleLogs w, logCalls (events w)).

(** [m] leaves what [view] shows of the world as it found it; with
    [providerStore], [m] neither changes the provider table nor calls
    [updateProvider]. *)
Definition keeps {A X : Type} (view : World -> X) (m : Async A) : Prop :=
  forall w, view (snd (m w)) = view w.

(** [m] never throws. *)
Definition returns {A : Type} (m : Async A) : Prop :=
  forall w, exists a w', m w = (Returned a, w').

(** The four actions the realtime classification can produce. *)
Definition realtimeAction (a : ScheduleAction) : Prop :=
  a = explore \/ a = promote \/ a = demote \/ a = maintain.

(** The fused request count of a MAB decision is a count. *)
Definition countedRequests (mab : MABDecision) : Prop :=
  0 <= w_requests (weighted (mab_metrics mab)).

(** The world after [logger.error] has been called at [sites]. *)
Definition logged (w : World) (sites : list ErrorSite) : World :=
  {| providers := providers w;
     scheduleLogs := scheduleLogs w;
     events := events w ++ map LoggerError sites |}.

(** The provider table after the update [data] of provider [i] took
    effect. *)
Definition updated (i : Z) (data : ProviderUpdate) (ps : list Provider)
  : list Provider :=
  map (fun p => if id p =? i then applyUpdate data p else p) ps.

(** The provider table after the realtime engine has gone through the
    decisions [ds]: the updates that fail are skipped, the others take
    effect in order. *)
Definition committed (env : Env) (ds : list ScheduleDecision)
    (ps : list Provider) : list Provider :=
  fold_left
    (fun ps d =>
       match updateProviderError env (providerId d) with
       | Some _ => ps
       | None => updated (providerId d) (RealtimeDecisionEngine.updateOf env d) ps
       end)
    (filter RealtimeDecisionEngine.changed ds) ps.

(** How often [logger.error] was called at [site]. *)
Definition errorsAt (site : ErrorSite) (es : list Event) : nat :=
  List.length
    (filter (fun e => match e with
                      | LoggerError s =>
                          if ErrorSite_eq_dec s site then true else false
                      | _ => false
                      end) es).

(** ** Concrete inputs *)

Module Examples.

Definition win (r : Z) (e t : Q) : WindowStats :=
  {| requests := r; errorRate := e; avgResponseTime := t |}.

(** 300 requests over the three windows, no error, no latency: score 100. *)
Definition healthy : MultiWindowMetrics :=
  MultiWindow.toMetrics (win 100 0 0) (win 100 0 0) (win 100 0 0).

(** The defaults [BackgroundScheduler.executeSchedule] falls back to. *)
Definition mabConfig : MABConfig :=
  {| explorationRate := 15;
     minSampleSize := 10;
     circuitRecoveryWeightPercent := 30;
     maxWeightAdjustmentPercent := 10 |}.

Definition analytics (w p : Z) (bw bp : option Z) (c : CircuitState)
  : ProviderMultiWindowAnalytics :=
  {| pa_id := 1; pa_name := "p1"; pa_weight := w; pa_priority := p;
     pa_baseWeight := bw; pa_basePriority := bp;
     pa_metrics := healthy; pa_circuitState := c |}.

(** A provider left at weight 0 and priority 999 by a cycle that saw its
    circuit open, seen again once the circuit has closed. *)
Definition afterOpen : ProviderMultiWindowAnalytics :=
  analytics 0 999 (Some 10) (Some 1) closed.

Definition steady : ProviderMultiWindowAnalytics :=
  analytics 10 1 (Some 10) (Some 1) closed.

Definition scheduleConfig : ScheduleConfig :=
  {| enableAutoSchedule := false; scheduleTime := "02:00";
     sc_minSampleSize := 10; scheduleWindowHours := 24 |}.

Definition provider (i w p : Z) (bw bp : option Z) : Provider :=
  {| id := i; name := "p"; weight := w; priority := p;
     baseWeight := bw; basePriority := bp;
     isEnabled := true; lastScheduleTime := None |}.

(** Analytics of the rule scheduler: 100 requests today, score [s],
    confidence [c]. *)
Definition ruleAnalytics (i : Z) (s : Q) (c : Z) : ProviderAnalytics :=
  {| an_id := i;
     an_metrics := metrics_of 100 0 0;
     an_performanceScore := s;
     an_confidence := c |}.

Definition defaultSettings : SystemSettings :=
  {| shortTermWindowMinutes := None;
     mediumTermWindowMinutes := None;
     longTermWindowMinutes := None |}.

(** 100 requests today, half of them failed, 5 s on average: score 50. *)
Definition poor : ProviderMetrics := metrics_of 100 0.5 5000.

(** An environment in which every provider is healthy over the three
    windows and poor over the day, every circuit is closed and the reads
    succeed; [updErr] and [logErr] say which writes fail. *)
Definition env (updErr : Z -> option string) (logErr : option string) : Env :=
  {| now := 1000;
     settings := Returned defaultSettings;
     windowStats := fun _ _ => win 100 0 0;
     dailyMetrics := fun _ => poor;
     getCircuitState := fun _ => closed;
     multiWindowQueryError := None;
     findProviderListError := None;
     providerAnalyticsQueryError := None;
     updateProviderError := updErr;
     createScheduleLogError := logErr |}.

Definition allFine : Env := env (fun _ => None) None.

(** The update of provider 1 fails, every other write succeeds. *)
Definition firstUpdateFails : Env :=
  env (fun i => if i =? 1 then Some "connection lost"%string else None) None.

(** The update of provider 2 fails, every other write succeeds. *)
Definition secondUpdateFails : Env :=
  env (fun i => if i =? 2 then Some "connection lost"%string else None) None.

Definition world (ps : list Provider) : World :=
  {| providers := ps; scheduleLogs := []; events := [] |}.

Definition twoProviders : World :=
  world [provider 1 10 1 None None; provider 2 20 2 None None].

(** A provider that no cycle has adjusted yet. *)
Definition fresh : World := world [provider 1 10 1 None None].

Definition noProvider : World := world [].

(** What a cycle may change of a provider. *)
Definition state (p : Provider) : Z * Z * option Z * option Z :=
  (weight p, priority p, baseWeight p, basePriority p).

End Examples.

(* ================================================================== *)
(** * Further code of the scheduler *)
(* ================================================================== *)

From Stdlib Require DecimalString.

(** The decimal text JavaScript gives an integer in a template string
    (below 10^21 in absolute value, where it starts to use exponents). *)
Definition toString (z : Z) : string :=
  DecimalString.NilZero.string_of_int (Z.to_int z).

(** ** lib/scheduler/performance-scorer.ts: trends

    [formatTrend] and [isImprovement] of [PerformanceScorer]. *)

Module Trend.

Definition formatTrend (trend : Q) (reverse : bool) : string :=
  let actualTrend := if reverse then (- trend)%Q else trend in
  let percentage := Math.round (actualTrend * 100) in
  if percentage >? 0 then ("+" ++ toString percentage ++ "%")%string
  else if percentage <? 0 then (toString percentage ++ "%")%string
  else "0%"%string.

Definition isImprovement (trend : Q) (reverse : bool) : bool :=
  let actualTrend := if reverse then (- trend)%Q else trend in
  Qltb 0 actualTrend.

End Trend.

(** The first character of a text, if there is one. *)
Definition firstChar (s : string) : option Ascii.ascii :=
  match s with
  | EmptyString => None
  | String c _ => Some c
  end.

(** ** Observations on decisions and results *)

(** The sum of the five counters of a summary. *)
Definition counted (s : ScheduleSummary) : Z :=
  promoted s + demoted s + maintained s + recovered s + circuitOpen s.

(** No counter of the summary is negative. *)
Definition nonneg_summary (s : ScheduleSummary) : Prop :=
  0 <= promoted s /\ 0 <= demoted s /\ 0 <= maintained s
  /\ 0 <= recovered s /\ 0 <= circuitOpen s.

(** What identifies a provider row; no scheduler writes these columns. *)
Definition identity (p : Provider) : Z * string * bool :=
  (id p, name p, isEnabled p).

(** The result [AutoScheduler.execute] returns from its [catch] block. *)
Definition ruleFailure (msg : string) : ScheduleResult :=
  {| s_ok := false;
     s_logId := None;
     s_totalProviders := 0;
     s_analyzedProviders := 0;
     s_affectedProviders := 0;
     s_decisions := [];
     s_summary := emptySummary;
     s_error := Some msg |}.

(** The identities of the rows of the provider table, in order. *)
Definition identities (w : World) : list (Z * string * bool) :=
  map identity (providers w).

From Stdlib Require Import Permutation.

(** ** What a realtime cycle does to one provider *)

(** The decision a realtime cycle takes for the row [row]. *)
Definition decisionFor (env : Env) (config : MABConfig) (st : SystemSettings)
    (row : Provider) : ScheduleDecision :=
  RealtimeDecisionEngine.convertToScheduleDecision
    (MABScheduler.generateDecision config
       (toMultiWindowAnalytics env
          (orElse (shortTermWindowMinutes st) 60)
          (orElse (mediumTermWindowMinutes st) 360)
          (orElse (longTermWindowMinutes st) 1440) row)).

(** One turn of the commit loop, seen from the row [p]: the update of the
    decision [d] reaches [p] when it is for [p]'s id and does not fail. *)
Definition reach (env : Env) (p : Provider) (d : ScheduleDecision) : Provider :=
  if id p =? providerId d then
    match updateProviderError env (providerId d) with
    | Some _ => p
    | None => applyUpdate (RealtimeDecisionEngine.updateOf env d) p
    end
  else p.

(** The row [p] after a real cycle: a disabled provider, a provider whose
    decision changes neither weight nor priority and a provider whose
    update fails stay as they are; any other provider gets the suggested
    weight and priority, its previous weight and priority as baseline, and
    the time of the cycle. *)
Definition settle (env : Env) (config : MABConfig) (st : SystemSettings)
    (p : Provider) : Provider :=
  if isEnabled p then
    let d := decisionFor env config st p in
    if RealtimeDecisionEngine.changed d then
      match updateProviderError env (id p) with
      | Some _ => p
      | None => applyUpdate (RealtimeDecisionEngine.updateOf env d) p
      end
    else p
  else p.

(** ** Further concrete inputs *)

Module MoreExamples.

(** Every circuit is open; otherwise as [Examples.allFine]. *)
Definition allOpen : Env :=
  {| now := 1000;
     settings := Returned Examples.defaultSettings;
     windowStats := fun _ _ => Examples.win 100 0 0;
     dailyMetrics := fun _ => Examples.poor;
     getCircuitState := fun _ => open;
     multiWindowQueryError := None;
     findProviderListError := None;
     providerAnalyticsQueryError := None;
     updateProviderError := fun _ => None;
     createScheduleLogError := None |}.

(** Three requests today for every provider, all of them failed. *)
Definition quiet : Env :=
  {| now := 1000;
     settings := Returned Examples.defaultSettings;
     windowStats := fun _ _ => Examples.win 1 1 9000;
     dailyMetrics := fun _ => metrics_of 3 1 9000;
     getCircuitState := fun _ => closed;
     multiWindowQueryError := None;
     findProviderListError := None;
     providerAnalyticsQueryError := None;
     updateProviderError := fun _ => None;
     createScheduleLogError := None |}.

End MoreExamples.

(** ** lib/scheduler/background-scheduler.ts

    The scheduler keeps its state in one object and arms one-shot timers
    with [setTimeout].  The pending timers of the process are part of the
    model.  [stop], [scheduleNext] and [getStatus] are synchronous.
    [start], [restart], [executeSchedule] and the timer callback are
    [async]: the source suspends them at every [await], where other calls
    can run.  [start], [restart] and [fire] below are these operations run
    undisturbed, from their first statement to their last with nothing in
    between; [callbackCycle] and [callbackRearm] are the two halves of the
    timer callback, for a call that falls between them.  Two cycles that
    run at the same time are not covered.  The [logger] calls of the
    scheduler are not recorded. *)

(** The columns of the settings row that the scheduler reads, beside the
    three window lengths of [SystemSettings]. *)
Record RealtimeSettings := {
  enableRealtimeSchedule : option bool;
  scheduleIntervalSeconds : option Z;
  rs_explorationRate : option Q;
  rs_minSampleSize : option Z;
  rs_circuitRecoveryWeightPercent : option Q;
  rs_maxWeightAdjustmentPercent : option Q
}.

(** The surroundings at one read of the settings: the environment of a
    cycle and the remaining columns of the settings row.  Reading the
    settings throws when [settings env] is thrown. *)
Record Moment := {
  env : Env;
  realtime : RealtimeSettings
}.

Definition readSettings (m : Moment) : Outcome RealtimeSettings :=
  match settings (env m) with
  | Returned _ => Returned (realtime m)
  | Thrown msg => Thrown msg
  end.

(** [!settings.enableRealtimeSchedule]: an absent flag counts as off. *)
Definition scheduleEnabled (s : RealtimeSettings) : bool :=
  orElse (enableRealtimeSchedule s) false.

Record SchedulerConfig := {
  intervalSeconds : Z;
  cfg_explorationRate : Q;
  enabled : bool
}.

Record SchedulerState := {
  isRunning : bool;
  intervalId : option Z;
  lastExecutionTime : option Z;
  nextExecutionTime : option Z;
  totalExecutions : Z;
  lastError : option string;
  config : SchedulerConfig
}.

(** The process: the scheduler object, the timers that [setTimeout] has
    armed and that have neither fired nor been cleared (handle and delay in
    milliseconds), the next free handle, and the world of the engine. *)
Record Process := {
  state : SchedulerState;
  timers : list (Z * Z);
  nextTimer : Z;
  world : World
}.

Module BackgroundScheduler.

Definition initialState : SchedulerState :=
  {| isRunning := false;
     intervalId := None;
     lastExecutionTime := None;
     nextExecutionTime := None;
     totalExecutions := 0;
     lastError := None;
     config :=
       {| intervalSeconds := 30; cfg_explorationRate := 15; enabled := false |} |}.

Definition withState (p : Process) (s : SchedulerState) : Process :=
  {| state := s; timers := timers p; nextTimer := nextTimer p;
     world := world p |}.

(** [clearTimeout(handle)] *)
Definition clearTimeout (handle : Z) (p : Process) : Process :=
  {| state := state p;
     timers := filter (fun t => negb (fst t =? handle)) (timers p);
     nextTimer := nextTimer p;
     world := world p |}.

Definition stop (p : Process) : Process :=
  if negb (isRunning (state p)) then p
  else
    let p1 :=
      match intervalId (state p) with
      | Some handle =>
          withState (clearTimeout handle p)
            {| isRunning := isRunning (state p);
               intervalId := None;
               lastExecutionTime := lastExecutionTime (state p);
               nextExecutionTime := nextExecutionTime (state p);
               totalExecutions := totalExecutions (state p);
               lastError := lastError (state p);
               config := config (state p) |}
      | None => p
      end in
    withState p1
      {| isRunning := false;
         intervalId := intervalId (state p1);
         lastExecutionTime := lastExecutionTime (state p1);
         nextExecutionTime := None;
         totalExecutions := totalExecutions (state p1);
         lastError := lastError (state p1);
         config := config (state p1) |}.

(** The MAB configuration [executeSchedule] builds from the settings. *)
Definition mabConfigOf (s : RealtimeSettings) : MABConfig :=
  {| explorationRate := orElse (rs_explorationRate s) 15%Q;
     minSampleSize := orElse (rs_minSampleSize s) 10;
     circuitRecoveryWeightPercent :=
       orElse (rs_circuitRecoveryWeightPercent s) 30%Q;
     maxWeightAdjustmentPercent :=
       orElse (rs_maxWeightAdjustmentPercent s) 10%Q |}.

Definition executeSchedule (m : Moment) (p : Process) : Process :=
  match readSettings m with
  | Thrown msg =>
      withState p
        {| isRunning := isRunning (state p);
           intervalId := intervalId (state p);
           lastExecutionTime := lastExecutionTime (state p);
           nextExecutionTime := nextExecutionTime (state p);
           totalExecutions := totalExecutions (state p);
           lastError := Some msg;
           config := config (state p) |}
  | Returned settings =>
      if negb (scheduleEnabled settings) then stop p
      else
        let mabConfig := mabConfigOf settings in
        let '(result, w') :=
          RealtimeDecisionEngine.execute (env m) mabConfig false (world p) in
        {| state :=
             {| isRunning := isRunning (state p);
                intervalId := intervalId (state p);
                lastExecutionTime := Some (r_executionTime result);
                nextExecutionTime :=
                  Some (now (env m)
                        + orElse (scheduleIntervalSeconds settings) 30 * 1000);
                totalExecutions := totalExecutions (state p) + 1;
                lastError :=
                  if r_ok result then None
                  else Some (orElse (r_error result) "Unknown error"%string);
                config := config (state p) |};
           timers := timers p;
           nextTimer := nextTimer p;
           world := w' |}
  end.

(** [scheduleNext]: arm the timer for the next cycle, unless stopped. *)
Definition scheduleNext (seconds : Z) (p : Process) : Process :=
  if negb (isRunning (state p)) then p
  else
    {| state :=
         {| isRunning := isRunning (state p);
            intervalId := Some (nextTimer p);
            lastExecutionTime := lastExecutionTime (state p);
            nextExecutionTime := nextExecutionTime (state p);
            totalExecutions := totalExecutions (state p);
            lastError := lastError (state p);
            config := config (state p) |};
       timers := timers p ++ [(nextTimer p, seconds * 1000)];
       nextTimer := nextTimer p + 1;
       world := world p |}.

(** [start], undisturbed: [first] is the moment of its own read of the
    settings, [cycle] the moment of the cycle it runs at once. *)
Definition start (first cycle : Moment) (p : Process) : Outcome unit * Process :=
  if isRunning (state p) then (Returned tt, p)
  else
    match readSettings first with
    | Thrown msg =>
        (Thrown msg,
         withState p
           {| isRunning := false;
              intervalId := intervalId (state p);
              lastExecutionTime := lastExecutionTime (state p);
              nextExecutionTime := None;
              totalExecutions := totalExecutions (state p);
              lastError := lastError (state p);
              config := config (state p) |})
    | Returned settings =>
        if negb (scheduleEnabled settings) then (Returned tt, p)
        else
          let seconds := orElse (scheduleIntervalSeconds settings) 30 in
          let rate := orElse (rs_explorationRate settings) 15%Q in
          let p1 :=
            withState p
              {| isRunning := true;
                 intervalId := intervalId (state p);
                 lastExecutionTime := lastExecutionTime (state p);
                 nextExecutionTime := Some (now (env first) + seconds * 1000);
                 totalExecutions := totalExecutions (state p);
                 lastError := lastError (state p);
                 config :=
                   {| intervalSeconds := seconds;
                      cfg_explorationRate := rate;
                      enabled := true |} |} in
          (Returned tt, scheduleNext seconds (executeSchedule cycle p1))
    end.

Definition restart (first cycle : Moment) (p : Process)
  : Outcome unit * Process :=
  start first cycle (stop p).

(** [getStatus] returns a copy of the state. *)
Definition getStatus (p : Process) : SchedulerState := state p.

(** The timer [handle] fires and its callback runs undisturbed: the timer
    leaves the pending ones, the callback runs a cycle at [cycle], reads
    the settings again at [again] and arms the next timer with the interval
    it finds.  Nothing catches a failure of that second read.  A handle
    that is not pending does nothing. *)
Definition fire (handle : Z) (cycle again : Moment) (p : Process)
  : Outcome unit * Process :=
  if existsb (fun t => fst t =? handle) (timers p) then
    let p1 := executeSchedule cycle (clearTimeout handle p) in
    match readSettings again with
    | Thrown msg => (Thrown msg, p1)
    | Returned settings =>
        let newIntervalSeconds :=
          orElse (scheduleIntervalSeconds settings) 30 in
        (Returned tt,
         if isRunning (state p1) then scheduleNext newIntervalSeconds p1
         else p1)
    end
  else (Returned tt, p).

(** The timer callback up to its second [await]: the fired timer leaves
    the pending ones and the cycle runs. *)
Definition callbackCycle (handle : Z) (cycle : Moment) (p : Process)
  : Process :=
  executeSchedule cycle (clearTimeout handle p).

(** The timer callback from its second [await] on: the settings are read
    at [again] and, if the scheduler is running by then, the next timer is
    armed. *)
Definition callbackRearm (again : Moment) (p : Process)
  : Outcome unit * Process :=
  match readSettings again with
  | Thrown msg => (Thrown msg, p)
  | Returned settings =>
      let newIntervalSeconds :=
        orElse (scheduleIntervalSeconds settings) 30 in
      (Returned tt,
       if isRunning (state p) then scheduleNext newIntervalSeconds p else p)
  end.

(** [initBackgroundScheduler] on the server: a failing start is logged,
    not thrown. *)
Definition initBackgroundScheduler (first cycle : Moment) (p : Process)
  : Process :=
  snd (start first cycle p).

Definition shutdownBackgroundScheduler (p : Process) : Process := stop p.

End BackgroundScheduler.

(** The process at its start: the scheduler object as constructed, no
    timer armed. *)
Definition boot (w : World) : Process :=
  {| state := BackgroundScheduler.initialState;
     timers := [];
     nextTimer := 1;
     world := w |}.

(** One call from outside or one timer firing. *)
Inductive Step :=
| DoStart (first cycle : Moment)
| DoStop
| DoRestart (first cycle : Moment)
| DoFire (handle : Z) (cycle again : Moment).

Definition step (s : Step) (p : Process) : Process :=
  match s with
  | DoStart first cycle => snd (BackgroundScheduler.start first cycle p)
  | DoStop => BackgroundScheduler.stop p
  | DoRestart first cycle => snd (BackgroundScheduler.restart first cycle p)
  | DoFire handle cycle again =>
      snd (BackgroundScheduler.fire handle cycle again p)
  end.

(** The process after the steps of [history], oldest first. *)
Definition after (history : list Step) (p : Process) : Process :=
  fold_left (fun p s => step s p) history p.

(** At most one timer is pending, it is the one the scheduler holds the
    handle of, its handle is below the next free one, and a stopped
    scheduler has none. *)
Definition tidy (p : Process) : Prop :=
  (timers p = []
   \/ exists handle delay,
        timers p = [(handle, delay)]
        /\ intervalId (state p) = Some handle
        /\ isRunning (state p) = true)
  /\ Forall (fun t => fst t < nextTimer p) (timers p).

Module SchedulerExamples.

Definition switchedOn (seconds : option Z) : RealtimeSettings :=
  {| enableRealtimeSchedule := Some true;
     scheduleIntervalSeconds := seconds;
     rs_explorationRate := None;
     rs_minSampleSize := None;
     rs_circuitRecoveryWeightPercent := None;
     rs_maxWeightAdjustmentPercent := None |}.

Definition switchedOff : RealtimeSettings :=
  {| enableRealtimeSchedule := Some false;
     scheduleIntervalSeconds := None;
     rs_explorationRate := None;
     rs_minSampleSize := None;
     rs_circuitRecoveryWeightPercent := None;
     rs_maxWeightAdjustmentPercent := None |}.

(** Everything works and the schedule is on, every [seconds] seconds. *)
Definition on (seconds : option Z) : Moment :=
  {| env := Examples.allFine; realtime := switchedOn seconds |}.

(** Everything works and the schedule is off. *)
Definition off : Moment :=
  {| env := Examples.allFine; realtime := switchedOff |}.

(** The settings cannot be read. *)
Definition unreadable : Moment :=
  {| env :=
       {| now := 2000;
          settings := Thrown "settings unavailable";
          windowStats := fun _ _ => Examples.win 100 0 0;
          dailyMetrics := fun _ => Examples.poor;
          getCircuitState := fun _ => closed;
          multiWindowQueryError := None;
          findProviderListError := None;
          providerAnalyticsQueryError := None;
          updateProviderError := fun _ => None;
          createScheduleLogError := None |};
     realtime := switchedOn None |}.

(** A process started with the default interval: running, timer 1 armed. *)
Definition started : list Step := [DoStart (on None) (on None)].

End SchedulerExamples.

(** ** The manual trigger of [actions/realtime-schedule.ts] *)

(** The object [triggerManualSchedule] resolves to. *)
Record TriggerResult := {
  t_ok : bool;
  t_message : option string;
  t_error : option string
}.

(** [triggerManualSchedule]: read the settings, run one real cycle of the
    realtime engine with the configuration [executeSchedule] also builds,
    and report.  The action takes no session and does not look at
    [enableRealtimeSchedule].  Its [logger] calls are not recorded. *)
Definition triggerManualSchedule (m : Moment) (w : World)
  : TriggerResult * World :=
  match readSettings m with
  | Thrown msg =>
      ({| t_ok := false; t_message := None; t_error := Some msg |}, w)
  | Returned settings =>
      let '(result, w') :=
        RealtimeDecisionEngine.execute
          (env m) (BackgroundScheduler.mabConfigOf settings) false w in
      if r_ok result then
        ({| t_ok := true;
            t_message :=
              Some ("调度成功，影响 "
                    ++ toString (r_affectedProviders result)
                    ++ " 个供应商")%string;
            t_error := None |}, w')
      else
        ({| t_ok := false;
            t_message := None;
            t_error := Some (orElse (r_error result) "调度失败"%string) |}, w')
  end.

(** ** Observations on the commit step of the rule scheduler *)

(** The updates of [us] up to the first one that fails: the decisions
    whose update succeeds, then the failing decision and its error, if
    any. *)
Fixpoint untilFailure (env : Env) (us : list ScheduleDecision)
  : list ScheduleDecision * option (ScheduleDecision * string) :=
  match us with
  | [] => ([], None)
  | d :: rest =>
      match updateProviderError env (providerId d) with
      | Some msg => ([], Some (d, msg))
      | None =>
          let '(done, failure) := untilFailure env rest in
          (d :: done, failure)
      end
  end.

(** The provider table after the updates of [done] took effect in order. *)
Definition applied (done : list ScheduleDecision) (ps : list Provider)
  : list Provider :=
  fold_left (fun ps d => updated (providerId d) (AutoScheduler.updateOf d) ps)
            done ps.

Definition ruleCall (d : ScheduleDecision) : Z * ProviderUpdate :=
  (providerId d, AutoScheduler.updateOf d).

(** ** The reset action of [actions/provider-analytics.ts] *)

(** [isAdjusted] of a row of [getProviderAnalytics]. *)
Definition isAdjusted (row : Provider) : bool :=
  match baseWeight row with
  | Some b => negb (weight row =? b)
  | None => false
  end
  || match basePriority row with
     | Some b => negb (priority row =? b)
     | None => false
     end.

(** A row of [getProviderAnalytics] with the columns the reset action reads:
    the analytics that [toProviderAnalytics] computes, and the weight and
    priority columns of the provider the row was selected from. *)
Record AnalyticsRow := {
  row_analytics : ProviderAnalytics;
  row_weight : Z;
  row_priority : Z;
  row_baseWeight : option Z;
  row_basePriority : option Z;
  row_isAdjusted : bool
}.

Definition toAnalyticsRow (env : Env) (row : Provider) : AnalyticsRow :=
  {| row_analytics := toProviderAnalytics env row;
     row_weight := weight row;
     row_priority := priority row;
     row_baseWeight := baseWeight row;
     row_basePriority := basePriority row;
     row_isAdjusted := isAdjusted row |}.

(** [getProviderAnalytics] again, with these columns. *)
Definition getProviderAnalyticsFromDB (env : Env) : Async (list AnalyticsRow) :=
  match providerAnalyticsQueryError env with
  | Some msg => emit (LoggerError ProviderAnalyticsFailed) ;;; throw msg
  | None => fun w => (Returned (map (toAnalyticsRow env) (enabledRows w)), w)
  end.

(** What [getSession] resolved to, as far as the actions read it; [None] is
    [null].  [lib/auth] is not among the sources, so the session is an
    argument of the action. *)
Record Session := {
  userName : string;
  role : string
}.

Definition isAdmin (session : option Session) : bool :=
  match session with
  | Some s => String.eqb (role s) "admin"
  | None => false
  end.

(** [ActionResult]: [{ ok: true, data }] or [{ ok: false, error }]. *)
Inductive ActionResult (A : Type) :=
| Ok (data : A)
| Failed (error : string).

Arguments Ok {A} data.
Arguments Failed {A} error.

Definition noPermission : string := "无权限执行此操作".
Definition providerMissing : string := "供应商不存在".
Definition noBaseline : string := "供应商没有设置基准值".

Definition resetUpdate (bw bp : Z) : ProviderUpdate :=
  {| u_weight := Some bw;
     u_priority := Some bp;
     u_last_schedule_time := None;
     u_base_weight := None;
     u_base_priority := None |}.

(** [resetProviderToBaseline].  The page cache that [revalidatePath]
    refreshes and the logger call of the [catch] block are not part of the
    model. *)
Definition resetProviderToBaseline (env : Env) (session : option Session)
    (providerId : Z) : World -> ActionResult unit * World :=
  catch_all
    (if negb (isAdmin session) then ret (Failed noPermission)
     else
       analytics <- getProviderAnalyticsFromDB env ;;
       match find (fun a => an_id (row_analytics a) =? providerId) analytics with
       | None => ret (Failed providerMissing)
       | Some provider =>
           match row_baseWeight provider, row_basePriority provider with
           | Some bw, Some bp =>
               updateProvider env providerId (resetUpdate bw bp) ;;;
               ret (Ok tt)
           | _, _ => ret (Failed noBaseline)
           end
       end)
    (fun msg w => (Failed msg, w)).

(** The baseline columns of the provider table, row by row. *)
Definition baselines (w : World) : list (option Z * option Z) :=
  map (fun p => (baseWeight p, basePriority p)) (providers w).

Module ResetExamples.

Definition admin : option Session :=
  Some {| userName := "root"; role := "admin" |}.

Definition guest : option Session :=
  Some {| userName := "guest"; role := "user" |}.

(** A provider that a scheduler moved from weight 50 and priority 1. *)
Definition moved : Provider :=
  {| id := 7;
     name := "moved";
     weight := 35;
     priority := 3;
     baseWeight := Some 50;
     basePriority := Some 1;
     isEnabled := true;
     lastScheduleTime := Some 1000 |}.

Definition table : World :=
  {| providers := [moved]; scheduleLogs := []; events := [] |}.

End ResetExamples.
(* ================================================================== *)
(** * Properties *)
(* ================================================================== *)

(** ** Arithmetic helpers *)

Lemma Qltb_lt (x y : Q) : Qltb x y = true <-> (x < y)%Q.
Proof.
  unfold Qltb. rewrite negb_true_iff.
  split; intro H.
  - apply Qnot_le_lt. intro Hle. apply Qle_bool_iff in Hle. congruence.
  - destruct (Qle_bool y x) eqn:E; [|reflexivity].
    apply Qle_bool_iff in E. exfalso. exact (Qlt_not_le _ _ H E).
Qed.

Lemma Qfloor_lt_bound (x : Q) (n : Z) : (x < inject_Z n)%Q -> Qfloor x < n.
Proof.
  intro H.
  assert (Hf := Qfloor_le x).
  assert (Hlt : (inject_Z (Qfloor x) < inject_Z n)%Q) by (eapply Qle_lt_trans; eauto).
  now rewrite <- Zlt_Qlt in Hlt.
Qed.

Lemma Qfloor_ge_bound (x : Q) (n : Z) : (inject_Z n <= x)%Q -> n <= Qfloor x.
Proof.
  intro H. rewrite <- (Qfloor_Z n). now apply Qfloor_resp_le.
Qed.

Lemma round_mono (x y : Q) : (x <= y)%Q -> Math.round x <= Math.round y.
Proof.
  intro H. unfold Math.round. apply Qfloor_resp_le.
  now apply Qplus_le_l.
Qed.



(** ** PerformanceScorer *)

Lemma calculateScore_unfold (m : ProviderMetrics) :
  PerformanceScorer.calculateScore m =
  PerformanceScorer.round_one_decimal
    (Qmax 0 (Qmin 60 ((1 - todayErrorRate m) * 60))
     + Qmax 0 (Qmin 40 ((1 - Qmin (todayAvgResponseTime m / 10000) 1) * 40)))%Q.
Proof. reflexivity. Qed.







Example calculateScore_half :
  PerformanceScorer.calculateScore (metrics_of 100 0.5 5000) == 50.
Proof. reflexivity. Qed.

Example calculateScore_rounds :
  PerformanceScorer.calculateScore (metrics_of 100 (1 # 3) 1234) == 75.1.
Proof. reflexivity. Qed.

Lemma ramp_mono (m s1 s2 : Z) :
  0 < m -> s1 <= s2 -> PerformanceScorer.ramp s1 m <= PerformanceScorer.ramp s2 m.
Proof.
  intros Hm Hs. unfold PerformanceScorer.ramp. apply round_mono.
  apply Qmult_le_compat_r; [|discriminate].
  apply Qmult_le_compat_r.
  - now rewrite <- Zle_Qle.
  - apply Qinv_le_0_compat. change 0%Q with (inject_Z 0).
    rewrite <- Zle_Qle. lia.
Qed.

Lemma ramp_nonneg (m s : Z) : 0 < m -> 0 <= s -> 0 <= PerformanceScorer.ramp s m.
Proof.
  intros Hm Hs.
  assert (H0 : PerformanceScorer.ramp 0 m = 0).
  { unfold PerformanceScorer.ramp, Math.round. apply Qfloor_comp with (y := (1 # 2)%Q).
    unfold Qdiv. now rewrite !Qmult_0_l, Qplus_0_l. }
  rewrite <- H0. now apply ramp_mono.
Qed.

Lemma ramp_at_min (m : Z) : 0 < m -> PerformanceScorer.ramp m m = 50.
Proof.
  intro Hm. unfold PerformanceScorer.ramp, Math.round.
  apply Qfloor_comp with (y := (101 # 2)%Q).
  assert (Hne : ~ inject_Z m == 0).
  { change 0%Q with (inject_Z 0). rewrite inject_Z_injective. lia. }
  field_simplify_eq; [reflexivity | exact Hne].
Qed.

Lemma ramp_le_50 (m s : Z) : 0 < m -> s <= m -> PerformanceScorer.ramp s m <= 50.
Proof.
  intros Hm Hs. rewrite <- (ramp_at_min m Hm). now apply ramp_mono.
Qed.

(** C9.  For a fixed minimum sample size of at least 1,
    [PerformanceScorer.calculateConfidence] never decreases when the sample
    size grows. *)
Theorem calculateConfidence_monotone (minSize s1 s2 : Z) :
  1 <= minSize -> s1 <= s2 ->
  PerformanceScorer.calculateConfidence s1 minSize
  <= PerformanceScorer.calculateConfidence s2 minSize.
Proof.
  intros Hm Hs. unfold PerformanceScorer.calculateConfidence.
  fold (PerformanceScorer.ramp s1 minSize).
  fold (PerformanceScorer.ramp s2 minSize).
  assert (Hr1 : 0 < s1 -> s1 <= minSize -> 0 <= PerformanceScorer.ramp s1 minSize <= 50).
  { intros. split; [apply ramp_nonneg | apply ramp_le_50]; lia. }
  assert (Hr2 : 0 < s2 -> s2 <= minSize -> 0 <= PerformanceScorer.ramp s2 minSize <= 50).
  { intros. split; [apply ramp_nonneg | apply ramp_le_50]; lia. }
  assert (Hmono := ramp_mono minSize s1 s2).
  destruct (Z.geb_spec s1 (minSize * 5)), (Z.geb_spec s2 (minSize * 5));
    try lia;
  destruct (Z.geb_spec s1 (minSize * 2)), (Z.geb_spec s2 (minSize * 2));
    try lia;
  destruct (Z.geb_spec s1 minSize), (Z.geb_spec s2 minSize); try lia;
  destruct (Z.gtb_spec s1 0), (Z.gtb_spec s2 0); try lia.
Qed.

Example calculateConfidence_values :
  map (fun n => PerformanceScorer.calculateConfidence n 10)
      [0; 1; 3; 7; 9; 10; 19; 20; 49; 50]
  = [0; 5; 15; 35; 45; 50; 50; 80; 80; 100].
Proof. reflexivity. Qed.

Lemma calculateConfidence_monotone_witness :
  PerformanceScorer.calculateConfidence 3 10
  <= PerformanceScorer.calculateConfidence 7 10.
Proof. apply (calculateConfidence_monotone 10 3 7); lia. Defined.

(** ** Window fusion *)

Lemma fuse_requests (s m l : WindowStats) :
  w_requests (MultiWindow.fuse s m l) = requests s + requests m + requests l.
Proof.
  unfold MultiWindow.fuse.
  destruct (requests s + requests m + requests l =? 0); [reflexivity|].
  match goal with |- context [Qltb ?a ?b] => destruct (Qltb a b) end;
    reflexivity.
Qed.

Lemma fuse_score (s m l : WindowStats) :
  w_performanceScore (MultiWindow.fuse s m l) =
  PerformanceScorer.calculateScore
    (metrics_of (w_requests (MultiWindow.fuse s m l))
                (w_errorRate (MultiWindow.fuse s m l))
                (w_avgResponseTime (MultiWindow.fuse s m l))).
Proof.
  unfold MultiWindow.fuse.
  destruct (requests s + requests m + requests l =? 0); [reflexivity|].
  match goal with |- context [Qltb ?a ?b] => destruct (Qltb a b) end;
    reflexivity.
Qed.

(** With non-negative counts and at least one request, the sum of the
    decayed request shares is positive, so the guard [totalWeight > 0] of
    the source always takes the blending branch. *)
Lemma totalWeight_pos (a b c : Z) :
  0 <= a -> 0 <= b -> 0 <= c -> a + b + c <> 0 ->
  (0 < inject_Z a / inject_Z (a + b + c) * MultiWindow.decayShort
       + inject_Z b / inject_Z (a + b + c) * MultiWindow.decayMedium
       + inject_Z c / inject_Z (a + b + c) * MultiWindow.decayLong)%Q.
Proof.
  intros Ha Hb Hc Hne.
  assert (Ht : (0 < inject_Z (a + b + c))%Q).
  { change 0%Q with (inject_Z 0). rewrite <- Zlt_Qlt. lia. }
  assert (Hi : (0 < / inject_Z (a + b + c))%Q) by now apply Qinv_lt_0_compat.
  assert (Hsum :
    (inject_Z a / inject_Z (a + b + c) * MultiWindow.decayShort
     + inject_Z b / inject_Z (a + b + c) * MultiWindow.decayMedium
     + inject_Z c / inject_Z (a + b + c) * MultiWindow.decayLong
     == inject_Z (6 * a + 3 * b + c) * (1 # 10) * / inject_Z (a + b + c))%Q).
  { unfold MultiWindow.decayShort, MultiWindow.decayMedium,
      MultiWindow.decayLong.
    rewrite !inject_Z_plus, !inject_Z_mult.
    field. intro E. rewrite <- !inject_Z_plus in E.
    rewrite E in Ht. discriminate. }
  rewrite Hsum.
  apply Qmult_lt_0_compat; [|exact Hi].
  apply Qmult_lt_0_compat; [|reflexivity].
  change 0%Q with (inject_Z 0). rewrite <- Zlt_Qlt. lia.
Qed.

(** C7.  Fusion of the three windows.  With no request in any window the
    fused error rate and latency are 0 and the fused score is the score of
    zero error rate and zero latency (100).  Otherwise, for non-negative
    request counts, the fused error rate and latency are the blend of the
    three windows, each weighted by its request share times its decay weight
    (0.6, 0.3, 0.1) and divided by the sum of these three weights. *)
Theorem fuse_spec (s m l : WindowStats) :
  let total := requests s + requests m + requests l in
  let ns := (inject_Z (requests s) / inject_Z total * 0.6)%Q in
  let nm := (inject_Z (requests m) / inject_Z total * 0.3)%Q in
  let nl := (inject_Z (requests l) / inject_Z total * 0.1)%Q in
  (total = 0 ->
     w_errorRate (MultiWindow.fuse s m l) = 0%Q
     /\ w_avgResponseTime (MultiWindow.fuse s m l) = 0%Q
     /\ w_performanceScore (MultiWindow.fuse s m l)
        = PerformanceScorer.calculateScore (metrics_of 0 0 0)
     /\ w_performanceScore (MultiWindow.fuse s m l) == 100)
  /\ (0 <= requests s -> 0 <= requests m -> 0 <= requests l -> total <> 0 ->
      w_errorRate (MultiWindow.fuse s m l)
      == (errorRate s * ns + errorRate m * nm + errorRate l * nl)
         / (ns + nm + nl)
      /\ w_avgResponseTime (MultiWindow.fuse s m l)
         == (avgResponseTime s * ns + avgResponseTime m * nm
             + avgResponseTime l * nl) / (ns + nm + nl)
      /\ w_performanceScore (MultiWindow.fuse s m l)
         = PerformanceScorer.calculateScore
             (metrics_of total (w_errorRate (MultiWindow.fuse s m l))
                         (w_avgResponseTime (MultiWindow.fuse s m l)))).
Proof.
  intros total ns nm nl. split.
  - intro H0. unfold MultiWindow.fuse. fold total. rewrite H0. simpl.
    repeat split; reflexivity.
  - intros Hs Hm Hl Hne.
    assert (Hpos := totalWeight_pos _ _ _ Hs Hm Hl Hne).
    apply Qltb_lt in Hpos.
    split; [|split].
    + unfold MultiWindow.fuse. fold total.
      destruct (Z.eqb_spec total 0) as [E|_]; [contradiction|].
      fold total in Hpos. rewrite Hpos. reflexivity.
    + unfold MultiWindow.fuse. fold total.
      destruct (Z.eqb_spec total 0) as [E|_]; [contradiction|].
      fold total in Hpos. rewrite Hpos. reflexivity.
    + rewrite fuse_score, fuse_requests. reflexivity.
Qed.

Lemma fuse_spec_witness :
  w_errorRate (MultiWindow.fuse
     {| requests := 0; errorRate := 0; avgResponseTime := 0 |}
     {| requests := 0; errorRate := 0; avgResponseTime := 0 |}
     {| requests := 0; errorRate := 0; avgResponseTime := 0 |}) = 0%Q
  /\ w_errorRate (MultiWindow.fuse
     {| requests := 10; errorRate := 0.5; avgResponseTime := 2000 |}
     {| requests := 30; errorRate := 0.1; avgResponseTime := 1000 |}
     {| requests := 60; errorRate := 0; avgResponseTime := 500 |}) == (13 # 70).
Proof.
  split.
  - apply (fuse_spec
      {| requests := 0; errorRate := 0; avgResponseTime := 0 |}
      {| requests := 0; errorRate := 0; avgResponseTime := 0 |}
      {| requests := 0; errorRate := 0; avgResponseTime := 0 |}).
    reflexivity.
  - destruct (fuse_spec
      {| requests := 10; errorRate := 0.5; avgResponseTime := 2000 |}
      {| requests := 30; errorRate := 0.1; avgResponseTime := 1000 |}
      {| requests := 60; errorRate := 0; avgResponseTime := 500 |})
      as [_ H].
    destruct H as [H _]; simpl; try lia.
    eapply Qeq_trans; [exact H | vm_compute; reflexivity].
Defined.

(** ** MABScheduler *)

Lemma floor_nonneg (x : Q) : (0 <= x)%Q -> 0 <= Math.floor x.
Proof. intro H. unfold Math.floor. now apply (Qfloor_ge_bound x 0). Qed.

Lemma maxChange_nonneg (w : Z) (pct : Q) :
  0 <= w -> (0 <= pct)%Q -> 0 <= Math.floor (inject_Z w * (pct / 100)).
Proof.
  intros Hw Hp. apply floor_nonneg.
  apply Qmult_le_0_compat.
  - change 0%Q with (inject_Z 0). now rewrite <- Zle_Qle.
  - apply Qle_shift_div_l; [reflexivity|]. now rewrite Qmult_0_l.
Qed.

(** The last two steps of [calculateAdjustment]: limiting the step to
    [maxChange] and clamping into [1,100] keeps the result within
    [maxChange] of a current weight that itself lies in [1,100]. *)
Lemma limited_step_bound (cw target mc : Z) :
  1 <= cw <= 100 -> 0 <= mc ->
  Z.abs
    (Z.max 1
       (Z.min 100
          (if Z.abs (target - cw) >? mc
           then cw + Z.sgn (target - cw) * mc
           else target)) - cw) <= mc.
Proof.
  intros Hcw Hmc.
  destruct (Z.gtb_spec (Z.abs (target - cw)) mc) as [Hgt|Hle].
  - destruct (Z.sgn_spec (target - cw)) as [[_ E]|[[_ E]|[_ E]]];
      rewrite E; lia.
  - lia.
Qed.

(** C2 (amended).  For a provider with a closed circuit, at least
    [minSampleSize] fused requests, a current weight within [1,100] and a
    non-negative [maxWeightAdjustmentPercent], the weight suggested by the
    MAB policy differs from the current weight by at most
    [floor(currentWeight * maxWeightAdjustmentPercent / 100)]. *)
Theorem mab_rate_limit (config : MABConfig)
    (provider : ProviderMultiWindowAnalytics) :
  pa_circuitState provider = closed ->
  minSampleSize config <= w_requests (weighted (pa_metrics provider)) ->
  1 <= pa_weight provider <= 100 ->
  (0 <= maxWeightAdjustmentPercent config)%Q ->
  let d := MABScheduler.generateDecision config provider in
  Z.abs (suggestedWeight d - currentWeight d)
  <= Math.floor (inject_Z (currentWeight d)
                 * (maxWeightAdjustmentPercent config / 100)).
Proof.
  intros Hc Hreq Hw Hp. simpl.
  unfold MABScheduler.calculateAdjustment. rewrite Hc.
  destruct (Z.ltb_spec (w_requests (weighted (pa_metrics provider)))
                       (minSampleSize config)) as [Hlt|_]; [lia|].
  assert (Hmc := maxChange_nonneg (pa_weight provider)
                   (maxWeightAdjustmentPercent config) ltac:(lia) Hp).
  destruct (Qle_bool 85 _); [|destruct (Qle_bool 70 _); [|destruct (Qle_bool 50 _)]];
    simpl; now apply limited_step_bound.
Qed.

Lemma mab_rate_limit_witness :
  let d := MABScheduler.generateDecision Examples.mabConfig Examples.steady in
  Z.abs (suggestedWeight d - currentWeight d) <= 1.
Proof.
  apply (mab_rate_limit Examples.mabConfig Examples.steady);
    [reflexivity | vm_compute; discriminate | simpl; lia
     | vm_compute; discriminate].
Defined.

(** C2 as stated fails when the current weight is 0, the value the MAB
    policy itself writes for an open circuit: the step limit is
    [floor(0 * 10 / 100) = 0], the limited weight is 0, and the final clamp
    into [1,100] returns 1. *)
Lemma mab_rate_limit_counterexample :
  let d := MABScheduler.generateDecision Examples.mabConfig Examples.afterOpen in
  pa_circuitState Examples.afterOpen = closed
  /\ minSampleSize Examples.mabConfig
     <= w_requests (weighted (pa_metrics Examples.afterOpen))
  /\ currentWeight d = 0
  /\ suggestedWeight d = 1
  /\ ~ Z.abs (suggestedWeight d - currentWeight d)
       <= Math.floor (inject_Z (currentWeight d)
                      * (maxWeightAdjustmentPercent Examples.mabConfig / 100)).
Proof.
  vm_compute. repeat split; try reflexivity; try discriminate.
  intro H. apply H. reflexivity.
Qed.

(** C3 (amended).  With an open circuit the MAB policy suggests weight 0 and
    priority 999 whatever the metrics.  The rule policy, for a provider of
    confidence at least 50, instead marks the decision [circuit_penalty],
    adds 2 to the priority and takes about 30 per cent off the weight:
    the new weight is never below 1, hence never 0, and it is
    [max(1, floor(weight * 0.7))] or one less.  (The source floors the
    double product, which for a weight such as 90 falls just below the
    integer 63 and gives 62; the bounds hold of both.)  Below confidence 50
    the rule policy leaves weight and priority as they are. *)
Theorem open_circuit_suggestion :
  (forall (provider : ProviderMultiWindowAnalytics) (bw bp : Z)
          (config : MABConfig),
      pa_circuitState provider = open ->
      MABScheduler.calculateAdjustment provider bw bp config
      = {| adj_suggestedWeight := 0; adj_suggestedPriority := 999 |})
  /\ (forall (config : MABConfig) (provider : ProviderMultiWindowAnalytics),
         pa_circuitState provider = open ->
         suggestedWeight (MABScheduler.generateDecision config provider) = 0
         /\ suggestedPriority (MABScheduler.generateDecision config provider)
            = 999)
  /\ (forall (provider : Provider) (analytics : ProviderAnalytics)
             (config : ScheduleConfig),
         50 <= an_confidence analytics ->
         let d := AutoScheduler.applyStrategy provider analytics open config in
         let exact := Math.floor (inject_Z (weight provider) * 0.7) in
         action d = circuit_penalty
         /\ a_priority (afterState d) = priority provider + 2
         /\ 1 <= a_weight (afterState d)
         /\ Z.max 1 (exact - 1) <= a_weight (afterState d) <= Z.max 1 exact
         /\ (2 <= weight provider -> a_weight (afterState d) < weight provider))
  /\ (forall (provider : Provider) (analytics : ProviderAnalytics)
             (config : ScheduleConfig),
         an_confidence analytics < 50 ->
         let d := AutoScheduler.applyStrategy provider analytics open config in
         a_weight (afterState d) = weight provider
         /\ a_priority (afterState d) = priority provider
         /\ action d = maintain).
Proof.
  split; [|split; [|split]].
  - intros provider bw bp config H.
    unfold MABScheduler.calculateAdjustment. now rewrite H.
  - intros config provider H. simpl.
    unfold MABScheduler.calculateAdjustment. now rewrite H.
  - intros provider analytics config H d exact. subst d.
    unfold AutoScheduler.applyStrategy.
    destruct (Z.ltb_spec (an_confidence analytics) 50); [lia|].
    cbn [action afterState a_weight a_priority]. fold exact.
    split; [reflexivity|]. split; [reflexivity|].
    split; [lia|]. split; [lia|].
    intro Hw.
    assert (Hlt : exact < weight provider); [|lia].
    apply Qfloor_lt_bound.
    assert (Hpos : (0 < inject_Z (weight provider))%Q).
    { change 0%Q with (inject_Z 0). rewrite <- Zlt_Qlt. lia. }
    lra.
  - intros provider analytics config H d. subst d.
    unfold AutoScheduler.applyStrategy.
    destruct (Z.ltb_spec (an_confidence analytics) 50); [|lia].
    simpl. repeat split; reflexivity.
Qed.

Lemma open_circuit_suggestion_witness :
  suggestedWeight
    (MABScheduler.generateDecision Examples.mabConfig
       (Examples.analytics 10 1 None None open)) = 0
  /\ a_priority (afterState
       (AutoScheduler.applyStrategy (Examples.provider 1 5 1 None None)
          (Examples.ruleAnalytics 1 40 100) open Examples.scheduleConfig)) = 3
  /\ action
       (AutoScheduler.applyStrategy (Examples.provider 1 5 1 None None)
          (Examples.ruleAnalytics 1 40 20) open Examples.scheduleConfig)
     = maintain.
Proof.
  destruct open_circuit_suggestion as (_ & Hmab & Hrule & Hlow).
  split; [|split].
  - apply Hmab. reflexivity.
  - refine (proj1 (proj2 (Hrule _ (Examples.ruleAnalytics 1 40 100) _ _))).
    simpl. lia.
  - refine (proj2 (proj2 (Hlow _ (Examples.ruleAnalytics 1 40 20) _ _))).
    simpl. lia.
Defined.

(** C3 as stated fails for the rule policy: a provider of weight 5 and
    priority 1 whose circuit is open is moved to weight 3 and priority 3,
    not to weight 0 and priority 999. *)
Lemma open_circuit_rule_counterexample :
  let d :=
    AutoScheduler.applyStrategy (Examples.provider 1 5 1 None None)
      (Examples.ruleAnalytics 1 40 100) open Examples.scheduleConfig in
  action d = circuit_penalty
  /\ a_weight (afterState d) = 3
  /\ a_priority (afterState d) = 3
  /\ ~ (a_weight (afterState d) = 0 /\ a_priority (afterState d) = 999).
Proof.
  vm_compute. repeat split; try reflexivity. intros [H _]. discriminate H.
Qed.

(** ** Reasoning about [Async] computations *)

Lemma updateCalls_app (es1 es2 : list Event) :
  updateCalls (es1 ++ es2) = updateCalls es1 ++ updateCalls es2.
Proof. apply flat_map_app. Qed.

Lemma logCalls_app (es1 es2 : list Event) :
  logCalls (es1 ++ es2) = logCalls es1 ++ logCalls es2.
Proof. apply flat_map_app. Qed.

(** Normalise the calls recorded in a trace built by appending events. *)
Ltac calls :=
  unfold updateCalls, logCalls; simpl;
  repeat rewrite flat_map_app; simpl;
  repeat rewrite app_nil_r.

Section Frame.

Context {X : Type} (view : World -> X).

Lemma keeps_ret {A : Type} (a : A) : keeps view (ret a).
Proof. intro w. reflexivity. Qed.

Lemma keeps_throw {A : Type} (msg : string) : keeps view (@throw A msg).
Proof. intro w. reflexivity. Qed.

Lemma keeps_bind {A B : Type} (m : Async A) (k : A -> Async B) :
  keeps view m -> (forall a, keeps view (k a)) -> keeps view (bind m k).
Proof.
  intros Hm Hk w. unfold bind. specialize (Hm w).
  destruct (m w) as [[a|msg] w']; simpl in *.
  - now rewrite Hk.
  - exact Hm.
Qed.

Lemma keeps_try_catch {A : Type} (m : Async A) (h : string -> Async A) :
  keeps view m -> (forall msg, keeps view (h msg)) ->
  keeps view (try_catch m h).
Proof.
  intros Hm Hh w. unfold try_catch. specialize (Hm w).
  destruct (m w) as [[a|msg] w']; simpl in *.
  - exact Hm.
  - now rewrite Hh.
Qed.

Lemma keeps_catch_all {A : Type} (m : Async A)
    (h : string -> World -> A * World) (w : World) :
  keeps view m ->
  (forall msg w', view (snd (h msg w')) = view w') ->
  view (snd (catch_all m h w)) = view w.
Proof.
  intros Hm Hh. unfold catch_all. specialize (Hm w).
  destruct (m w) as [[a|msg] w']; simpl in *.
  - exact Hm.
  - now rewrite Hh.
Qed.

Lemma keeps_forEach {A : Type} (l : list A) (body : A -> Async unit) :
  (forall x, keeps view (body x)) -> keeps view (forEach l body).
Proof.
  intro Hb. induction l as [|x l IH]; simpl.
  - apply keeps_ret.
  - apply keeps_bind; [apply Hb | intros _; exact IH].
Qed.

Lemma keeps_getSystemSettings (env : Env) :
  keeps view (getSystemSettings env).
Proof. intro w. reflexivity. Qed.

End Frame.

Lemma keeps_emit (e : Event) :
  updateCalls [e] = [] -> keeps providerStore (emit e).
Proof.
  intros He w. unfold providerStore. simpl.
  now rewrite updateCalls_app, He, app_nil_r.
Qed.

Lemma keeps_logger (site : ErrorSite) :
  keeps providerStore (emit (LoggerError site)).
Proof. now apply keeps_emit. Qed.

Lemma keeps_log_call (data : ScheduleLogData) :
  keeps providerStore (emit (CreateScheduleLogCall data)).
Proof. now apply keeps_emit. Qed.

Lemma keeps_createScheduleLog (env : Env) (data : ScheduleLogData) :
  keeps providerStore (createScheduleLog env data).
Proof.
  unfold createScheduleLog. apply keeps_bind; [apply keeps_log_call|].
  intros _. destruct (createScheduleLogError env).
  - apply keeps_bind; [apply keeps_logger | intros _; apply keeps_throw].
  - intro w. reflexivity.
Qed.

Lemma keeps_getProviderMultiWindowAnalytics (env : Env) (s m l : Z) :
  keeps providerStore (getProviderMultiWindowAnalytics env s m l).
Proof.
  unfold getProviderMultiWindowAnalytics.
  destruct (multiWindowQueryError env).
  - apply keeps_bind; [apply keeps_logger | intros _; apply keeps_throw].
  - intro w. reflexivity.
Qed.

Lemma keeps_getProviderAnalytics (env : Env) :
  keeps providerStore (getProviderAnalytics env).
Proof.
  unfold getProviderAnalytics.
  destruct (providerAnalyticsQueryError env).
  - apply keeps_bind; [apply keeps_logger | intros _; apply keeps_throw].
  - intro w. reflexivity.
Qed.

Lemma keeps_findProviderList {X : Type} (view : World -> X) (env : Env)
    (limit offset : nat) :
  keeps view (findProviderList env limit offset).
Proof.
  unfold findProviderList. destruct (findProviderListError env).
  - apply keeps_throw.
  - intro w. reflexivity.
Qed.

(** Nothing but [createScheduleLog] touches the log table. *)
Lemma logs_emit (e : Event) : logCalls [e] = [] -> keeps logStore (emit e).
Proof.
  intros He w. unfold logStore. simpl.
  now rewrite logCalls_app, He, app_nil_r.
Qed.

Lemma logs_updateProvider (env : Env) (i : Z) (data : ProviderUpdate) :
  keeps logStore (updateProvider env i data).
Proof.
  unfold updateProvider. apply keeps_bind; [now apply logs_emit|].
  intros _. destruct (updateProviderError env i).
  - apply keeps_throw.
  - intro w. reflexivity.
Qed.

Create HintDb keeps.
#[local] Hint Resolve keeps_ret keeps_throw keeps_logger keeps_log_call
  keeps_getSystemSettings
  keeps_createScheduleLog keeps_getProviderMultiWindowAnalytics
  keeps_getProviderAnalytics keeps_findProviderList : keeps.

(** ** Dry runs *)

Lemma realtime_dry_run_keeps (env : Env) (config : MABConfig) (t : Z) :
  keeps providerStore (RealtimeDecisionEngine.run env config true t).
Proof.
  unfold RealtimeDecisionEngine.run.
  apply keeps_bind; [auto with keeps|]. intro s.
  apply keeps_bind; [auto with keeps|]. intro rows.
  destruct (List.length rows =? 0)%nat; [auto with keeps|].
  apply keeps_bind; [unfold RealtimeDecisionEngine.commit; simpl;
                     auto with keeps|].
  intros _.
  apply keeps_bind; [|auto with keeps].
  unfold RealtimeDecisionEngine.logExecution.
  apply keeps_try_catch; [|auto with keeps].
  apply keeps_bind; auto with keeps.
Qed.

Lemma auto_dry_run_keeps (env : Env) (executedBy : string)
    (config : option ScheduleConfig) :
  keeps providerStore (AutoScheduler.run env true executedBy config).
Proof.
  unfold AutoScheduler.run.
  apply keeps_bind.
  { unfold AutoScheduler.generateDecisions.
    apply keeps_bind; [auto with keeps|]. intro ps.
    apply keeps_bind; auto with keeps. }
  intro ds.
  apply keeps_bind; [unfold AutoScheduler.commit; simpl; auto with keeps|].
  intros _.
  apply keeps_bind; [|auto with keeps].
  unfold AutoScheduler.logExecution. auto with keeps.
Qed.

(** C4.  A dry-run cycle performs no provider-store write: after [execute]
    with [dryRun = true] no call to [updateProvider] has been made and the
    provider table, and with it every provider's weight, priority,
    baseWeight and basePriority, is what it was before, for the realtime
    (MAB) engine and for the rule scheduler, whatever the configuration,
    the telemetry, the circuit states and the failures of the
    collaborators. *)
Theorem dry_run_keeps_providers :
  (forall (env : Env) (config : MABConfig) (w : World),
      let w' := snd (RealtimeDecisionEngine.execute env config true w) in
      providers w' = providers w
      /\ updateCalls (events w') = updateCalls (events w))
  /\ (forall (env : Env) (executedBy : string)
             (config : option ScheduleConfig) (w : World),
         let w' := snd (AutoScheduler.execute env true executedBy config w) in
         providers w' = providers w
         /\ updateCalls (events w') = updateCalls (events w)).
Proof.
  split.
  - intros env config w w'.
    assert (H : providerStore w' = providerStore w).
    { apply (keeps_catch_all providerStore); [apply realtime_dry_run_keeps|].
      intros msg w0. apply keeps_logger. }
    unfold providerStore in H. now inversion H.
  - intros env executedBy config w w'.
    assert (H : providerStore w' = providerStore w).
    { apply (keeps_catch_all providerStore); [apply auto_dry_run_keeps|].
      intros msg w0. apply keeps_logger. }
    unfold providerStore in H. now inversion H.
Qed.

(** ** Action classification of the realtime engine *)

Lemma classify_realtime (mab : MABDecision) :
  countedRequests mab -> realtimeAction (RealtimeDecisionEngine.classify mab).
Proof.
  unfold countedRequests, realtimeAction, RealtimeDecisionEngine.classify.
  intro Hreq.
  destruct (Z.eqb_spec (w_requests (weighted (mab_metrics mab))) 0) as [E|E];
    simpl; [now left|].
  destruct (isExploration mab); [now left|].
  destruct (suggestedWeight mab - currentWeight mab >? 0); [right; now left|].
  destruct (suggestedWeight mab - currentWeight mab <? 0);
    [right; right; now left|].
  destruct (Z.gtb_spec (w_requests (weighted (mab_metrics mab))) 0) as [_|H];
    [|lia].
  rewrite Z.ltb_irrefl. now repeat right.
Qed.

Lemma convert_actions (mabs : list MABDecision) :
  Forall countedRequests mabs ->
  Forall (fun d => realtimeAction (action d))
         (RealtimeDecisionEngine.convertToScheduleDecisions mabs).
Proof.
  unfold RealtimeDecisionEngine.convertToScheduleDecisions.
  induction 1 as [|mab mabs Hm _ IH]; simpl; constructor.
  - now apply classify_realtime.
  - exact IH.
Qed.

Lemma count_keeps_zero (s : ScheduleSummary) (d : ScheduleDecision) :
  realtimeAction (action d) ->
  recovered (RealtimeDecisionEngine.count s d) = recovered s
  /\ circuitOpen (RealtimeDecisionEngine.count s d) = circuitOpen s.
Proof.
  unfold RealtimeDecisionEngine.count.
  intros [E|[E|[E|E]]]; rewrite E; split; reflexivity.
Qed.

Lemma summary_keeps_zero (ds : list ScheduleDecision) (s : ScheduleSummary) :
  Forall (fun d => realtimeAction (action d)) ds ->
  recovered (fold_left RealtimeDecisionEngine.count ds s) = recovered s
  /\ circuitOpen (fold_left RealtimeDecisionEngine.count ds s) = circuitOpen s.
Proof.
  intro H. revert s.
  induction H as [|d ds Hd _ IH]; intro s; simpl; [now split|].
  destruct (IH (RealtimeDecisionEngine.count s d)) as [Hr Hc].
  destruct (count_keeps_zero s d Hd) as [Hr' Hc'].
  split; congruence.
Qed.

Lemma realtime_summary_shape (mabs : list MABDecision) :
  Forall countedRequests mabs ->
  let ds := RealtimeDecisionEngine.convertToScheduleDecisions mabs in
  let s := RealtimeDecisionEngine.calculateSummary ds in
  Forall (fun d => realtimeAction (action d)) ds
  /\ recovered s = 0
  /\ circuitOpen s = 0
  /\ affected s = promoted s + demoted s.
Proof.
  intros H ds s.
  assert (Hact := convert_actions mabs H).
  destruct (summary_keeps_zero ds emptySummary Hact) as [Hr Hc].
  fold (RealtimeDecisionEngine.calculateSummary ds) in Hr, Hc. fold s in Hr, Hc.
  simpl in Hr, Hc.
  repeat split; try assumption.
  unfold affected. lia.
Qed.

Lemma generated_counted (env : Env) (config : MABConfig) (s m l : Z)
    (rows : list Provider) :
  (forall minutes i, 0 <= requests (windowStats env minutes i)) ->
  Forall countedRequests
    (MABScheduler.generateDecisions
       (map (toMultiWindowAnalytics env s m l) rows) config).
Proof.
  intro Hreq. unfold MABScheduler.generateDecisions.
  rewrite map_map. apply Forall_forall. intros mab Hin.
  apply in_map_iff in Hin. destruct Hin as (row & <- & _).
  unfold countedRequests. simpl. rewrite fuse_requests.
  pose proof (Hreq s (id row)). pose proof (Hreq m (id row)).
  pose proof (Hreq l (id row)). lia.
Qed.

(** *** Computations that never throw *)

Lemma returns_run {A : Type} (m : Async A) (w : World) :
  returns m -> exists a, m w = (Returned a, snd (m w)).
Proof.
  intro H. destruct (H w) as (a & w' & E). exists a. now rewrite E.
Qed.

Lemma returns_unit (m : Async unit) (w : World) :
  returns m -> m w = (Returned tt, snd (m w)).
Proof.
  intro H. destruct (returns_run m w H) as ([] & E). exact E.
Qed.

Lemma ret_returns {A : Type} (a : A) : returns (ret a).
Proof. intro w. now exists a, w. Qed.

Lemma emit_returns (e : Event) : returns (emit e).
Proof. intro w. unfold emit. eauto. Qed.

Lemma try_catch_returns {A : Type} (m : Async A) (h : string -> Async A) :
  (forall msg, returns (h msg)) -> returns (try_catch m h).
Proof.
  intros Hh w. unfold try_catch.
  destruct (m w) as [[a|msg] w']; [eauto | apply Hh].
Qed.

Lemma bind_returns {A B : Type} (m : Async A) (k : A -> Async B) :
  returns m -> (forall a, returns (k a)) -> returns (bind m k).
Proof.
  intros Hm Hk w. unfold bind.
  destruct (Hm w) as (a & w' & E). rewrite E. apply Hk.
Qed.

Lemma forEach_returns {A : Type} (l : list A) (body : A -> Async unit) :
  (forall x, returns (body x)) -> returns (forEach l body).
Proof.
  intro Hb. induction l as [|x l IH]; simpl.
  - apply ret_returns.
  - apply bind_returns; [apply Hb | intros _; exact IH].
Qed.

Lemma realtime_applyDecisions_returns (env : Env)
    (ds : list ScheduleDecision) :
  returns (RealtimeDecisionEngine.applyDecisions env ds).
Proof.
  unfold RealtimeDecisionEngine.applyDecisions.
  apply forEach_returns. intro d.
  apply try_catch_returns. intros _. apply emit_returns.
Qed.

Lemma realtime_logExecution_returns (env : Env) (ds : list ScheduleDecision)
    (s : ScheduleSummary) (t : Z) (dryRun : bool) :
  returns (RealtimeDecisionEngine.logExecution env ds s t dryRun).
Proof.
  unfold RealtimeDecisionEngine.logExecution.
  apply try_catch_returns. intros _. apply emit_returns.
Qed.

Lemma realtime_commit_returns (env : Env) (ds : list ScheduleDecision)
    (dryRun : bool) :
  returns (RealtimeDecisionEngine.commit env ds dryRun).
Proof.
  unfold RealtimeDecisionEngine.commit. destruct dryRun; simpl.
  - apply ret_returns.
  - apply realtime_applyDecisions_returns.
Qed.

(** *** The realtime cycle, step by step *)

(** Once the settings and the analytics are read and some provider is
    enabled, the cycle goes through commit and logging and returns
    [ok = true]. *)
Lemma realtime_execute_reached (env : Env) (config : MABConfig)
    (dryRun : bool) (w : World) (st : SystemSettings) :
  settings env = Returned st ->
  multiWindowQueryError env = None ->
  enabledRows w <> [] ->
  let ds := RealtimeDecisionEngine.decisionsOf env config st w in
  let s := RealtimeDecisionEngine.calculateSummary ds in
  let w1 := snd (RealtimeDecisionEngine.commit env ds dryRun w) in
  let w2 :=
    snd (RealtimeDecisionEngine.logExecution env ds s (now env) dryRun w1) in
  RealtimeDecisionEngine.execute env config dryRun w
  = ({| r_ok := true;
        r_executionTime := now env;
        r_totalProviders := Z.of_nat (List.length (enabledRows w));
        r_affectedProviders := affected s;
        r_decisions := ds;
        r_summary := s;
        r_error := None |}, w2).
Proof.
  intros Hst Hq Hrows ds s w1 w2.
  unfold RealtimeDecisionEngine.execute, catch_all, RealtimeDecisionEngine.run.
  unfold bind at 1. unfold getSystemSettings at 1. rewrite Hst.
  unfold bind at 1. unfold getProviderMultiWindowAnalytics. rewrite Hq.
  cbv beta iota. rewrite length_map.
  destruct (enabledRows w) as [|row rows] eqn:Erows; [contradiction|].
  change (List.length (row :: rows) =? 0)%nat with false. cbv iota.
  rewrite <- Erows.
  fold (RealtimeDecisionEngine.decisionsOf env config st w). fold ds. fold s.
  fold (RealtimeDecisionEngine.commit env ds dryRun).
  unfold bind at 1.
  rewrite (returns_unit _ w (realtime_commit_returns env ds dryRun)).
  fold w1. unfold bind at 1.
  rewrite (returns_unit _ w1
             (realtime_logExecution_returns env ds s (now env) dryRun)).
  fold w2. reflexivity.
Qed.

(** In the other cases the cycle ends before any decision is taken. *)
Lemma realtime_execute_no_settings (env : Env) (config : MABConfig)
    (dryRun : bool) (w : World) (msg : string) :
  settings env = Thrown msg ->
  RealtimeDecisionEngine.execute env config dryRun w
  = (RealtimeDecisionEngine.emptyResult false (now env) (Some msg),
     logged w [RealtimeExecutionFailed]).
Proof.
  intro Hst.
  unfold RealtimeDecisionEngine.execute, catch_all, RealtimeDecisionEngine.run.
  unfold bind at 1. unfold getSystemSettings at 1. rewrite Hst.
  reflexivity.
Qed.

Lemma realtime_execute_no_analytics (env : Env) (config : MABConfig)
    (dryRun : bool) (w : World) (st : SystemSettings) (msg : string) :
  settings env = Returned st ->
  multiWindowQueryError env = Some msg ->
  RealtimeDecisionEngine.execute env config dryRun w
  = (RealtimeDecisionEngine.emptyResult false (now env) (Some msg),
     logged w [MultiWindowAnalyticsFailed; RealtimeExecutionFailed]).
Proof.
  intros Hst Hq.
  unfold RealtimeDecisionEngine.execute, catch_all, RealtimeDecisionEngine.run.
  unfold bind at 1. unfold getSystemSettings at 1. rewrite Hst.
  unfold bind at 1. unfold getProviderMultiWindowAnalytics. rewrite Hq.
  unfold logged. simpl. now rewrite <- app_assoc.
Qed.

Lemma realtime_execute_no_provider (env : Env) (config : MABConfig)
    (dryRun : bool) (w : World) (st : SystemSettings) :
  settings env = Returned st ->
  multiWindowQueryError env = None ->
  enabledRows w = [] ->
  RealtimeDecisionEngine.execute env config dryRun w
  = (RealtimeDecisionEngine.emptyResult true (now env) None, w).
Proof.
  intros Hst Hq Hrows.
  unfold RealtimeDecisionEngine.execute, catch_all, RealtimeDecisionEngine.run.
  unfold bind at 1. unfold getSystemSettings at 1. rewrite Hst.
  unfold bind at 1. unfold getProviderMultiWindowAnalytics. rewrite Hq.
  cbv beta iota. rewrite length_map, Hrows. reflexivity.
Qed.

Lemma realtime_execute_early (env : Env) (config : MABConfig)
    (dryRun : bool) (w : World) :
  (exists msg, settings env = Thrown msg)
  \/ (exists msg, multiWindowQueryError env = Some msg)
  \/ enabledRows w = [] ->
  let r := fst (RealtimeDecisionEngine.execute env config dryRun w) in
  let w' := snd (RealtimeDecisionEngine.execute env config dryRun w) in
  r_decisions r = [] /\ r_summary r = emptySummary
  /\ r_affectedProviders r = 0 /\ r_totalProviders r = 0
  /\ providers w' = providers w /\ scheduleLogs w' = scheduleLogs w
  /\ updateCalls (events w') = updateCalls (events w)
  /\ logCalls (events w') = logCalls (events w).
Proof.
  intros H r w'. subst r w'.
  destruct (settings env) as [st|msg] eqn:Est.
  2:{ rewrite (realtime_execute_no_settings env config dryRun w msg Est).
      calls. now repeat split. }
  destruct (multiWindowQueryError env) as [msg|] eqn:Eq.
  { rewrite (realtime_execute_no_analytics env config dryRun w st msg Est Eq).
    calls. now repeat split. }
  destruct H as [[msg E]|[[msg E]|E]]; try discriminate.
  rewrite (realtime_execute_no_provider env config dryRun w st Est Eq E).
  now repeat split.
Qed.

(** C10.  The action classification of the realtime engine yields only
    [explore], [promote], [demote] or [maintain] on MAB decisions whose
    fused request count is a count (not negative), so the summary of such a
    list has [recovered = 0] and [circuitOpen = 0] and its affected count
    is [promoted + demoted]; the same holds for the result of every realtime
    cycle run on telemetry with non-negative request counts. *)
Theorem realtime_actions :
  (forall mabs : list MABDecision,
      Forall countedRequests mabs ->
      let ds := RealtimeDecisionEngine.convertToScheduleDecisions mabs in
      let s := RealtimeDecisionEngine.calculateSummary ds in
      Forall (fun d => realtimeAction (action d)) ds
      /\ recovered s = 0
      /\ circuitOpen s = 0
      /\ affected s = promoted s + demoted s)
  /\ (forall (env : Env) (config : MABConfig) (dryRun : bool) (w : World),
         (forall minutes i, 0 <= requests (windowStats env minutes i)) ->
         let r := fst (RealtimeDecisionEngine.execute env config dryRun w) in
         Forall (fun d => realtimeAction (action d)) (r_decisions r)
         /\ recovered (r_summary r) = 0
         /\ circuitOpen (r_summary r) = 0
         /\ r_affectedProviders r
            = promoted (r_summary r) + demoted (r_summary r)).
Proof.
  split; [exact realtime_summary_shape|].
  intros env config dryRun w Hreq r.
  destruct (settings env) as [st|msg] eqn:Est.
  2:{ destruct (realtime_execute_early env config dryRun w)
        as (Hd & Hs & Ha & _); [left; eauto|].
      fold r in Hd, Hs, Ha. rewrite Hd, Hs, Ha.
      repeat split; constructor. }
  destruct (multiWindowQueryError env) as [msg|] eqn:Eq.
  { destruct (realtime_execute_early env config dryRun w)
      as (Hd & Hs & Ha & _); [right; left; eauto|].
    fold r in Hd, Hs, Ha. rewrite Hd, Hs, Ha.
    repeat split; constructor. }
  destruct (enabledRows w) as [|row rows] eqn:Erows.
  { destruct (realtime_execute_early env config dryRun w)
      as (Hd & Hs & Ha & _); [right; right; exact Erows|].
    fold r in Hd, Hs, Ha. rewrite Hd, Hs, Ha.
    repeat split; constructor. }
  assert (Hne : enabledRows w <> []) by (rewrite Erows; discriminate).
  pose proof (realtime_execute_reached env config dryRun w st Est Eq Hne) as E.
  cbv zeta in E. subst r. rewrite E. simpl.
  unfold RealtimeDecisionEngine.decisionsOf.
  apply realtime_summary_shape. apply generated_counted. exact Hreq.
Qed.

Lemma realtime_actions_witness :
  recovered
    (RealtimeDecisionEngine.calculateSummary
       (RealtimeDecisionEngine.convertToScheduleDecisions
          [MABScheduler.generateDecision Examples.mabConfig Examples.steady]))
  = 0
  /\ circuitOpen
       (r_summary
          (fst (RealtimeDecisionEngine.execute Examples.allFine
                  Examples.mabConfig false Examples.twoProviders))) = 0.
Proof.
  destruct realtime_actions as [Hlist Hrun]. split.
  - refine (proj1 (proj2 (Hlist _ _))).
    constructor; [|constructor]. vm_compute. discriminate.
  - refine (proj1 (proj2 (proj2 (Hrun _ _ _ _ _)))).
    intros minutes i. simpl. lia.
Defined.

(** ** Commit step: failures of single updates *)

(** One turn of the loop of the realtime [applyDecisions]: the call is
    made; if it fails the failure is logged and the table is left alone,
    otherwise the row is updated.  In both cases the loop goes on. *)
Lemma realtime_update_step (env : Env) (d : ScheduleDecision) (w : World) :
  try_catch
    (updateProvider env (providerId d) (RealtimeDecisionEngine.updateOf env d))
    (fun _ => emit (LoggerError RealtimeUpdateFailed)) w
  = (Returned tt,
     match updateProviderError env (providerId d) with
     | Some _ =>
         {| providers := providers w;
            scheduleLogs := scheduleLogs w;
            events :=
              events w
              ++ [UpdateProviderCall (providerId d)
                    (RealtimeDecisionEngine.updateOf env d);
                  LoggerError RealtimeUpdateFailed] |}
     | None =>
         {| providers :=
              updated (providerId d) (RealtimeDecisionEngine.updateOf env d)
                      (providers w);
            scheduleLogs := scheduleLogs w;
            events :=
              events w
              ++ [UpdateProviderCall (providerId d)
                    (RealtimeDecisionEngine.updateOf env d)] |}
     end).
Proof.
  unfold try_catch, updateProvider, bind, emit, throw.
  destruct (updateProviderError env (providerId d)); simpl.
  - now rewrite <- app_assoc.
  - reflexivity.
Qed.

(** The realtime commit step tolerates failing updates: it never throws,
    it calls [updateProvider] for every changed decision, in order, and the
    table ends up with exactly the updates that did not fail. *)
Lemma realtime_applyDecisions_tolerant (env : Env)
    (ds : list ScheduleDecision) (w : World) :
  let w' := snd (RealtimeDecisionEngine.applyDecisions env ds w) in
  fst (RealtimeDecisionEngine.applyDecisions env ds w) = Returned tt
  /\ updateCalls (events w')
     = updateCalls (events w)
       ++ map (fun d => (providerId d, RealtimeDecisionEngine.updateOf env d))
              (filter RealtimeDecisionEngine.changed ds)
  /\ providers w' = committed env ds (providers w)
  /\ scheduleLogs w' = scheduleLogs w.
Proof.
  unfold RealtimeDecisionEngine.applyDecisions, committed.
  generalize (filter RealtimeDecisionEngine.changed ds) as us.
  intro us. revert w.
  induction us as [|d us IH]; intro w; simpl.
  - rewrite app_nil_r. now repeat split.
  - unfold bind at 1 2 3 4. rewrite realtime_update_step.
    match goal with
    | |- context [forEach us ?b ?w1] =>
        destruct (IH w1) as (H1 & H2 & H3 & H4)
    end.
    cbv zeta in H1, H2, H3, H4.
    split; [exact H1|]. split; [|split].
    + rewrite H2.
      destruct (updateProviderError env (providerId d)); calls;
        now rewrite <- app_assoc.
    + rewrite H3. now destruct (updateProviderError env (providerId d)).
    + rewrite H4. now destruct (updateProviderError env (providerId d)).
Qed.

(** C5, at the failing input.  The rule scheduler runs on two providers that
    both are to be demoted, and the update of the first one fails.  The
    cycle is aborted: the second provider is never passed to
    [updateProvider] and keeps its weight and priority, no schedule log is
    written, and the result is [ok = false] with the totals zeroed. *)
Theorem rule_update_failure_aborts :
  let run :=
    AutoScheduler.execute Examples.firstUpdateFails false "auto" None
                          Examples.twoProviders in
  s_ok (fst run) = false
  /\ s_error (fst run) = Some "connection lost"%string
  /\ s_totalProviders (fst run) = 0
  /\ s_decisions (fst run) = []
  /\ map fst (updateCalls (events (snd run))) = [1]
  /\ logCalls (events (snd run)) = []
  /\ scheduleLogs (snd run) = []
  /\ map Examples.state (providers (snd run))
     = [(10, 1, None, None); (20, 2, None, None)].
Proof. vm_compute. repeat split; reflexivity. Qed.

(** When it is the update of the second provider that fails, the first
    provider has been demoted, and the cycle still ends without a schedule
    log and with [ok = false]. *)
Lemma rule_later_update_failure_aborts :
  let run :=
    AutoScheduler.execute Examples.secondUpdateFails false "auto" None
                          Examples.twoProviders in
  s_ok (fst run) = false
  /\ map fst (updateCalls (events (snd run))) = [1; 2]
  /\ logCalls (events (snd run)) = []
  /\ map Examples.state (providers (snd run))
     = [(8, 2, Some 10, Some 1); (20, 2, None, None)].
Proof. vm_compute. repeat split; reflexivity. Qed.

(** On the same input the realtime engine goes on after the failure:
    provider 2 is updated, the log is written and the result is
    [ok = true]. *)
Lemma realtime_update_failure_tolerated :
  let run :=
    RealtimeDecisionEngine.execute Examples.firstUpdateFails Examples.mabConfig
                                   false Examples.twoProviders in
  r_ok (fst run) = true
  /\ map fst (updateCalls (events (snd run))) = [1; 2]
  /\ errorsAt RealtimeUpdateFailed (events (snd run)) = 1%nat
  /\ List.length (scheduleLogs (snd run)) = 1%nat
  /\ map Examples.state (providers (snd run))
     = [(10, 1, None, None); (22, 1, Some 20, Some 2)].
Proof. vm_compute. repeat split; reflexivity. Qed.

(** ** Baseline seeding *)

(** Every update the realtime engine sends carries the pre-change weight and
    priority as new baseline, whether or not a baseline is already stored:
    [convertToScheduleDecisions] sets the decision's baseline to the current
    values, so the test [baseline.weight === beforeState.weight] of
    [applyDecisions] always succeeds. *)
Lemma realtime_update_carries_baseline (env : Env) (mab : MABDecision) :
  let data :=
    RealtimeDecisionEngine.updateOf env
      (RealtimeDecisionEngine.convertToScheduleDecision mab) in
  u_base_weight data = Some (currentWeight mab)
  /\ u_base_priority data = Some (currentPriority mab).
Proof.
  unfold RealtimeDecisionEngine.updateOf. simpl.
  now rewrite !Z.eqb_refl.
Qed.

(** The rule scheduler takes the stored baseline into its decisions, and
    its update leaves a baseline that is already set as it is. *)
Lemma rule_update_keeps_baseline (provider : Provider)
    (analytics : ProviderAnalytics) (c : CircuitState) (config : ScheduleConfig)
    (bw bp : Z) :
  baseWeight provider = Some bw ->
  basePriority provider = Some bp ->
  let data :=
    AutoScheduler.updateOf
      (AutoScheduler.applyStrategy provider analytics c config) in
  baseWeight (applyUpdate data provider) = Some bw
  /\ basePriority (applyUpdate data provider) = Some bp.
Proof.
  intros Hw Hp.
  assert (Hb : forall d,
    baseline d = {| bl_weight := bw; bl_priority := bp |} ->
    beforeState d
    = {| b_weight := weight provider; b_priority := priority provider;
         b_performanceScore := an_performanceScore analytics;
         b_circuitState := c |} ->
    baseWeight (applyUpdate (AutoScheduler.updateOf d) provider) = Some bw
    /\ basePriority (applyUpdate (AutoScheduler.updateOf d) provider) = Some bp).
  { intros d Hbl Hbs. unfold applyUpdate, AutoScheduler.updateOf.
    rewrite Hbl, Hbs. simpl.
    destruct (Z.eqb_spec bw (weight provider)) as [->|_];
      destruct (Z.eqb_spec bp (priority provider)) as [->|_];
      now rewrite ?Hw, ?Hp. }
  unfold AutoScheduler.applyStrategy. rewrite Hw, Hp. simpl orElse.
  destruct (an_confidence analytics <? 50); [now apply Hb|].
  destruct c; try (now apply Hb);
    destruct (Qltb 80 _ && _); try (now apply Hb);
    destruct (Qltb 85 _); try (now apply Hb);
    destruct (Qltb _ 60); now apply Hb.
Qed.

Lemma rule_update_keeps_baseline_witness :
  baseWeight
    (applyUpdate
       (AutoScheduler.updateOf
          (AutoScheduler.applyStrategy
             (Examples.provider 1 8 2 (Some 10) (Some 1))
             (Examples.ruleAnalytics 1 50 100) closed Examples.scheduleConfig))
       (Examples.provider 1 8 2 (Some 10) (Some 1))) = Some 10.
Proof.
  apply (rule_update_keeps_baseline
           (Examples.provider 1 8 2 (Some 10) (Some 1))
           (Examples.ruleAnalytics 1 50 100) closed Examples.scheduleConfig
           10 1); reflexivity.
Defined.

(** C1, at the failing input.  Two realtime cycles on a healthy provider of
    weight 10 and priority 1 that has no baseline yet.  The first cycle
    raises the weight to 11 and stores the baseline (10, 1).  The second
    cycle raises the weight to 12 and overwrites the stored baseline with
    (11, 0), the values the provider had before that cycle. *)
Theorem realtime_baseline_overwritten :
  let first :=
    snd (RealtimeDecisionEngine.execute Examples.allFine Examples.mabConfig
                                        false Examples.fresh) in
  let second :=
    snd (RealtimeDecisionEngine.execute Examples.allFine Examples.mabConfig
                                        false first) in
  map Examples.state (providers Examples.fresh) = [(10, 1, None, None)]
  /\ map Examples.state (providers first) = [(11, 0, Some 10, Some 1)]
  /\ map Examples.state (providers second) = [(12, 0, Some 11, Some 0)].
Proof. vm_compute. repeat split; reflexivity. Qed.

(** Two cycles of the rule scheduler on the same kind of input keep the
    baseline of the first cycle. *)
Lemma rule_baseline_kept :
  let first :=
    snd (AutoScheduler.execute Examples.allFine false "auto" None
                               Examples.fresh) in
  let second :=
    snd (AutoScheduler.execute Examples.allFine false "auto" None first) in
  map Examples.state (providers first) = [(8, 2, Some 10, Some 1)]
  /\ map Examples.state (providers second) = [(6, 3, Some 10, Some 1)].
Proof. vm_compute. repeat split; reflexivity. Qed.

(** ** The schedule log *)

Lemma realtime_logExecution_effect (env : Env) (ds : list ScheduleDecision)
    (s : ScheduleSummary) (t : Z) (dryRun : bool) (w : World) :
  let data := RealtimeDecisionEngine.logData ds s t dryRun in
  RealtimeDecisionEngine.logExecution env ds s t dryRun w
  = (Returned tt,
     match createScheduleLogError env with
     | None =>
         {| providers := providers w;
            scheduleLogs :=
              scheduleLogs w
              ++ [(Z.of_nat (List.length (scheduleLogs w)) + 1, data)];
            events := events w ++ [CreateScheduleLogCall data] |}
     | Some _ =>
         {| providers := providers w;
            scheduleLogs := scheduleLogs w;
            events :=
              events w
              ++ [CreateScheduleLogCall data;
                  LoggerError CreateScheduleLogFailed;
                  LoggerError RealtimeLogFailed] |}
     end).
Proof.
  unfold RealtimeDecisionEngine.logExecution, try_catch, createScheduleLog,
    bind, emit, throw, ret.
  destruct (createScheduleLogError env); simpl.
  - now rewrite <- !app_assoc.
  - reflexivity.
Qed.

Lemma realtime_commit_keeps_logs (env : Env) (ds : list ScheduleDecision)
    (dryRun : bool) :
  keeps logStore (RealtimeDecisionEngine.commit env ds dryRun).
Proof.
  unfold RealtimeDecisionEngine.commit. destruct dryRun; simpl.
  - apply keeps_ret.
  - unfold RealtimeDecisionEngine.applyDecisions.
    apply keeps_forEach. intro d.
    apply keeps_try_catch; [apply logs_updateProvider|].
    intros _. now apply logs_emit.
Qed.

Lemma updateProvider_returns (env : Env) (i : Z) (data : ProviderUpdate) :
  updateProviderError env i = None -> returns (updateProvider env i data).
Proof.
  intros H w. unfold updateProvider, bind, emit. rewrite H. eauto.
Qed.

Lemma rule_commit_returns (env : Env) (ds : list ScheduleDecision)
    (dryRun : bool) :
  dryRun = true \/ (forall i, updateProviderError env i = None) ->
  returns (AutoScheduler.commit env ds dryRun).
Proof.
  intros H. unfold AutoScheduler.commit.
  destruct H as [->|H]; [apply ret_returns|].
  destruct (negb dryRun && _); [|apply ret_returns].
  unfold AutoScheduler.applyDecisions. apply forEach_returns.
  intro d. now apply updateProvider_returns.
Qed.

Lemma rule_commit_keeps_logs (env : Env) (ds : list ScheduleDecision)
    (dryRun : bool) :
  keeps logStore (AutoScheduler.commit env ds dryRun).
Proof.
  unfold AutoScheduler.commit.
  destruct (negb dryRun && _); [|apply keeps_ret].
  unfold AutoScheduler.applyDecisions. apply keeps_forEach.
  intro d. apply logs_updateProvider.
Qed.

Lemma rule_generateDecisions_effect (env : Env) (config : ScheduleConfig)
    (w : World) :
  findProviderListError env = None ->
  providerAnalyticsQueryError env = None ->
  AutoScheduler.generateDecisions env config w
  = (Returned (AutoScheduler.decisionsOf env config w), w).
Proof.
  intros Hf Ha.
  unfold AutoScheduler.generateDecisions, bind, findProviderList,
    getProviderAnalytics, ret.
  now rewrite Hf, Ha.
Qed.

(** A cycle of the rule scheduler whose reads, updates and log write all
    succeed. *)
Lemma rule_execute_reached (env : Env) (dryRun : bool) (executedBy : string)
    (config : option ScheduleConfig) (w : World) :
  findProviderListError env = None ->
  providerAnalyticsQueryError env = None ->
  dryRun = true \/ (forall i, updateProviderError env i = None) ->
  createScheduleLogError env = None ->
  let ds := AutoScheduler.decisionsOf env (orElse config AutoScheduler.getConfig) w in
  let s := AutoScheduler.calculateSummary ds in
  let data := AutoScheduler.logData env ds s executedBy dryRun in
  let w1 := snd (AutoScheduler.commit env ds dryRun w) in
  let logId := Z.of_nat (List.length (scheduleLogs w1)) + 1 in
  AutoScheduler.execute env dryRun executedBy config w
  = ({| s_ok := true;
        s_logId := Some logId;
        s_totalProviders := Z.of_nat (List.length ds);
        s_analyzedProviders :=
          Z.of_nat (List.length (filter (fun d => confidence d >=? 50) ds));
        s_affectedProviders := affected s;
        s_decisions := ds;
        s_summary := s;
        s_error := None |},
     {| providers := providers w1;
        scheduleLogs := scheduleLogs w1 ++ [(logId, data)];
        events := events w1 ++ [CreateScheduleLogCall data] |}).
Proof.
  intros Hf Ha Hu Hl ds s data w1 logId.
  unfold AutoScheduler.execute, catch_all, AutoScheduler.run.
  unfold bind at 1. rewrite (rule_generateDecisions_effect env _ w Hf Ha).
  fold ds. fold s. unfold bind at 1.
  rewrite (returns_unit _ w (rule_commit_returns env ds dryRun Hu)).
  fold w1. unfold bind at 1.
  unfold AutoScheduler.logExecution, createScheduleLog, bind, emit, ret.
  rewrite Hl. reflexivity.
Qed.

(** C6 (amended).  A realtime cycle that has read its settings and
    analytics and found an enabled provider calls [createScheduleLog]
    exactly once, dry run or not, with a record carrying the dry-run flag,
    the decisions and the summary of the cycle.  If the write succeeds the
    record is the one row added to the log table; if it fails no row is
    added, and in both cases the cycle returns [ok = true] and the provider
    table is as the commit step left it.  A realtime cycle that finds no
    enabled provider returns [ok = true] and leaves the log table alone.  A
    cycle of the rule scheduler whose reads, provider updates and log write
    succeed calls [createScheduleLog] exactly once, dry run or not and also
    without any decision, adds this one row and returns [ok = true] with
    the id of the row. *)
Theorem one_schedule_log_per_cycle :
  (forall (env : Env) (config : MABConfig) (dryRun : bool) (w : World)
          (st : SystemSettings),
      settings env = Returned st ->
      multiWindowQueryError env = None ->
      enabledRows w <> [] ->
      let run := RealtimeDecisionEngine.execute env config dryRun w in
      let ds := RealtimeDecisionEngine.decisionsOf env config st w in
      let data :=
        RealtimeDecisionEngine.logData
          ds (RealtimeDecisionEngine.calculateSummary ds) (now env) dryRun in
      r_ok (fst run) = true
      /\ logCalls (events (snd run)) = logCalls (events w) ++ [data]
      /\ dry_run data = dryRun
      /\ log_decisions data = r_decisions (fst run)
      /\ log_summary data = r_summary (fst run)
      /\ providers (snd run)
         = providers (snd (RealtimeDecisionEngine.commit env ds dryRun w))
      /\ (createScheduleLogError env = None ->
          scheduleLogs (snd run)
          = scheduleLogs w
            ++ [(Z.of_nat (List.length (scheduleLogs w)) + 1, data)])
      /\ (createScheduleLogError env <> None ->
          scheduleLogs (snd run) = scheduleLogs w))
  /\ (forall (env : Env) (config : MABConfig) (dryRun : bool) (w : World)
             (st : SystemSettings),
         settings env = Returned st ->
         multiWindowQueryError env = None ->
         enabledRows w = [] ->
         let run := RealtimeDecisionEngine.execute env config dryRun w in
         r_ok (fst run) = true
         /\ logCalls (events (snd run)) = logCalls (events w)
         /\ scheduleLogs (snd run) = scheduleLogs w)
  /\ (forall (env : Env) (dryRun : bool) (executedBy : string)
             (config : option ScheduleConfig) (w : World),
         findProviderListError env = None ->
         providerAnalyticsQueryError env = None ->
         dryRun = true \/ (forall i, updateProviderError env i = None) ->
         createScheduleLogError env = None ->
         let run := AutoScheduler.execute env dryRun executedBy config w in
         let ds :=
           AutoScheduler.decisionsOf env
             (orElse config AutoScheduler.getConfig) w in
         let data :=
           AutoScheduler.logData
             env ds (AutoScheduler.calculateSummary ds) executedBy dryRun in
         let logId := Z.of_nat (List.length (scheduleLogs w)) + 1 in
         s_ok (fst run) = true
         /\ s_logId (fst run) = Some logId
         /\ logCalls (events (snd run)) = logCalls (events w) ++ [data]
         /\ dry_run data = dryRun
         /\ log_decisions data = s_decisions (fst run)
         /\ log_summary data = s_summary (fst run)
         /\ scheduleLogs (snd run) = scheduleLogs w ++ [(logId, data)]).
Proof.
  split; [|split].
  2:{ intros env config dryRun w st Hst Hq Hrows run. subst run.
      rewrite (realtime_execute_no_provider env config dryRun w st Hst Hq Hrows).
      now repeat split. }
  - intros env config dryRun w st Hst Hq Hrows run ds data.
    pose proof (realtime_execute_reached env config dryRun w st Hst Hq Hrows)
      as E.
    cbv zeta in E. fold ds in E.
    rewrite realtime_logExecution_effect in E.
    pose proof (realtime_commit_keeps_logs env ds dryRun w) as Hk.
    unfold logStore in Hk. injection Hk as Hk1 Hk2.
    fold data in E. subst run. rewrite E. clear E. simpl fst.
    split; [reflexivity|].
    destruct (createScheduleLogError env) as [msg|]; simpl.
    + rewrite logCalls_app, Hk2. simpl.
      repeat split; try reflexivity; try congruence.
    + rewrite logCalls_app, Hk1, Hk2. simpl.
      repeat split; try reflexivity; try congruence.
  - intros env dryRun executedBy config w Hf Ha Hu Hl run ds data logId.
    pose proof (rule_execute_reached env dryRun executedBy config w
                  Hf Ha Hu Hl) as E.
    cbv zeta in E. fold ds in E. fold data in E.
    pose proof (rule_commit_keeps_logs env ds dryRun w) as Hk.
    unfold logStore in Hk. injection Hk as Hk1 Hk2.
    subst run. rewrite E. clear E. simpl.
    rewrite logCalls_app, Hk1, Hk2. simpl.
    repeat split; reflexivity.
Qed.

Lemma one_schedule_log_per_cycle_witness :
  r_ok (fst (RealtimeDecisionEngine.execute
               (Examples.env (fun _ => None) (Some "disk full"%string))
               Examples.mabConfig false Examples.fresh)) = true
  /\ scheduleLogs
       (snd (RealtimeDecisionEngine.execute Examples.allFine
               Examples.mabConfig true Examples.noProvider)) = []
  /\ s_ok (fst (AutoScheduler.execute Examples.allFine true "auto" None
                                      Examples.fresh)) = true.
Proof.
  destruct one_schedule_log_per_cycle as (Hrealtime & Hnone & Hrule).
  split; [|split].
  - refine (proj1 (Hrealtime _ _ _ _ Examples.defaultSettings _ _ _));
      [reflexivity | reflexivity | vm_compute; discriminate].
  - refine (proj2 (proj2 (Hnone _ _ _ _ Examples.defaultSettings _ _ _)));
      reflexivity.
  - refine (proj1 (Hrule _ _ _ _ _ _ _ _ _));
      [reflexivity | reflexivity | left; reflexivity | reflexivity].
Defined.

(** C6 as stated fails for a realtime cycle that finds no enabled provider:
    it returns [ok = true] from the guard on an empty provider list, before
    the logging step, and neither calls [createScheduleLog] nor adds a
    row. *)
Lemma realtime_no_provider_no_log :
  let run :=
    RealtimeDecisionEngine.execute Examples.allFine Examples.mabConfig false
                                   Examples.noProvider in
  r_ok (fst run) = true
  /\ logCalls (events (snd run)) = []
  /\ scheduleLogs (snd run) = scheduleLogs Examples.noProvider
  /\ List.length (scheduleLogs (snd run))
     <> S (List.length (scheduleLogs Examples.noProvider)).
Proof. vm_compute. repeat split; try reflexivity. discriminate. Qed.

(** When the log write of the rule scheduler fails the cycle reports
    [ok = false], although the provider updates it made stay in place. *)
Lemma rule_log_failure_fails_cycle :
  let run :=
    AutoScheduler.execute
      (Examples.env (fun _ => None) (Some "disk full"%string))
      false "auto" None Examples.fresh in
  s_ok (fst run) = false
  /\ s_error (fst run) = Some "disk full"%string
  /\ map Examples.state (providers (snd run)) = [(8, 2, Some 10, Some 1)]
  /\ scheduleLogs (snd run) = [].
Proof. vm_compute. repeat split; reflexivity. Qed.

(* ================================================================== *)
(** * Further properties *)
(* ================================================================== *)

(** ** PerformanceScorer: range and monotonicity *)

Lemma round_one_decimal_range (x : Q) :
  (0 <= x)%Q -> (x <= 100)%Q ->
  (0 <= PerformanceScorer.round_one_decimal x)%Q
  /\ (PerformanceScorer.round_one_decimal x <= 100)%Q.
Proof.
  intros H0 H100. unfold PerformanceScorer.round_one_decimal.
  assert (Hlo : 0 <= Math.round (x * 10)).
  { change 0 with (Math.round 0). apply round_mono.
    apply Qmult_le_0_compat; [exact H0 | discriminate]. }
  assert (Hhi : Math.round (x * 10) <= 1000).
  { change 1000 with (Math.round 1000). apply round_mono.
    change 1000%Q with (100 * 10)%Q.
    apply Qmult_le_compat_r; [exact H100 | discriminate]. }
  split.
  - apply Qle_shift_div_l; [reflexivity|]. rewrite Qmult_0_l.
    change 0%Q with (inject_Z 0). now rewrite <- Zle_Qle.
  - apply Qle_shift_div_r; [reflexivity|].
    change (100 * 10)%Q with (inject_Z 1000). now rewrite <- Zle_Qle.
Qed.

Lemma round_one_decimal_mono (x y : Q) :
  (x <= y)%Q ->
  (PerformanceScorer.round_one_decimal x
   <= PerformanceScorer.round_one_decimal y)%Q.
Proof.
  intro H. unfold PerformanceScorer.round_one_decimal.
  apply Qmult_le_compat_r; [|discriminate].
  rewrite <- Zle_Qle. apply round_mono.
  apply Qmult_le_compat_r; [exact H | discriminate].
Qed.

Lemma clamp_range (lo hi x : Q) :
  (lo <= hi)%Q -> (lo <= Qmax lo (Qmin hi x))%Q /\ (Qmax lo (Qmin hi x) <= hi)%Q.
Proof.
  intro H. split.
  - apply Q.le_max_l.
  - apply Q.max_lub; [exact H | apply Q.le_min_l].
Qed.

Lemma clamp_mono (lo hi x y : Q) :
  (x <= y)%Q -> (Qmax lo (Qmin hi x) <= Qmax lo (Qmin hi y))%Q.
Proof.
  intro H. apply Q.max_le_compat_l. now apply Q.min_le_compat_l.
Qed.

(** The score always lies between 0 and 100, whatever the error rate and
    the response time are (also outside their meaningful ranges). *)
Theorem calculateScore_range (m : ProviderMetrics) :
  (0 <= PerformanceScorer.calculateScore m)%Q
  /\ (PerformanceScorer.calculateScore m <= 100)%Q.
Proof.
  rewrite calculateScore_unfold.
  destruct (clamp_range 0 60 ((1 - todayErrorRate m) * 60)) as [Hs0 Hs1];
    [discriminate|].
  destruct (clamp_range 0 40
              ((1 - Qmin (todayAvgResponseTime m / 10000) 1) * 40))
    as [Ht0 Ht1]; [discriminate|].
  apply round_one_decimal_range.
  - change 0%Q with (0 + 0)%Q. now apply Qplus_le_compat.
  - change 100%Q with (60 + 40)%Q. now apply Qplus_le_compat.
Qed.

(** A provider with fewer errors and a shorter response time never scores
    lower. *)
Theorem calculateScore_antitone (m1 m2 : ProviderMetrics) :
  (todayErrorRate m1 <= todayErrorRate m2)%Q ->
  (todayAvgResponseTime m1 <= todayAvgResponseTime m2)%Q ->
  (PerformanceScorer.calculateScore m2 <= PerformanceScorer.calculateScore m1)%Q.
Proof.
  intros He Ht. rewrite !calculateScore_unfold.
  apply round_one_decimal_mono.
  apply Qplus_le_compat; apply clamp_mono;
    (apply Qmult_le_compat_r; [|discriminate]).
  - apply Qplus_le_r. now apply Qopp_le_compat.
  - apply Qplus_le_r. apply Qopp_le_compat.
    apply Q.min_le_compat_r.
    apply Qmult_le_compat_r; [exact Ht | discriminate].
Qed.

Lemma calculateScore_antitone_witness :
  (PerformanceScorer.calculateScore (metrics_of 10 0.5 5000)
   <= PerformanceScorer.calculateScore (metrics_of 10 0.25 800))%Q.
Proof.
  apply (calculateScore_antitone (metrics_of 10 0.25 800)
                                 (metrics_of 10 0.5 5000));
    discriminate.
Defined.

(** The confidence always lies between 0 and 100, for every sample size and
    every minimum size. *)
Theorem calculateConfidence_range (sampleSize minSize : Z) :
  0 <= PerformanceScorer.calculateConfidence sampleSize minSize <= 100.
Proof.
  unfold PerformanceScorer.calculateConfidence.
  fold (PerformanceScorer.ramp sampleSize minSize).
  destruct (sampleSize >=? minSize * 5); [lia|].
  destruct (sampleSize >=? minSize * 2); [lia|].
  destruct (Z.geb_spec sampleSize minSize); [lia|].
  destruct (Z.gtb_spec sampleSize 0); [|lia].
  pose proof (ramp_nonneg minSize sampleSize).
  pose proof (ramp_le_50 minSize sampleSize). lia.
Qed.

(** With the minimum size 10 that [getProviderAnalytics] passes, the
    confidence reaches 50 exactly from 10 requests on. *)
Lemma confidence_10 (n : Z) :
  (PerformanceScorer.calculateConfidence n 10 <? 50) = (n <? 10).
Proof.
  destruct (Z.ltb_spec n 10) as [Hlt|Hge].
  - assert (Hn : n <= 0 \/ n = 1 \/ n = 2 \/ n = 3 \/ n = 4 \/ n = 5 \/ n = 6
                 \/ n = 7 \/ n = 8 \/ n = 9) by lia.
    destruct Hn as [Hn|Hn].
    + unfold PerformanceScorer.calculateConfidence.
      destruct (Z.geb_spec n (10 * 5)); [lia|].
      destruct (Z.geb_spec n (10 * 2)); [lia|].
      destruct (Z.geb_spec n 10); [lia|].
      destruct (Z.gtb_spec n 0); [lia | reflexivity].
    + repeat (destruct Hn as [->|Hn]; [reflexivity|]). now subst n.
  - unfold PerformanceScorer.calculateConfidence.
    destruct (Z.geb_spec n (10 * 5)); [now apply Z.ltb_ge|].
    destruct (Z.geb_spec n (10 * 2)); [now apply Z.ltb_ge|].
    destruct (Z.geb_spec n 10); [now apply Z.ltb_ge | lia].
Qed.

(** ** PerformanceScorer: trends *)

Lemma round_pos (x : Q) : 0 < Math.round x -> (0 < x)%Q.
Proof.
  unfold Math.round. intro H.
  assert (Hf := Qfloor_le (x + (1 # 2))).
  assert (H1 : (1 <= inject_Z (Qfloor (x + (1 # 2))))%Q).
  { change 1%Q with (inject_Z 1). rewrite <- Zle_Qle. lia. }
  assert (H2 : (1 <= x + (1 # 2))%Q) by (eapply Qle_trans; eauto).
  apply Qlt_le_trans with (y := (1 - (1 # 2))%Q); [reflexivity|].
  apply (Qplus_le_l _ _ (1 # 2)). ring_simplify. ring_simplify in H2.
  exact H2.
Qed.

Lemma round_neg (x : Q) : Math.round x < 0 -> (x < 0)%Q.
Proof.
  unfold Math.round. intro H.
  assert (Hf := Qlt_floor (x + (1 # 2))).
  assert (H1 : (inject_Z (Qfloor (x + (1 # 2)) + 1) <= 0)%Q).
  { change 0%Q with (inject_Z 0). rewrite <- Zle_Qle. lia. }
  assert (H2 : (x + (1 # 2) < 0)%Q) by (eapply Qlt_le_trans; eauto).
  apply Qle_lt_trans with (y := (x + (1 # 2))%Q); [|exact H2].
  rewrite <- (Qplus_0_r x) at 1. apply Qplus_le_r. discriminate.
Qed.

Lemma toString_neg_first (z : Z) :
  z < 0 -> firstChar (toString z ++ "%") = firstChar "-".
Proof. destruct z; try lia. reflexivity. Qed.

(** The text of a trend agrees with [isImprovement]: a text that starts
    with a plus sign is only produced for an improvement, and a text that
    starts with a minus sign only for what is not an improvement. *)
Theorem formatTrend_sign (trend : Q) (reverse : bool) :
  (firstChar (Trend.formatTrend trend reverse) = firstChar "+" ->
   Trend.isImprovement trend reverse = true)
  /\ (firstChar (Trend.formatTrend trend reverse) = firstChar "-" ->
      Trend.isImprovement trend reverse = false).
Proof.
  unfold Trend.formatTrend, Trend.isImprovement.
  set (actual := if reverse then (- trend)%Q else trend).
  destruct (Z.gtb_spec (Math.round (actual * 100)) 0) as [Hpos|Hle].
  - assert (Ha : (0 < actual)%Q).
    { apply round_pos in Hpos.
      destruct (Qlt_le_dec 0 actual) as [H|H]; [exact H|].
      exfalso. apply (Qlt_not_le _ _ Hpos).
      rewrite <- (Qmult_0_l 100).
      apply Qmult_le_compat_r; [exact H | discriminate]. }
    split; intro H.
    + now apply Qltb_lt.
    + discriminate H.
  - destruct (Z.ltb_spec (Math.round (actual * 100)) 0) as [Hneg|Hge].
    + rewrite toString_neg_first by exact Hneg.
      split; intro H; [discriminate H|].
      apply round_neg in Hneg.
      destruct (Qltb 0 actual) eqn:E; [|reflexivity].
      apply Qltb_lt in E. exfalso. apply (Qlt_not_le _ _ Hneg).
      apply Qmult_le_0_compat; [now apply Qlt_le_weak | discriminate].
    + split; intro H; discriminate H.
Qed.

Lemma formatTrend_sign_witness :
  Trend.isImprovement (3 # 20) false = true
  /\ Trend.isImprovement (3 # 20) true = false.
Proof.
  split.
  - apply (proj1 (formatTrend_sign (3 # 20) false)). reflexivity.
  - apply (proj2 (formatTrend_sign (3 # 20) true)). reflexivity.
Defined.

Example formatTrend_values :
  Trend.formatTrend (3 # 20) false = "+15%"%string
  /\ Trend.formatTrend (1 # 5) true = "-20%"%string
  /\ Trend.formatTrend (1 # 1000) false = "0%"%string.
Proof. repeat split; reflexivity. Qed.

(** ** MABScheduler: confidence, ranges and direction of the suggestion *)

Lemma mab_confidence_unfold (r m : Z) :
  0 < r -> r < m * 2 ->
  MABScheduler.calculateConfidence r m
  = Z.min 100 (Qfloor (inject_Z r / inject_Z (m * 2) * 100)).
Proof.
  intros H0 H2. unfold MABScheduler.calculateConfidence, Math.floor.
  destruct (Z.eqb_spec r 0); [lia|].
  destruct (Z.geb_spec r (m * 2)); [lia | reflexivity].
Qed.

Lemma scaled_share (r d : Z) :
  0 < d -> (inject_Z r / inject_Z d * 100 == inject_Z (r * 100) / inject_Z d)%Q.
Proof.
  intro Hd. rewrite inject_Z_mult. field.
  change 0%Q with (inject_Z 0). rewrite inject_Z_injective. lia.
Qed.

(** For a minimum sample size of at least 1 and a request count that is
    not negative, the confidence of the MAB policy lies between 0 and 100,
    and it is below 50 exactly when the provider is in exploration, that is
    when it has fewer than [minSampleSize] requests. *)
Theorem mab_confidence_exploration (config : MABConfig)
    (provider : ProviderMultiWindowAnalytics) :
  1 <= minSampleSize config ->
  0 <= w_requests (weighted (pa_metrics provider)) ->
  let d := MABScheduler.generateDecision config provider in
  0 <= mab_confidence d <= 100
  /\ (isExploration d = true <-> mab_confidence d < 50).
Proof.
  intros Hm Hr. simpl.
  set (r := w_requests (weighted (pa_metrics provider))) in *.
  set (m := minSampleSize config) in *.
  destruct (Z.eq_dec r 0) as [E|E].
  { rewrite E. unfold MABScheduler.calculateConfidence. simpl.
    split; [lia|]. split; [lia|]. intros _. apply Z.ltb_lt. lia. }
  destruct (Z_lt_ge_dec r (m * 2)) as [Hlt|Hge].
  - rewrite mab_confidence_unfold by lia.
    rewrite (Qfloor_comp _ _ (scaled_share r (m * 2) ltac:(lia))).
    rewrite <- Zdiv_Qdiv.
    assert (H0 : 0 <= r * 100 / (m * 2)) by (apply Z.div_pos; lia).
    split; [lia|]. rewrite Z.ltb_lt. split; intro H.
    + assert (r * 100 / (m * 2) < 50); [|lia].
      apply Z.div_lt_upper_bound; lia.
    + destruct (Z_lt_ge_dec r m) as [Hrm|Hrm]; [exact Hrm|]. exfalso.
      assert (50 <= r * 100 / (m * 2)); [|lia].
      apply Z.div_le_lower_bound; lia.
  - unfold MABScheduler.calculateConfidence.
    destruct (Z.eqb_spec r 0); [lia|].
    destruct (Z.geb_spec r (m * 2)); [|lia].
    split; [lia|]. rewrite Z.ltb_lt. lia.
Qed.

Lemma mab_confidence_exploration_witness :
  isExploration
    (MABScheduler.generateDecision Examples.mabConfig Examples.steady) = true
  <-> mab_confidence
        (MABScheduler.generateDecision Examples.mabConfig Examples.steady) < 50.
Proof.
  apply (mab_confidence_exploration Examples.mabConfig Examples.steady).
  - simpl. lia.
  - vm_compute. discriminate.
Defined.

(** The MAB policy suggests weight 0 for an open circuit and only then;
    every other suggestion is at least 1.  For a closed circuit with enough
    samples the suggested weight also is at most 100 and the suggested
    priority is not negative. *)
Theorem mab_suggestion_range (config : MABConfig)
    (provider : ProviderMultiWindowAnalytics) :
  let d := MABScheduler.generateDecision config provider in
  (suggestedWeight d = 0 <-> pa_circuitState provider = open)
  /\ (pa_circuitState provider <> open -> 1 <= suggestedWeight d)
  /\ (pa_circuitState provider = closed ->
      minSampleSize config <= w_requests (weighted (pa_metrics provider)) ->
      suggestedWeight d <= 100 /\ 0 <= suggestedPriority d).
Proof.
  simpl. unfold MABScheduler.calculateAdjustment.
  destruct (pa_circuitState provider) eqn:Ec.
  - destruct (Z.ltb_spec (w_requests (weighted (pa_metrics provider)))
                         (minSampleSize config)) as [Hlt|Hge].
    + simpl. repeat split; try lia; try discriminate.
    + destruct (Qle_bool 85 _);
        [|destruct (Qle_bool 70 _); [|destruct (Qle_bool 50 _)]];
        simpl; repeat split; try lia; try discriminate.
  - simpl. repeat split; try lia; try discriminate. congruence.
  - simpl. repeat split; try lia; try discriminate.
Qed.

Lemma mab_suggestion_range_witness :
  suggestedWeight
    (MABScheduler.generateDecision Examples.mabConfig Examples.steady) <= 100.
Proof.
  refine (proj1 (proj2 (proj2
            (mab_suggestion_range Examples.mabConfig Examples.steady)) _ _)).
  - reflexivity.
  - vm_compute. discriminate.
Defined.

Lemma limited_step_direction (cw target mc : Z) :
  1 <= cw <= 100 -> 0 <= mc ->
  let s :=
    Z.max 1
      (Z.min 100
         (if Z.abs (target - cw) >? mc
          then cw + Z.sgn (target - cw) * mc
          else target)) in
  (cw <= target -> cw <= s)
  /\ (target <= cw -> s <= cw)
  /\ (1 <= target <= 100 -> Z.abs (s - target) <= Z.abs (cw - target))
  /\ (Z.abs (target - cw) <= mc -> 1 <= target <= 100 -> s = target).
Proof.
  intros Hcw Hmc s. subst s.
  destruct (Z.gtb_spec (Z.abs (target - cw)) mc) as [Hgt|Hle].
  - destruct (Z.sgn_spec (target - cw)) as [[H E]|[[H E]|[H E]]];
      rewrite E; repeat split; lia.
  - repeat split; lia.
Qed.

Lemma Qle_bool_false (x y : Q) : Qle_bool x y = false -> (y < x)%Q.
Proof.
  intro H. apply Qnot_le_lt. intro Hle.
  apply Qle_bool_iff in Hle. congruence.
Qed.

(** On the scored path (closed circuit, enough samples) with a current
    weight within [1,100], a baseline weight that is not negative and a
    percentage that is not negative, a score of 85 or more never lowers the
    weight and a score below 70 never raises it. *)
Theorem mab_direction (config : MABConfig)
    (provider : ProviderMultiWindowAnalytics) :
  pa_circuitState provider = closed ->
  minSampleSize config <= w_requests (weighted (pa_metrics provider)) ->
  1 <= pa_weight provider <= 100 ->
  0 <= orElse (pa_baseWeight provider) (pa_weight provider) ->
  (0 <= maxWeightAdjustmentPercent config)%Q ->
  let d := MABScheduler.generateDecision config provider in
  let score := w_performanceScore (weighted (pa_metrics provider)) in
  ((85 <= score)%Q -> currentWeight d <= suggestedWeight d)
  /\ ((score < 70)%Q -> suggestedWeight d <= currentWeight d).
Proof.
  intros Hc Hreq Hw Hb Hp. simpl.
  unfold MABScheduler.calculateAdjustment. rewrite Hc.
  destruct (Z.ltb_spec (w_requests (weighted (pa_metrics provider)))
                       (minSampleSize config)) as [Hlt|_]; [lia|].
  set (cw := pa_weight provider) in *.
  set (bw := orElse (pa_baseWeight provider) cw) in *.
  set (pct := maxWeightAdjustmentPercent config) in *.
  assert (Hmc := maxChange_nonneg cw pct ltac:(lia) Hp).
  assert (Hinc := maxChange_nonneg bw pct Hb Hp).
  assert (Hdec : 0 <= Math.floor (inject_Z bw * (pct / 200))).
  { apply floor_nonneg. apply Qmult_le_0_compat.
    - change 0%Q with (inject_Z 0). now rewrite <- Zle_Qle.
    - apply Qle_shift_div_l; [reflexivity|]. now rewrite Qmult_0_l. }
  destruct (Qle_bool 85 _) eqn:E85.
  { cbn [adj_suggestedWeight adj_suggestedPriority]. split; intro H.
    - match goal with
      | |- context [Z.abs (?t - cw) >? ?mc] =>
          destruct (limited_step_direction cw t mc Hw Hmc) as (H1 & _)
      end.
      apply H1. lia.
    - apply Qle_bool_iff in E85. exfalso.
      apply (Qlt_not_le _ _ H). eapply Qle_trans; [|exact E85]. discriminate. }
  destruct (Qle_bool 70 _) eqn:E70.
  { split; intro H.
    - apply Qle_bool_false in E85. exfalso. exact (Qlt_not_le _ _ E85 H).
    - apply Qle_bool_iff in E70. exfalso. exact (Qlt_not_le _ _ H E70). }
  apply Qle_bool_false in E85.
  destruct (Qle_bool 50 _); cbn [adj_suggestedWeight adj_suggestedPriority];
    (split; intro H;
     [exfalso; exact (Qlt_not_le _ _ E85 H)
     | match goal with
       | |- context [Z.abs (?t - cw) >? ?mc] =>
           destruct (limited_step_direction cw t mc Hw Hmc) as (_ & H2 & _)
       end;
       apply H2; lia]).
Qed.

Lemma mab_direction_witness :
  currentWeight
    (MABScheduler.generateDecision Examples.mabConfig Examples.steady)
  <= suggestedWeight
       (MABScheduler.generateDecision Examples.mabConfig Examples.steady).
Proof.
  refine (proj1 (mab_direction Examples.mabConfig Examples.steady
                   _ _ _ _ _) _);
    try reflexivity; try (vm_compute; discriminate); simpl; lia.
Defined.

(** The step limit is a share of the current weight, rounded down, so
    small weights cannot move on the scored path (closed circuit, enough
    samples): for a current weight within [1,100] and a percentage that is
    not negative, when [currentWeight * maxWeightAdjustmentPercent] is
    below 100 (with 10 per cent: the weights 1 to 9) the suggested weight
    is the current weight, whatever the score and the baseline are.  A
    current weight of 0, which is outside this range, is moved to 1. *)
Theorem mab_small_weight_frozen (config : MABConfig)
    (provider : ProviderMultiWindowAnalytics) :
  pa_circuitState provider = closed ->
  minSampleSize config <= w_requests (weighted (pa_metrics provider)) ->
  1 <= pa_weight provider <= 100 ->
  (0 <= maxWeightAdjustmentPercent config)%Q ->
  (inject_Z (pa_weight provider) * maxWeightAdjustmentPercent config < 100)%Q ->
  suggestedWeight (MABScheduler.generateDecision config provider)
  = pa_weight provider.
Proof.
  intros Hc Hreq Hw Hp Hsmall. simpl.
  unfold MABScheduler.calculateAdjustment. rewrite Hc.
  destruct (Z.ltb_spec (w_requests (weighted (pa_metrics provider)))
                       (minSampleSize config)) as [Hlt|_]; [lia|].
  set (cw := pa_weight provider) in *.
  set (pct := maxWeightAdjustmentPercent config) in *.
  assert (Hmc : Math.floor (inject_Z cw * (pct / 100)) = 0).
  { assert (H0 := maxChange_nonneg cw pct ltac:(lia) Hp).
    assert (H1 : Math.floor (inject_Z cw * (pct / 100)) < 1); [|lia].
    apply Qfloor_lt_bound. change (inject_Z 1) with 1%Q.
    unfold Qdiv. rewrite Qmult_assoc.
    apply Qlt_shift_div_r; [reflexivity|]. now rewrite Qmult_1_l. }
  rewrite Hmc.
  destruct (Qle_bool 85 _);
    [|destruct (Qle_bool 70 _); [|destruct (Qle_bool 50 _)]];
    cbn [adj_suggestedWeight adj_suggestedPriority];
    match goal with
    | |- Z.max 1 (Z.min 100 (if Z.abs (?t - cw) >? 0 then _ else _)) = cw =>
        pose proof (limited_step_bound cw t 0 Hw ltac:(lia))
    end; lia.
Qed.

Lemma mab_small_weight_frozen_witness :
  suggestedWeight
    (MABScheduler.generateDecision Examples.mabConfig
       (Examples.analytics 9 1 (Some 50) (Some 1) closed)) = 9.
Proof.
  apply (mab_small_weight_frozen Examples.mabConfig
           (Examples.analytics 9 1 (Some 50) (Some 1) closed));
    try reflexivity; try (vm_compute; discriminate); simpl; lia.
Defined.

(** On the scored path (closed circuit, enough samples), for a current
    weight and a baseline weight within [1,100] and a percentage that is
    not negative: with a score from 70 up to (not including) 85 the policy
    steers back to the baseline.  The suggested weight is never further
    from the baseline than the current weight, and it is the baseline
    itself as soon as the distance to the baseline is below
    [floor(currentWeight * maxWeightAdjustmentPercent / 100)].  (At a
    distance equal to that bound the double product of the source can fall
    just below the integer and stop one short of the baseline, so the
    bound is strict.) *)
Theorem mab_good_tier_returns_to_baseline (config : MABConfig)
    (provider : ProviderMultiWindowAnalytics) :
  pa_circuitState provider = closed ->
  minSampleSize config <= w_requests (weighted (pa_metrics provider)) ->
  1 <= pa_weight provider <= 100 ->
  1 <= orElse (pa_baseWeight provider) (pa_weight provider) <= 100 ->
  (0 <= maxWeightAdjustmentPercent config)%Q ->
  (70 <= w_performanceScore (weighted (pa_metrics provider)))%Q ->
  (w_performanceScore (weighted (pa_metrics provider)) < 85)%Q ->
  let d := MABScheduler.generateDecision config provider in
  let base := orElse (pa_baseWeight provider) (pa_weight provider) in
  Z.abs (suggestedWeight d - base) <= Z.abs (currentWeight d - base)
  /\ (Z.abs (base - currentWeight d)
      < Math.floor (inject_Z (currentWeight d)
                    * (maxWeightAdjustmentPercent config / 100)) ->
      suggestedWeight d = base)
  /\ suggestedPriority d
     = Z.max 0 (orElse (pa_basePriority provider) (pa_priority provider)).
Proof.
  intros Hc Hreq Hw Hb Hp H70 H85. simpl.
  unfold MABScheduler.calculateAdjustment. rewrite Hc.
  destruct (Z.ltb_spec (w_requests (weighted (pa_metrics provider)))
                       (minSampleSize config)) as [Hlt|_]; [lia|].
  set (cw := pa_weight provider) in *.
  set (bw := orElse (pa_baseWeight provider) cw) in *.
  set (pct := maxWeightAdjustmentPercent config) in *.
  assert (Hmc := maxChange_nonneg cw pct ltac:(lia) Hp).
  destruct (Qle_bool 85 _) eqn:E85.
  { apply Qle_bool_iff in E85. exfalso. exact (Qlt_not_le _ _ H85 E85). }
  apply Qle_bool_iff in H70. rewrite H70.
  cbn [adj_suggestedWeight adj_suggestedPriority].
  destruct (limited_step_direction cw bw _ Hw Hmc) as (_ & _ & H3 & H4).
  split; [now apply H3|]. split; [|reflexivity].
  intro H. apply H4; [|exact Hb]. apply Z.lt_le_incl. exact H.
Qed.

Lemma mab_good_tier_returns_to_baseline_witness :
  suggestedWeight
    (MABScheduler.generateDecision Examples.mabConfig
       {| pa_id := 1; pa_name := "p1"; pa_weight := 52; pa_priority := 1;
          pa_baseWeight := Some 50; pa_basePriority := Some 1;
          pa_metrics :=
            MultiWindow.toMetrics (Examples.win 100 0 5000)
              (Examples.win 100 0 5000) (Examples.win 100 0 5000);
          pa_circuitState := closed |}) = 50.
Proof.
  refine (proj1 (proj2 (mab_good_tier_returns_to_baseline Examples.mabConfig
                          _ _ _ _ _ _ _ _)) _);
    try reflexivity; try (vm_compute; discriminate);
    try (simpl; lia); vm_compute; discriminate.
Defined.

(** ** Summaries and results of a cycle *)

Lemma realtime_count_step (s : ScheduleSummary) (d : ScheduleDecision) :
  nonneg_summary s ->
  nonneg_summary (RealtimeDecisionEngine.count s d)
  /\ counted (RealtimeDecisionEngine.count s d) = counted s + 1.
Proof.
  unfold nonneg_summary, RealtimeDecisionEngine.count, counted.
  destruct (action d); simpl; lia.
Qed.

Lemma realtime_summary_fold (ds : list ScheduleDecision) (s : ScheduleSummary) :
  nonneg_summary s ->
  nonneg_summary (fold_left RealtimeDecisionEngine.count ds s)
  /\ counted (fold_left RealtimeDecisionEngine.count ds s)
     = counted s + Z.of_nat (List.length ds).
Proof.
  revert s. induction ds as [|d ds IH]; intros s Hs; simpl fold_left.
  - split; [exact Hs | simpl; lia].
  - destruct (realtime_count_step s d Hs) as [Hn Hc].
    destruct (IH _ Hn) as [Hn' Hc'].
    split; [exact Hn'|]. rewrite Hc', Hc. simpl List.length. lia.
Qed.

Lemma rule_count_step (s : ScheduleSummary) (d : ScheduleDecision) :
  nonneg_summary s -> action d <> explore ->
  nonneg_summary (AutoScheduler.count s d)
  /\ counted (AutoScheduler.count s d) = counted s + 1.
Proof.
  unfold nonneg_summary, AutoScheduler.count, counted.
  destruct (action d); simpl; try lia. congruence.
Qed.

Lemma rule_summary_fold (ds : list ScheduleDecision) (s : ScheduleSummary) :
  nonneg_summary s ->
  Forall (fun d => action d <> explore) ds ->
  nonneg_summary (fold_left AutoScheduler.count ds s)
  /\ counted (fold_left AutoScheduler.count ds s)
     = counted s + Z.of_nat (List.length ds).
Proof.
  intros Hs H. revert s Hs.
  induction H as [|d ds Hd _ IH]; intros s Hs; simpl fold_left.
  - split; [exact Hs | simpl; lia].
  - destruct (rule_count_step s d Hs Hd) as [Hn Hc].
    destruct (IH _ Hn) as [Hn' Hc'].
    split; [exact Hn'|]. rewrite Hc', Hc. simpl List.length. lia.
Qed.

Lemma emptySummary_nonneg : nonneg_summary emptySummary.
Proof. unfold nonneg_summary. simpl. lia. Qed.

Lemma realtime_summary_total (ds : list ScheduleDecision) :
  let s := RealtimeDecisionEngine.calculateSummary ds in
  nonneg_summary s
  /\ counted s = Z.of_nat (List.length ds)
  /\ 0 <= affected s <= Z.of_nat (List.length ds).
Proof.
  intro s. subst s. unfold RealtimeDecisionEngine.calculateSummary.
  destruct (realtime_summary_fold ds emptySummary emptySummary_nonneg)
    as [Hn Hc].
  split; [exact Hn|]. split; [exact Hc|].
  unfold nonneg_summary in Hn. unfold counted in Hc. unfold affected.
  simpl in Hc. lia.
Qed.

Lemma applyStrategy_action (provider : Provider)
    (analytics : ProviderAnalytics) (c : CircuitState)
    (config : ScheduleConfig) :
  action (AutoScheduler.applyStrategy provider analytics c config) <> explore.
Proof.
  unfold AutoScheduler.applyStrategy.
  destruct (an_confidence analytics <? 50); [discriminate|].
  destruct c; try discriminate;
    destruct (Qltb 80 _ && _); try discriminate;
    destruct (Qltb 85 _); try discriminate;
    destruct (Qltb _ 60); discriminate.
Qed.

Lemma decide_actions (env : Env) (config : ScheduleConfig)
    (ps : list Provider) (an : list ProviderAnalytics) :
  Forall (fun d => action d <> explore) (AutoScheduler.decide env config ps an).
Proof.
  unfold AutoScheduler.decide. apply Forall_forall. intros d Hin.
  apply in_flat_map in Hin. destruct Hin as (p & _ & Hin).
  destruct (negb (isEnabled p)); [contradiction|].
  destruct (AutoScheduler.analyticsGet an (id p)); [|contradiction].
  destruct Hin as [<-|[]]. apply applyStrategy_action.
Qed.

(** The four ways a realtime cycle can go. *)
Lemma realtime_execute_cases (env : Env) (config : MABConfig) (dryRun : bool)
    (w : World) :
  (exists msg, settings env = Thrown msg
     /\ RealtimeDecisionEngine.execute env config dryRun w
        = (RealtimeDecisionEngine.emptyResult false (now env) (Some msg),
           logged w [RealtimeExecutionFailed]))
  \/ (exists st msg, settings env = Returned st
        /\ multiWindowQueryError env = Some msg
        /\ RealtimeDecisionEngine.execute env config dryRun w
           = (RealtimeDecisionEngine.emptyResult false (now env) (Some msg),
              logged w [MultiWindowAnalyticsFailed; RealtimeExecutionFailed]))
  \/ (exists st, settings env = Returned st
        /\ multiWindowQueryError env = None
        /\ enabledRows w = []
        /\ RealtimeDecisionEngine.execute env config dryRun w
           = (RealtimeDecisionEngine.emptyResult true (now env) None, w))
  \/ (exists st, settings env = Returned st
        /\ multiWindowQueryError env = None
        /\ enabledRows w <> []
        /\ let ds := RealtimeDecisionEngine.decisionsOf env config st w in
           let s := RealtimeDecisionEngine.calculateSummary ds in
           RealtimeDecisionEngine.execute env config dryRun w
           = ({| r_ok := true;
                 r_executionTime := now env;
                 r_totalProviders := Z.of_nat (List.length (enabledRows w));
                 r_affectedProviders := affected s;
                 r_decisions := ds;
                 r_summary := s;
                 r_error := None |},
              snd (RealtimeDecisionEngine.logExecution env ds s (now env) dryRun
                     (snd (RealtimeDecisionEngine.commit env ds dryRun w))))).
Proof.
  destruct (settings env) as [st|msg] eqn:Est.
  2:{ left. exists msg. split; [reflexivity|].
      now apply realtime_execute_no_settings. }
  right. destruct (multiWindowQueryError env) as [msg|] eqn:Eq.
  { left. exists st, msg. repeat split.
    now apply realtime_execute_no_analytics with (st := st). }
  right. destruct (enabledRows w) as [|row rows] eqn:Erows.
  { left. exists st. repeat split.
    now apply realtime_execute_no_provider with (st := st). }
  right. exists st. repeat split; [discriminate|].
  rewrite <- Erows.
  apply (realtime_execute_reached env config dryRun w st Est Eq).
  rewrite Erows. discriminate.
Qed.

Lemma decisionsOf_length (env : Env) (config : MABConfig)
    (st : SystemSettings) (w : World) :
  List.length (RealtimeDecisionEngine.decisionsOf env config st w)
  = List.length (enabledRows w).
Proof.
  unfold RealtimeDecisionEngine.decisionsOf,
    RealtimeDecisionEngine.convertToScheduleDecisions,
    MABScheduler.generateDecisions.
  now rewrite !length_map.
Qed.

(** The result of every realtime cycle is consistent: [totalProviders] is
    the number of decisions, the five counters of the summary add up to it,
    and [affectedProviders] lies between 0 and it.  The cycle reports
    [ok = false] only when reading the settings or the analytics failed,
    and then it has written nothing: the provider table and the log table
    are unchanged and neither [updateProvider] nor [createScheduleLog] was
    called.  Failing provider updates and a failing log write never make
    the cycle fail. *)
Theorem realtime_result_consistent (env : Env) (config : MABConfig)
    (dryRun : bool) (w : World) :
  let r := fst (RealtimeDecisionEngine.execute env config dryRun w) in
  let w' := snd (RealtimeDecisionEngine.execute env config dryRun w) in
  r_totalProviders r = Z.of_nat (List.length (r_decisions r))
  /\ counted (r_summary r) = r_totalProviders r
  /\ 0 <= r_affectedProviders r <= r_totalProviders r
  /\ (r_ok r = false <->
      (exists msg, settings env = Thrown msg)
      \/ (exists msg, multiWindowQueryError env = Some msg))
  /\ (r_ok r = false ->
      providers w' = providers w
      /\ scheduleLogs w' = scheduleLogs w
      /\ updateCalls (events w') = updateCalls (events w)
      /\ logCalls (events w') = logCalls (events w)).
Proof.
  intros r w'. subst r w'.
  destruct (realtime_execute_cases env config dryRun w)
    as [(msg & Hs & E)|[(st & msg & Hs & Hq & E)|[(st & Hs & Hq & Hr & E)
                                                 |(st & Hs & Hq & Hr & E)]]];
    cbv zeta in E; rewrite E; clear E; cbn [fst snd].
  - calls. repeat split; try reflexivity; try lia; eauto.
  - calls. repeat split; try reflexivity; try lia; eauto.
  - simpl. repeat split; try reflexivity; try lia; try discriminate.
    intros [[msg H]|[msg H]]; congruence.
  - cbn [r_ok r_totalProviders r_decisions r_summary r_affectedProviders].
    rewrite decisionsOf_length.
    destruct (realtime_summary_total
                (RealtimeDecisionEngine.decisionsOf env config st w))
      as (_ & Hc & Ha).
    cbv zeta in Hc, Ha. rewrite decisionsOf_length in Hc, Ha.
    repeat split; try assumption; try lia; try discriminate.
    intros [[msg H]|[msg H]]; congruence.
Qed.

(** A cycle that cannot read the settings reports failure and writes
    nothing. *)
Lemma realtime_result_consistent_witness :
  providers (snd (RealtimeDecisionEngine.execute
                    (env SchedulerExamples.unreadable) Examples.mabConfig false
                    Examples.twoProviders))
  = providers Examples.twoProviders.
Proof.
  destruct (realtime_result_consistent (env SchedulerExamples.unreadable)
              Examples.mabConfig false Examples.twoProviders)
    as (_ & _ & _ & _ & H).
  exact (proj1 (H eq_refl)).
Defined.

Lemma rule_summary_total (env : Env) (config : ScheduleConfig)
    (ps : list Provider) (an : list ProviderAnalytics) :
  let ds := AutoScheduler.decide env config ps an in
  let s := AutoScheduler.calculateSummary ds in
  nonneg_summary s
  /\ counted s = Z.of_nat (List.length ds)
  /\ 0 <= affected s <= Z.of_nat (List.length ds).
Proof.
  intros ds s. subst s. unfold AutoScheduler.calculateSummary.
  destruct (rule_summary_fold ds emptySummary emptySummary_nonneg
              (decide_actions env config ps an)) as [Hn Hc].
  split; [exact Hn|]. split; [exact Hc|].
  unfold nonneg_summary in Hn. unfold counted in Hc. unfold affected.
  simpl in Hc. lia.
Qed.

Lemma filter_length_le {A : Type} (f : A -> bool) (l : list A) :
  (List.length (filter f l) <= List.length l)%nat.
Proof.
  induction l as [|x l IH]; simpl; [lia|].
  destruct (f x); simpl; lia.
Qed.

(** [AutoScheduler.execute], step by step. *)
Lemma rule_execute_unfold (env : Env) (dryRun : bool) (executedBy : string)
    (config : option ScheduleConfig) (w : World) :
  let ds :=
    AutoScheduler.decisionsOf env (orElse config AutoScheduler.getConfig) w in
  let s := AutoScheduler.calculateSummary ds in
  let data := AutoScheduler.logData env ds s executedBy dryRun in
  AutoScheduler.execute env dryRun executedBy config w
  = match findProviderListError env with
    | Some msg => (ruleFailure msg, logged w [AutoExecutionFailed])
    | None =>
      match providerAnalyticsQueryError env with
      | Some msg =>
          (ruleFailure msg,
           logged w [ProviderAnalyticsFailed; AutoExecutionFailed])
      | None =>
        match AutoScheduler.commit env ds dryRun w with
        | (Thrown msg, w1) =>
            (ruleFailure msg, logged w1 [AutoExecutionFailed])
        | (Returned _, w1) =>
          match createScheduleLogError env with
          | Some msg =>
              (ruleFailure msg,
               {| providers := providers w1;
                  scheduleLogs := scheduleLogs w1;
                  events :=
                    events w1
                    ++ [CreateScheduleLogCall data;
                        LoggerError CreateScheduleLogFailed;
                        LoggerError AutoExecutionFailed] |})
          | None =>
              ({| s_ok := true;
                  s_logId :=
                    Some (Z.of_nat (List.length (scheduleLogs w1)) + 1);
                  s_totalProviders := Z.of_nat (List.length ds);
                  s_analyzedProviders :=
                    Z.of_nat
                      (List.length
                         (filter (fun d => confidence d >=? 50) ds));
                  s_affectedProviders := affected s;
                  s_decisions := ds;
                  s_summary := s;
                  s_error := None |},
               {| providers := providers w1;
                  scheduleLogs :=
                    scheduleLogs w1
                    ++ [(Z.of_nat (List.length (scheduleLogs w1)) + 1, data)];
                  events := events w1 ++ [CreateScheduleLogCall data] |})
          end
        end
      end
    end.
Proof.
  intros ds s data.
  unfold AutoScheduler.execute, catch_all, AutoScheduler.run.
  unfold bind at 1.
  destruct (findProviderListError env) as [msg|] eqn:Ef.
  { unfold AutoScheduler.generateDecisions, bind, findProviderList.
    rewrite Ef. reflexivity. }
  destruct (providerAnalyticsQueryError env) as [msg|] eqn:Ea.
  { unfold AutoScheduler.generateDecisions, bind, findProviderList,
      getProviderAnalytics.
    rewrite Ef, Ea. unfold throw, emit, logged. simpl.
    now rewrite <- app_assoc. }
  rewrite (rule_generateDecisions_effect env _ w Ef Ea).
  fold ds. fold s. unfold bind at 1.
  destruct (AutoScheduler.commit env ds dryRun w) as [[[]|msg] w1];
    [|reflexivity].
  unfold bind at 1.
  unfold AutoScheduler.logExecution, createScheduleLog, bind, emit, throw, ret.
  fold data.
  destruct (createScheduleLogError env) as [msg|]; simpl.
  - now rewrite <- !app_assoc.
  - reflexivity.
Qed.

(** The ways a cycle of the rule scheduler can go: a read fails, the commit
    step throws, the log write fails, or everything succeeds. *)
Lemma rule_execute_cases (env : Env) (dryRun : bool) (executedBy : string)
    (config : option ScheduleConfig) (w : World) :
  let ds :=
    AutoScheduler.decisionsOf env (orElse config AutoScheduler.getConfig) w in
  let s := AutoScheduler.calculateSummary ds in
  let data := AutoScheduler.logData env ds s executedBy dryRun in
  let w1 := snd (AutoScheduler.commit env ds dryRun w) in
  let run := AutoScheduler.execute env dryRun executedBy config w in
  (exists msg,
     fst run = ruleFailure msg
     /\ scheduleLogs (snd run) = scheduleLogs w
     /\ (findProviderListError env = Some msg
         \/ providerAnalyticsQueryError env = Some msg)
     /\ providers (snd run) = providers w
     /\ updateCalls (events (snd run)) = updateCalls (events w)
     /\ logCalls (events (snd run)) = logCalls (events w))
  \/ (exists msg,
        fst run = ruleFailure msg
        /\ findProviderListError env = None
        /\ providerAnalyticsQueryError env = None
        /\ fst (AutoScheduler.commit env ds dryRun w) = Thrown msg
        /\ providers (snd run) = providers w1
        /\ scheduleLogs (snd run) = scheduleLogs w
        /\ logCalls (events (snd run)) = logCalls (events w))
  \/ (exists msg,
        fst run = ruleFailure msg
        /\ findProviderListError env = None
        /\ providerAnalyticsQueryError env = None
        /\ fst (AutoScheduler.commit env ds dryRun w) = Returned tt
        /\ createScheduleLogError env = Some msg
        /\ providers (snd run) = providers w1
        /\ scheduleLogs (snd run) = scheduleLogs w
        /\ logCalls (events (snd run)) = logCalls (events w) ++ [data])
  \/ (findProviderListError env = None
      /\ providerAnalyticsQueryError env = None
      /\ fst (AutoScheduler.commit env ds dryRun w) = Returned tt
      /\ createScheduleLogError env = None
      /\ fst run
         = {| s_ok := true;
              s_logId := Some (Z.of_nat (List.length (scheduleLogs w)) + 1);
              s_totalProviders := Z.of_nat (List.length ds);
              s_analyzedProviders :=
                Z.of_nat
                  (List.length (filter (fun d => confidence d >=? 50) ds));
              s_affectedProviders := affected s;
              s_decisions := ds;
              s_summary := s;
              s_error := None |}
      /\ providers (snd run) = providers w1
      /\ scheduleLogs (snd run)
         = scheduleLogs w
           ++ [(Z.of_nat (List.length (scheduleLogs w)) + 1, data)]
      /\ logCalls (events (snd run)) = logCalls (events w) ++ [data]).
Proof.
  intros ds s data w1 run. subst run.
  pose proof (rule_execute_unfold env dryRun executedBy config w) as E.
  cbv zeta in E. fold ds in E. fold s in E. fold data in E. rewrite E. clear E.
  pose proof (rule_commit_keeps_logs env ds dryRun w) as Hk.
  unfold logStore in Hk. injection Hk as Hk1 Hk2. fold w1 in Hk1, Hk2.
  destruct (findProviderListError env) as [msg|] eqn:Ef.
  { left. exists msg. calls. repeat split; auto. }
  destruct (providerAnalyticsQueryError env) as [msg|] eqn:Ea.
  { left. exists msg. calls. repeat split; auto. }
  right.
  destruct (AutoScheduler.commit env ds dryRun w) as [[[]|msg] w1'] eqn:Ec;
    cbn [snd] in w1; subst w1.
  2:{ left. exists msg. calls. unfold logCalls in Hk2. rewrite Hk2.
      repeat split; auto. }
  right.
  destruct (createScheduleLogError env) as [msg|] eqn:El.
  - left. exists msg. calls. unfold logCalls in Hk2. rewrite Hk2.
    repeat split; auto.
  - right. calls. unfold logCalls in Hk2. rewrite Hk1, Hk2.
    repeat split; auto.
Qed.

(** The result of every cycle of the rule scheduler is consistent:
    [totalProviders] is the number of decisions, the five counters of the
    summary add up to it, and [analyzedProviders] and [affectedProviders]
    lie between 0 and it.  The cycle adds a row to the schedule log exactly
    when it reports [ok = true], and then [logId] is the id of that row; a
    cycle that reports [ok = false] returns no decision and leaves the log
    table as it was. *)
Theorem rule_result_consistent (env : Env) (dryRun : bool)
    (executedBy : string) (config : option ScheduleConfig) (w : World) :
  let r := fst (AutoScheduler.execute env dryRun executedBy config w) in
  let w' := snd (AutoScheduler.execute env dryRun executedBy config w) in
  s_totalProviders r = Z.of_nat (List.length (s_decisions r))
  /\ counted (s_summary r) = s_totalProviders r
  /\ 0 <= s_analyzedProviders r <= s_totalProviders r
  /\ 0 <= s_affectedProviders r <= s_totalProviders r
  /\ (s_ok r = true ->
      exists row,
        scheduleLogs w' = scheduleLogs w ++ [row]
        /\ s_logId r = Some (fst row)
        /\ dry_run (snd row) = dryRun
        /\ executed_by (snd row) = executedBy
        /\ log_decisions (snd row) = s_decisions r)
  /\ (s_ok r = false ->
      scheduleLogs w' = scheduleLogs w
      /\ s_logId r = None
      /\ s_decisions r = []).
Proof.
  intros r w'. subst r w'.
  destruct (rule_execute_cases env dryRun executedBy config w)
    as [(msg & Hr & Hl & _)|[(msg & Hr & _ & _ & _ & _ & Hl & _)
       |[(msg & Hr & _ & _ & _ & _ & _ & Hl & _)
        |(_ & _ & _ & _ & Hr & _ & Hl & _)]]];
    cbv zeta in Hr, Hl; rewrite Hr, Hl; clear Hr Hl.
  1-3: simpl; repeat split; try reflexivity; try lia; discriminate.
  cbn [s_ok s_logId s_totalProviders s_analyzedProviders s_affectedProviders
       s_decisions s_summary].
  destruct (rule_summary_total env (orElse config AutoScheduler.getConfig)
              (firstn 1000 (skipn 0 (providers w)))
              (map (toProviderAnalytics env) (enabledRows w)))
    as (_ & Hc & Ha).
  cbv zeta in Hc, Ha.
  fold (AutoScheduler.decisionsOf env (orElse config AutoScheduler.getConfig) w)
    in Hc, Ha.
  pose proof (filter_length_le (fun d => confidence d >=? 50)
                (AutoScheduler.decisionsOf env
                   (orElse config AutoScheduler.getConfig) w)).
  repeat split; try assumption; try lia; try discriminate.
  intros _. eexists. repeat split; reflexivity.
Qed.

(** A successful cycle on an empty log table writes the row with id 1. *)
Lemma rule_result_consistent_witness :
  s_logId (fst (AutoScheduler.execute Examples.allFine false "auto" None
                  Examples.twoProviders))
  = Some 1.
Proof.
  destruct (rule_result_consistent Examples.allFine false "auto" None
              Examples.twoProviders)
    as (_ & _ & _ & _ & H & _).
  destruct (H eq_refl) as (row & Hlogs & Hid & _).
  rewrite Hid. f_equal.
  apply (f_equal (map fst)) in Hlogs. vm_compute in Hlogs.
  now inversion Hlogs.
Defined.

(** A dry run of the realtime engine returns exactly the result of a real
    run from the same state: the same decisions, summary and totals. *)
Theorem realtime_preview_is_faithful (env : Env) (config : MABConfig)
    (w : World) :
  fst (RealtimeDecisionEngine.execute env config true w)
  = fst (RealtimeDecisionEngine.execute env config false w).
Proof.
  destruct (realtime_execute_cases env config true w)
    as [(msg & Hs & E)|[(st & msg & Hs & Hq & E)|[(st & Hs & Hq & Hr & E)
                                                 |(st & Hs & Hq & Hr & E)]]];
    cbv zeta in E; rewrite E; clear E; cbn [fst].
  - now rewrite (realtime_execute_no_settings env config false w msg Hs).
  - now rewrite (realtime_execute_no_analytics env config false w st msg Hs Hq).
  - now rewrite (realtime_execute_no_provider env config false w st Hs Hq Hr).
  - now rewrite (realtime_execute_reached env config false w st Hs Hq Hr).
Qed.

(** Whenever a real run of the rule scheduler succeeds, a dry run from the
    same state returns the same result: the preview shows the decisions the
    execution applies. *)
Theorem rule_preview_is_faithful (env : Env) (executedBy : string)
    (config : option ScheduleConfig) (w : World) :
  s_ok (fst (AutoScheduler.execute env false executedBy config w)) = true ->
  fst (AutoScheduler.execute env true executedBy config w)
  = fst (AutoScheduler.execute env false executedBy config w).
Proof.
  intro Hok.
  destruct (rule_execute_cases env false executedBy config w)
    as [(msg & Hr & _)|[(msg & Hr & _)|[(msg & Hr & _)
       |(Hf & Ha & _ & Hl & Hr & _)]]];
    cbv zeta in Hr; rewrite Hr in Hok |- *; try discriminate Hok.
  pose proof (rule_execute_reached env true executedBy config w Hf Ha
                (or_introl eq_refl) Hl) as E.
  cbv zeta in E. rewrite E. reflexivity.
Qed.

Lemma rule_preview_is_faithful_witness :
  fst (AutoScheduler.execute Examples.allFine true "auto" None
                             Examples.twoProviders)
  = fst (AutoScheduler.execute Examples.allFine false "auto" None
                               Examples.twoProviders).
Proof.
  apply (rule_preview_is_faithful Examples.allFine "auto" None
                                  Examples.twoProviders).
  reflexivity.
Defined.

(** ** Columns that an update never writes *)

Lemma applyUpdate_identity (data : ProviderUpdate) (p : Provider) :
  identity (applyUpdate data p) = identity p.
Proof. reflexivity. Qed.

Lemma updated_identity (i : Z) (data : ProviderUpdate) (ps : list Provider) :
  map identity (updated i data ps) = map identity ps.
Proof.
  unfold updated. rewrite map_map. apply map_ext. intro p.
  now destruct (id p =? i).
Qed.

(** ** The provider table after a realtime cycle *)

Lemma insertRow_perm (p : Provider) (rows : list Provider) :
  Permutation (insertRow p rows) (p :: rows).
Proof.
  induction rows as [|q rows IH]; simpl; [reflexivity|].
  destruct (rowBefore p q); [reflexivity|].
  rewrite IH. apply perm_swap.
Qed.

Lemma orderRows_perm (rows : list Provider) :
  Permutation (orderRows rows) rows.
Proof.
  unfold orderRows. induction rows as [|p rows IH]; simpl; [reflexivity|].
  rewrite insertRow_perm. now constructor.
Qed.

Lemma committed_pointwise (env : Env) (us : list ScheduleDecision)
    (ps : list Provider) :
  fold_left
    (fun ps d =>
       match updateProviderError env (providerId d) with
       | Some _ => ps
       | None =>
           updated (providerId d) (RealtimeDecisionEngine.updateOf env d) ps
       end) us ps
  = map (fun p => fold_left (reach env) us p) ps.
Proof.
  revert ps. induction us as [|d us IH]; intro ps; simpl.
  - now rewrite map_id.
  - rewrite IH. unfold updated.
    destruct (updateProviderError env (providerId d)) eqn:E.
    + apply map_ext. intro p. f_equal. unfold reach. rewrite E.
      now destruct (id p =? providerId d).
    + rewrite map_map. apply map_ext. intro p. f_equal.
      unfold reach. now rewrite E.
Qed.

Lemma reach_id (env : Env) (p : Provider) (d : ScheduleDecision) :
  id (reach env p d) = id p.
Proof.
  unfold reach. destruct (id p =? providerId d); [|reflexivity].
  now destruct (updateProviderError env (providerId d)).
Qed.

Lemma decisionFor_id (env : Env) (config : MABConfig) (st : SystemSettings)
    (row : Provider) :
  providerId (decisionFor env config st row) = id row.
Proof. reflexivity. Qed.

(** Decisions for other ids pass a row by. *)
Lemma reach_others (env : Env) (config : MABConfig) (st : SystemSettings)
    (rows : list Provider) (p : Provider) :
  ~ In (id p) (map id rows) ->
  fold_left (reach env)
    (filter RealtimeDecisionEngine.changed (map (decisionFor env config st) rows))
    p = p.
Proof.
  induction rows as [|r rows IH]; intro Hnot; simpl; [reflexivity|].
  simpl in Hnot.
  destruct (RealtimeDecisionEngine.changed (decisionFor env config st r)).
  - simpl. unfold reach at 2. rewrite decisionFor_id.
    destruct (Z.eqb_spec (id p) (id r)) as [E|_]; [exfalso; auto|].
    apply IH. auto.
  - apply IH. auto.
Qed.

Lemma reach_own (env : Env) (config : MABConfig) (st : SystemSettings)
    (rows : list Provider) (p : Provider) :
  NoDup (map id rows) -> In p rows -> isEnabled p = true ->
  fold_left (reach env)
    (filter RealtimeDecisionEngine.changed (map (decisionFor env config st) rows))
    p = settle env config st p.
Proof.
  induction rows as [|r rows IH]; intros Hnd Hin Hen; [contradiction|].
  simpl in Hnd. inversion Hnd as [|? ? Hnot Hnd']; subst.
  simpl map. simpl filter.
  destruct Hin as [->|Hin].
  - unfold settle. rewrite Hen. cbv zeta.
    destruct (RealtimeDecisionEngine.changed (decisionFor env config st p))
      eqn:Ec.
    + simpl. unfold reach at 2. rewrite decisionFor_id, Z.eqb_refl.
      destruct (updateProviderError env (id p)) eqn:Ee.
      * now apply reach_others.
      * apply reach_others.
        change (id (applyUpdate _ p)) with (id p). exact Hnot.
    + now apply reach_others.
  - assert (Hne : id p <> id r).
    { intro E. apply Hnot. rewrite <- E. now apply in_map. }
    destruct (RealtimeDecisionEngine.changed (decisionFor env config st r)).
    + simpl. unfold reach at 2. rewrite decisionFor_id.
      destruct (Z.eqb_spec (id p) (id r)) as [E|_]; [contradiction|].
      now apply IH.
    + now apply IH.
Qed.

Lemma decisionsOf_map (env : Env) (config : MABConfig) (st : SystemSettings)
    (w : World) :
  RealtimeDecisionEngine.decisionsOf env config st w
  = map (decisionFor env config st) (enabledRows w).
Proof.
  unfold RealtimeDecisionEngine.decisionsOf,
    RealtimeDecisionEngine.convertToScheduleDecisions,
    MABScheduler.generateDecisions, decisionFor.
  now rewrite !map_map.
Qed.

Lemma committed_settle (env : Env) (config : MABConfig) (st : SystemSettings)
    (w : World) :
  NoDup (map id (providers w)) ->
  committed env (RealtimeDecisionEngine.decisionsOf env config st w)
            (providers w)
  = map (settle env config st) (providers w).
Proof.
  intro Hnd. unfold committed. rewrite committed_pointwise.
  rewrite decisionsOf_map. apply map_ext_in. intros p Hp.
  assert (Hperm : Permutation (enabledRows w) (filter isEnabled (providers w)))
    by apply orderRows_perm.
  assert (Hsub : forall r, In r (enabledRows w) ->
                           In r (providers w) /\ isEnabled r = true).
  { intros r Hr. apply (Permutation_in _ Hperm) in Hr.
    now apply filter_In in Hr. }
  assert (Hnd' : NoDup (map id (enabledRows w))).
  { apply (Permutation_NoDup (l := map id (filter isEnabled (providers w)))).
    - apply Permutation_map. now symmetry.
    - clear Hperm Hsub Hp. induction (providers w) as [|q qs IH]; simpl;
        [constructor|].
      simpl in Hnd. inversion Hnd as [|? ? Hq Hqs]; subst.
      destruct (isEnabled q); simpl; [|now apply IH].
      constructor; [|now apply IH].
      intro Hin. apply Hq. apply in_map_iff in Hin.
      destruct Hin as (x & Hx & Hin). apply filter_In in Hin.
      apply in_map_iff. exists x. tauto. }
  destruct (isEnabled p) eqn:Hen.
  - apply reach_own; [exact Hnd'| |exact Hen].
    apply (Permutation_in _ (Permutation_sym Hperm)).
    apply filter_In. now split.
  - unfold settle. rewrite Hen. apply reach_others.
    intro Hin. apply in_map_iff in Hin. destruct Hin as (r & Hid & Hr).
    destruct (Hsub r Hr) as [Hrp Hre].
    assert (r = p); [|congruence].
    clear - Hnd Hid Hrp Hp.
    induction (providers w) as [|q qs IH]; [contradiction|].
    simpl in Hnd. inversion Hnd as [|? ? Hq Hqs]; subst.
    destruct Hrp as [->|Hrp], Hp as [->|Hp]; auto.
    + exfalso. apply Hq. rewrite Hid. now apply in_map.
    + exfalso. apply Hq. rewrite <- Hid. now apply in_map.
Qed.

Lemma realtime_logExecution_providers (env : Env)
    (ds : list ScheduleDecision) (s : ScheduleSummary) (t : Z) (dryRun : bool)
    (w : World) :
  providers (snd (RealtimeDecisionEngine.logExecution env ds s t dryRun w))
  = providers w.
Proof.
  rewrite realtime_logExecution_effect.
  now destruct (createScheduleLogError env).
Qed.

Lemma realtime_providers_after (env : Env) (config : MABConfig) (w : World)
    (st : SystemSettings) :
  settings env = Returned st ->
  multiWindowQueryError env = None ->
  NoDup (map id (providers w)) ->
  providers (snd (RealtimeDecisionEngine.execute env config false w))
  = map (settle env config st) (providers w).
Proof.
  intros Hs Hq Hnd.
  destruct (enabledRows w) as [|row rows] eqn:Erows.
  - rewrite (realtime_execute_no_provider env config false w st Hs Hq Erows).
    cbn [snd]. rewrite <- (committed_settle env config st w Hnd).
    unfold committed. rewrite decisionsOf_map, Erows. reflexivity.
  - assert (Hne : enabledRows w <> []) by (rewrite Erows; discriminate).
    rewrite (realtime_execute_reached env config false w st Hs Hq Hne).
    cbn [snd]. rewrite realtime_logExecution_providers.
    change (RealtimeDecisionEngine.commit env
              (RealtimeDecisionEngine.decisionsOf env config st w) false)
      with (RealtimeDecisionEngine.applyDecisions env
              (RealtimeDecisionEngine.decisionsOf env config st w)).
    destruct (realtime_applyDecisions_tolerant env
                (RealtimeDecisionEngine.decisionsOf env config st w) w)
      as (_ & _ & H3 & _).
    cbv zeta in H3. rewrite H3. now apply committed_settle.
Qed.

(** With unique provider ids, a real realtime cycle whose reads succeed
    leaves the provider table row by row as [settle] describes: disabled
    providers, providers whose decision changes nothing and providers whose
    update fails keep their row; every other provider ends with the weight
    and priority of its decision, its previous weight and priority as
    baseline and the time of the cycle.  A failing log write changes
    nothing of this. *)
Theorem realtime_cycle_settles (env : Env) (config : MABConfig) (w : World)
    (st : SystemSettings) :
  settings env = Returned st ->
  multiWindowQueryError env = None ->
  NoDup (map id (providers w)) ->
  providers (snd (RealtimeDecisionEngine.execute env config false w))
  = map (settle env config st) (providers w)
  /\ (forall p, In p (providers w) -> isEnabled p = true ->
      RealtimeDecisionEngine.changed (decisionFor env config st p) = true ->
      updateProviderError env (id p) = None ->
      let p' := settle env config st p in
      weight p' = a_weight (afterState (decisionFor env config st p))
      /\ priority p' = a_priority (afterState (decisionFor env config st p))
      /\ baseWeight p' = Some (weight p)
      /\ basePriority p' = Some (priority p)
      /\ lastScheduleTime p' = Some (now env)).
Proof.
  intros Hs Hq Hnd. split; [now apply realtime_providers_after|].
  intros p _ Hen Hch Herr p'. subst p'.
  unfold settle. rewrite Hen. cbv zeta. rewrite Hch, Herr.
  unfold applyUpdate, RealtimeDecisionEngine.updateOf, decisionFor. simpl.
  rewrite !Z.eqb_refl. repeat split; reflexivity.
Qed.

Lemma two_ids_distinct : NoDup (map id (providers Examples.twoProviders)).
Proof.
  simpl. constructor; [|constructor; [|constructor]].
  - intros [H|[]]. discriminate H.
  - intros [].
Defined.

Lemma realtime_cycle_settles_witness :
  map Examples.state
    (providers
       (snd (RealtimeDecisionEngine.execute Examples.firstUpdateFails
               Examples.mabConfig false Examples.twoProviders)))
  = [(10, 1, None, None); (22, 1, Some 20, Some 2)].
Proof.
  rewrite (proj1 (realtime_cycle_settles Examples.firstUpdateFails
                    Examples.mabConfig Examples.twoProviders
                    Examples.defaultSettings eq_refl eq_refl
                    two_ids_distinct)).
  reflexivity.
Defined.

(** The realtime engine stores weight 0: with unique ids, after a real
    cycle whose reads succeed every enabled provider whose circuit is open
    and whose update does not fail stands in the table with weight 0 and
    priority 999. *)
Theorem realtime_open_circuit_stored (env : Env) (config : MABConfig)
    (w : World) (st : SystemSettings) (p : Provider) :
  settings env = Returned st ->
  multiWindowQueryError env = None ->
  NoDup (map id (providers w)) ->
  In p (providers w) ->
  isEnabled p = true ->
  getCircuitState env (id p) = open ->
  updateProviderError env (id p) = None ->
  exists p',
    In p' (providers
             (snd (RealtimeDecisionEngine.execute env config false w)))
    /\ id p' = id p /\ weight p' = 0 /\ priority p' = 999.
Proof.
  intros Hs Hq Hnd Hin Hen Hopen Herr.
  exists (settle env config st p).
  rewrite (realtime_providers_after env config w st Hs Hq Hnd).
  split; [now apply in_map|].
  unfold settle. rewrite Hen. cbv zeta. rewrite Herr.
  assert (Ha : afterState (decisionFor env config st p)
               = {| a_weight := 0; a_priority := 999;
                    a_performanceScore :=
                      a_performanceScore
                        (afterState (decisionFor env config st p)) |}).
  { unfold decisionFor, RealtimeDecisionEngine.convertToScheduleDecision.
    simpl. unfold MABScheduler.calculateAdjustment. simpl.
    rewrite Hopen. reflexivity. }
  destruct (RealtimeDecisionEngine.changed (decisionFor env config st p))
    eqn:Ec.
  - unfold applyUpdate, RealtimeDecisionEngine.updateOf. rewrite Ha. simpl.
    repeat split; reflexivity.
  - unfold RealtimeDecisionEngine.changed in Ec. rewrite Ha in Ec.
    cbn [a_weight a_priority] in Ec.
    apply orb_false_iff in Ec. destruct Ec as [E1 E2].
    apply negb_false_iff in E1, E2.
    apply Z.eqb_eq in E1, E2.
    change (b_weight (beforeState (decisionFor env config st p)))
      with (weight p) in E1.
    change (b_priority (beforeState (decisionFor env config st p)))
      with (priority p) in E2.
    repeat split; congruence.
Qed.

Lemma realtime_open_circuit_stored_witness :
  exists p',
    In p' (providers
             (snd (RealtimeDecisionEngine.execute MoreExamples.allOpen
                     Examples.mabConfig false Examples.twoProviders)))
    /\ id p' = 1 /\ weight p' = 0 /\ priority p' = 999.
Proof.
  apply (realtime_open_circuit_stored MoreExamples.allOpen Examples.mabConfig
           Examples.twoProviders Examples.defaultSettings
           (Examples.provider 1 10 1 None None) eq_refl eq_refl
           two_ids_distinct (or_introl eq_refl) eq_refl eq_refl eq_refl).
Defined.

(** ** The strategy of the rule scheduler *)

Lemma Qmult_le_left (x y z : Q) :
  (x <= y)%Q -> (0 <= z)%Q -> (z * x <= z * y)%Q.
Proof.
  intros H Hz. rewrite (Qmult_comm z x), (Qmult_comm z y).
  now apply Qmult_le_compat_r.
Qed.

Lemma floor_scale_up (w : Z) : 0 <= w -> w <= Math.floor (inject_Z w * 1.2).
Proof.
  intro H. apply Qfloor_ge_bound.
  rewrite <- (Qmult_1_r (inject_Z w)) at 1.
  apply Qmult_le_left; [discriminate|].
  change 0%Q with (inject_Z 0). now rewrite <- Zle_Qle.
Qed.

Lemma floor_scale_down (w : Z) (c : Q) :
  0 <= w -> (0 <= c)%Q -> (c <= 1)%Q ->
  0 <= Math.floor (inject_Z w * c) <= w.
Proof.
  intros H H0 H1.
  assert (Hw : (0 <= inject_Z w)%Q).
  { change 0%Q with (inject_Z 0). now rewrite <- Zle_Qle. }
  split.
  - apply floor_nonneg. now apply Qmult_le_0_compat.
  - rewrite <- (Qfloor_Z w) at 2. apply Qfloor_resp_le.
    rewrite <- (Qmult_1_r (inject_Z w)) at 2.
    now apply Qmult_le_left.
Qed.

(** Every decision of the rule strategy keeps the weight within [1,100] and
    the priority at 0 or above, provided the provider and its baseline are
    within these ranges. *)
Theorem applyStrategy_range (provider : Provider)
    (analytics : ProviderAnalytics) (c : CircuitState)
    (config : ScheduleConfig) :
  1 <= weight provider <= 100 ->
  0 <= priority provider ->
  1 <= orElse (baseWeight provider) (weight provider) <= 100 ->
  0 <= orElse (basePriority provider) (priority provider) ->
  let d := AutoScheduler.applyStrategy provider analytics c config in
  1 <= a_weight (afterState d) <= 100 /\ 0 <= a_priority (afterState d).
Proof.
  intros Hw Hp Hbw Hbp.
  pose proof (floor_scale_up (weight provider) ltac:(lia)) as Hup.
  pose proof (floor_scale_down (weight provider) 0.7 ltac:(lia)
                ltac:(discriminate) ltac:(discriminate)) as H7.
  pose proof (floor_scale_down (weight provider) 0.8 ltac:(lia)
                ltac:(discriminate) ltac:(discriminate)) as H8.
  unfold AutoScheduler.applyStrategy.
  destruct (an_confidence analytics <? 50);
    cbn [afterState a_weight a_priority]; [lia|].
  destruct c; cbn [afterState a_weight a_priority]; try lia;
    destruct (Qltb 80 _ && _); cbn [afterState a_weight a_priority]; try lia;
    destruct (Qltb 85 _); cbn [afterState a_weight a_priority]; try lia;
    destruct (Qltb _ 60); cbn [afterState a_weight a_priority]; lia.
Qed.

Lemma applyStrategy_range_witness :
  1 <= a_weight (afterState
         (AutoScheduler.applyStrategy (Examples.provider 1 90 0 None None)
            (Examples.ruleAnalytics 1 95 100) closed Examples.scheduleConfig))
    <= 100.
Proof.
  refine (proj1 (applyStrategy_range (Examples.provider 1 90 0 None None)
                   (Examples.ruleAnalytics 1 95 100) closed
                   Examples.scheduleConfig _ _ _ _)); simpl; lia.
Defined.

(** What each action of the rule strategy does to a provider of weight at
    least 1: [maintain] changes nothing; [recover] is taken only below the
    baseline weight or above the baseline priority and restores both
    baseline values; [promote] never lowers the weight nor raises the
    priority; [demote] and [circuit_penalty] never raise the weight and
    add 1 and 2 to the priority. *)
Theorem applyStrategy_actions (provider : Provider)
    (analytics : ProviderAnalytics) (c : CircuitState)
    (config : ScheduleConfig) :
  1 <= weight provider <= 100 ->
  0 <= priority provider ->
  let d := AutoScheduler.applyStrategy provider analytics c config in
  let w' := a_weight (afterState d) in
  let p' := a_priority (afterState d) in
  let bw := orElse (baseWeight provider) (weight provider) in
  let bp := orElse (basePriority provider) (priority provider) in
  match action d with
  | maintain => w' = weight provider /\ p' = priority provider
  | recover =>
      w' = bw /\ p' = bp /\ c <> open
      /\ (weight provider < bw \/ bp < priority provider)
  | promote =>
      weight provider <= w' /\ p' = Z.max 0 (priority provider - 1)
      /\ c <> open
  | demote =>
      1 <= w' <= weight provider /\ p' = priority provider + 1 /\ c <> open
  | circuit_penalty =>
      1 <= w' <= weight provider /\ p' = priority provider + 2 /\ c = open
  | explore => False
  end.
Proof.
  intros Hw Hp.
  pose proof (floor_scale_up (weight provider) ltac:(lia)) as Hup.
  pose proof (floor_scale_down (weight provider) 0.7 ltac:(lia)
                ltac:(discriminate) ltac:(discriminate)) as H7.
  pose proof (floor_scale_down (weight provider) 0.8 ltac:(lia)
                ltac:(discriminate) ltac:(discriminate)) as H8.
  unfold AutoScheduler.applyStrategy.
  destruct (an_confidence analytics <? 50);
    cbn [action afterState a_weight a_priority]; [now split|].
  destruct c; cbn [action afterState a_weight a_priority];
    try (repeat split; (lia || discriminate));
    (destruct (Qltb 80 _ && _) eqn:Er;
     cbn [action afterState a_weight a_priority];
     [ apply andb_true_iff in Er; destruct Er as [_ Er];
       apply orb_true_iff in Er;
       repeat split; try discriminate;
       destruct Er as [Er|Er];
         [left; now apply Z.ltb_lt in Er
         | right; apply Z.gtb_lt in Er; lia]
     | destruct (Qltb 85 _); cbn [action afterState a_weight a_priority];
       [ repeat split; (lia || discriminate)
       | destruct (Qltb _ 60); cbn [action afterState a_weight a_priority];
         repeat split; (lia || discriminate) ] ]).
Qed.

Lemma applyStrategy_actions_witness :
  a_weight (afterState
     (AutoScheduler.applyStrategy (Examples.provider 1 8 2 (Some 10) (Some 1))
        (Examples.ruleAnalytics 1 82 100) closed Examples.scheduleConfig))
  = 10.
Proof.
  refine (proj1 (applyStrategy_actions
                   (Examples.provider 1 8 2 (Some 10) (Some 1))
                   (Examples.ruleAnalytics 1 82 100) closed
                   Examples.scheduleConfig _ _)); simpl; lia.
Defined.

(** The rule scheduler leaves alone every provider with fewer than 10
    requests today: whatever its score and circuit state, the decision is
    [maintain] with weight and priority unchanged, and the commit step does
    not select it for an update. *)
Theorem rule_low_sample_untouched (env : Env) (row : Provider)
    (c : CircuitState) (config : ScheduleConfig) :
  todayRequests (dailyMetrics env (id row)) < 10 ->
  let d :=
    AutoScheduler.applyStrategy row (toProviderAnalytics env row) c config in
  action d = maintain
  /\ a_weight (afterState d) = weight row
  /\ a_priority (afterState d) = priority row
  /\ AutoScheduler.toUpdate d = false.
Proof.
  intros Hlow d. subst d.
  assert (Hc : (an_confidence (toProviderAnalytics env row) <? 50) = true).
  { unfold toProviderAnalytics. cbn [an_confidence].
    rewrite confidence_10. now apply Z.ltb_lt. }
  unfold AutoScheduler.applyStrategy. rewrite Hc.
  repeat split; reflexivity.
Qed.

Lemma rule_low_sample_untouched_witness :
  action
    (AutoScheduler.applyStrategy (Examples.provider 1 10 1 None None)
       (toProviderAnalytics MoreExamples.quiet
          (Examples.provider 1 10 1 None None))
       open Examples.scheduleConfig) = maintain.
Proof.
  refine (proj1 (rule_low_sample_untouched MoreExamples.quiet
                   (Examples.provider 1 10 1 None None) open
                   Examples.scheduleConfig _)).
  simpl. lia.
Defined.

(** ** BackgroundScheduler *)

Lemma tidy_no_timer (p : Process) :
  timers p = [] -> tidy p.
Proof. intro H. unfold tidy. rewrite H. split; [now left | constructor]. Qed.

Lemma tidy_stopped (p : Process) :
  tidy p -> isRunning (state p) = false -> timers p = [].
Proof.
  intros [[H|(h & d & _ & _ & Hr)] _] Hs; [exact H | congruence].
Qed.

Lemma stop_effect (p : Process) :
  tidy p ->
  timers (BackgroundScheduler.stop p) = []
  /\ isRunning (state (BackgroundScheduler.stop p)) = false
  /\ nextTimer (BackgroundScheduler.stop p) = nextTimer p
  /\ world (BackgroundScheduler.stop p) = world p
  /\ totalExecutions (state (BackgroundScheduler.stop p))
     = totalExecutions (state p).
Proof.
  intro Ht. unfold BackgroundScheduler.stop.
  destruct (isRunning (state p)) eqn:Er; simpl.
  - destruct Ht as [[H|(h & d & H & Hi & _)] _].
    + destruct (intervalId (state p)); simpl; rewrite ?H; now repeat split.
    + rewrite Hi. simpl. rewrite H. simpl. rewrite Z.eqb_refl. simpl.
      now repeat split.
  - repeat split; auto. now apply tidy_stopped.
Qed.

Lemma stop_tidy (p : Process) : tidy p -> tidy (BackgroundScheduler.stop p).
Proof.
  intro Ht. apply tidy_no_timer. now apply stop_effect.
Qed.

Lemma executeSchedule_frame (m : Moment) (p : Process) :
  tidy p ->
  let p' := BackgroundScheduler.executeSchedule m p in
  nextTimer p' = nextTimer p
  /\ (timers p' = timers p
      /\ intervalId (state p') = intervalId (state p)
      /\ isRunning (state p') = isRunning (state p)
      \/ timers p' = [] /\ isRunning (state p') = false).
Proof.
  intros Ht p'. subst p'. unfold BackgroundScheduler.executeSchedule.
  destruct (readSettings m) as [s|msg]; [|simpl; split; auto].
  destruct (negb (scheduleEnabled s)).
  - destruct (stop_effect p Ht) as (H1 & H2 & H3 & _). split; auto.
  - destruct (RealtimeDecisionEngine.execute _ _ _ _) as [r w'].
    simpl. split; auto.
Qed.

Lemma executeSchedule_tidy (m : Moment) (p : Process) :
  tidy p -> tidy (BackgroundScheduler.executeSchedule m p).
Proof.
  intro Ht.
  destruct (executeSchedule_frame m p Ht) as (Hn & [(H1 & H2 & H3)|(H1 & _)]);
    [|now apply tidy_no_timer].
  destruct Ht as [Ha Hb]. unfold tidy. rewrite H1, H2, H3, Hn. now split.
Qed.

Lemma scheduleNext_tidy (seconds : Z) (p : Process) :
  timers p = [] -> tidy (BackgroundScheduler.scheduleNext seconds p).
Proof.
  intro H. unfold BackgroundScheduler.scheduleNext.
  destruct (isRunning (state p)) eqn:Er; simpl;
    [|now apply tidy_no_timer].
  unfold tidy. simpl. rewrite H. simpl. split.
  - right. eauto.
  - constructor; [simpl; lia | constructor].
Qed.

Lemma start_tidy (first cycle : Moment) (p : Process) :
  tidy p -> tidy (snd (BackgroundScheduler.start first cycle p)).
Proof.
  intro Ht. unfold BackgroundScheduler.start.
  destruct (isRunning (state p)) eqn:Er; [exact Ht|].
  pose proof (tidy_stopped p Ht Er) as Hno.
  destruct (readSettings first) as [s|msg]; [|now apply tidy_no_timer].
  destruct (negb (scheduleEnabled s)); [exact Ht|].
  cbn [snd]. apply scheduleNext_tidy.
  match goal with
  | |- timers (BackgroundScheduler.executeSchedule cycle ?p1) = [] =>
      assert (Ht1 : tidy p1) by (now apply tidy_no_timer);
      destruct (executeSchedule_frame cycle p1 Ht1)
        as (_ & [(H1 & _)|(H1 & _)]); [|exact H1];
      rewrite H1; exact Hno
  end.
Qed.

Lemma clearTimeout_pending (handle : Z) (p : Process) :
  tidy p ->
  existsb (fun t => fst t =? handle) (timers p) = true ->
  timers (BackgroundScheduler.clearTimeout handle p) = []
  /\ intervalId (state p) = Some handle
  /\ isRunning (state p) = true.
Proof.
  intros [[H|(h & d & H & Hi & Hr)] _] He; rewrite H in He; simpl in He;
    [discriminate|].
  rewrite orb_false_r in He. apply Z.eqb_eq in He. subst h.
  unfold BackgroundScheduler.clearTimeout. simpl. rewrite H. simpl.
  rewrite Z.eqb_refl. now repeat split.
Qed.

Lemma fire_tidy (handle : Z) (cycle again : Moment) (p : Process) :
  tidy p -> tidy (snd (BackgroundScheduler.fire handle cycle again p)).
Proof.
  intro Ht. unfold BackgroundScheduler.fire.
  destruct (existsb _ (timers p)) eqn:He; [|exact Ht].
  destruct (clearTimeout_pending handle p Ht He) as (Hc & _ & _).
  assert (Ht1 : tidy (BackgroundScheduler.clearTimeout handle p))
    by now apply tidy_no_timer.
  assert (Hno : timers (BackgroundScheduler.executeSchedule cycle
                          (BackgroundScheduler.clearTimeout handle p)) = []).
  { destruct (executeSchedule_frame cycle _ Ht1)
      as (_ & [(H1 & _)|(H1 & _)]); [|exact H1].
    now rewrite H1. }
  destruct (readSettings again) as [s|msg]; cbn [snd];
    [|now apply tidy_no_timer].
  destruct (isRunning _); [now apply scheduleNext_tidy|now apply tidy_no_timer].
Qed.

Lemma step_tidy (s : Step) (p : Process) : tidy p -> tidy (step s p).
Proof.
  intro Ht. destruct s; simpl.
  - now apply start_tidy.
  - now apply stop_tidy.
  - unfold BackgroundScheduler.restart. apply start_tidy. now apply stop_tidy.
  - now apply fire_tidy.
Qed.

Lemma after_tidy (history : list Step) (p : Process) :
  tidy p -> tidy (after history p).
Proof.
  unfold after. revert p.
  induction history as [|s history IH]; intros p Ht; simpl; [exact Ht|].
  apply IH. now apply step_tidy.
Qed.

Lemma boot_tidy (w : World) : tidy (boot w).
Proof. now apply tidy_no_timer. Qed.

Lemma start_enabled_effect (first cycle : Moment) (p : Process)
    (s1 s2 : RealtimeSettings) :
  tidy p ->
  isRunning (state p) = false ->
  readSettings first = Returned s1 -> scheduleEnabled s1 = true ->
  readSettings cycle = Returned s2 -> scheduleEnabled s2 = true ->
  let run :=
    RealtimeDecisionEngine.execute (env cycle)
      (BackgroundScheduler.mabConfigOf s2) false (world p) in
  let p' := snd (BackgroundScheduler.start first cycle p) in
  fst (BackgroundScheduler.start first cycle p) = Returned tt
  /\ isRunning (state p') = true
  /\ timers p'
     = [(nextTimer p, orElse (scheduleIntervalSeconds s1) 30 * 1000)]
  /\ intervalId (state p') = Some (nextTimer p)
  /\ totalExecutions (state p') = totalExecutions (state p) + 1
  /\ world p' = snd run
  /\ lastExecutionTime (state p') = Some (now (env cycle))
  /\ nextExecutionTime (state p')
     = Some (now (env cycle) + orElse (scheduleIntervalSeconds s2) 30 * 1000)
  /\ (lastError (state p') = None <-> r_ok (fst run) = true).
Proof.
  intros Ht Hr H1 He1 H2 He2 run p'. subst p' run.
  pose proof (tidy_stopped p Ht Hr) as Hno.
  unfold BackgroundScheduler.start. rewrite Hr, H1, He1. cbn [negb fst snd].
  unfold BackgroundScheduler.executeSchedule. rewrite H2, He2. cbn [negb].
  assert (Ht' : forall c w0,
    r_executionTime (fst (RealtimeDecisionEngine.execute (env cycle) c false w0))
    = now (env cycle)).
  { intros c w0.
    destruct (realtime_execute_cases (env cycle) c false w0)
      as [(msg & _ & E)|[(st & msg & _ & _ & E)|[(st & _ & _ & _ & E)
                                                |(st & _ & _ & _ & E)]]];
      cbv zeta in E; now rewrite E. }
  specialize (Ht' (BackgroundScheduler.mabConfigOf s2)
                (world (BackgroundScheduler.withState p
                   {| isRunning := true;
                      intervalId := intervalId (state p);
                      lastExecutionTime := lastExecutionTime (state p);
                      nextExecutionTime :=
                        Some (now (env first)
                              + orElse (scheduleIntervalSeconds s1) 30 * 1000);
                      totalExecutions := totalExecutions (state p);
                      lastError := lastError (state p);
                      config :=
                        {| intervalSeconds :=
                             orElse (scheduleIntervalSeconds s1) 30;
                           cfg_explorationRate :=
                             orElse (rs_explorationRate s1) 15%Q;
                           enabled := true |} |}))).
  cbn [world BackgroundScheduler.withState] in Ht' |- *.
  destruct (RealtimeDecisionEngine.execute (env cycle)
              (BackgroundScheduler.mabConfigOf s2) false (world p))
    as [r w'] eqn:Erun.
  cbn [fst] in Ht'.
  unfold BackgroundScheduler.scheduleNext. simpl. rewrite Hno, Ht'.
  repeat split; try reflexivity.
  - destruct (r_ok r); [reflexivity | discriminate].
  - intros ->. reflexivity.
Qed.

Lemma executeSchedule_enabled (m : Moment) (p : Process)
    (s : RealtimeSettings) :
  readSettings m = Returned s -> scheduleEnabled s = true ->
  let run :=
    RealtimeDecisionEngine.execute (env m) (BackgroundScheduler.mabConfigOf s)
                                   false (world p) in
  let p' := BackgroundScheduler.executeSchedule m p in
  isRunning (state p') = isRunning (state p)
  /\ intervalId (state p') = intervalId (state p)
  /\ timers p' = timers p
  /\ nextTimer p' = nextTimer p
  /\ totalExecutions (state p') = totalExecutions (state p) + 1
  /\ world p' = snd run
  /\ (lastError (state p') = None <-> r_ok (fst run) = true).
Proof.
  intros Hs He run p'. subst run p'.
  unfold BackgroundScheduler.executeSchedule. rewrite Hs, He. cbn [negb].
  destruct (RealtimeDecisionEngine.execute _ _ _ _) as [r w']. simpl.
  repeat split; try reflexivity.
  - destruct (r_ok r); [reflexivity | discriminate].
  - intros ->. reflexivity.
Qed.

Lemma start_enabled_nextTimer (first cycle : Moment) (p : Process)
    (s1 s2 : RealtimeSettings) :
  isRunning (state p) = false ->
  readSettings first = Returned s1 -> scheduleEnabled s1 = true ->
  readSettings cycle = Returned s2 -> scheduleEnabled s2 = true ->
  nextTimer (snd (BackgroundScheduler.start first cycle p)) = nextTimer p + 1.
Proof.
  intros Hr H1 He1 H2 He2.
  unfold BackgroundScheduler.start. rewrite Hr, H1, He1. cbn [negb fst snd].
  unfold BackgroundScheduler.executeSchedule. rewrite H2, He2. cbn [negb].
  destruct (RealtimeDecisionEngine.execute _ _ _ _) as [r w'].
  unfold BackgroundScheduler.scheduleNext. reflexivity.
Qed.

(** The timer callback run undisturbed is its two halves one after the
    other. *)
Lemma fire_halves (handle : Z) (cycle again : Moment) (p : Process) :
  existsb (fun t => fst t =? handle) (timers p) = true ->
  BackgroundScheduler.fire handle cycle again p
  = BackgroundScheduler.callbackRearm again
      (BackgroundScheduler.callbackCycle handle cycle p).
Proof.
  intro H. unfold BackgroundScheduler.fire. rewrite H. reflexivity.
Qed.

Lemma pending_exists (handle delay : Z) (p : Process) :
  In (handle, delay) (timers p) ->
  existsb (fun t => fst t =? handle) (timers p) = true.
Proof.
  intro H. apply existsb_exists. exists (handle, delay).
  split; [exact H | apply Z.eqb_refl].
Qed.

(** A [restart] that falls between the two halves of a timer callback. *)
Lemma overlap_two_timers (p : Process) (handle delay : Z)
    (cycle again first' cycle' : Moment) (s1 s2 s3 s4 : RealtimeSettings) :
  tidy p ->
  In (handle, delay) (timers p) ->
  readSettings cycle = Returned s1 -> scheduleEnabled s1 = true ->
  readSettings first' = Returned s2 -> scheduleEnabled s2 = true ->
  readSettings cycle' = Returned s3 -> scheduleEnabled s3 = true ->
  readSettings again = Returned s4 ->
  let p1 := BackgroundScheduler.callbackCycle handle cycle p in
  let p2 := snd (BackgroundScheduler.restart first' cycle' p1) in
  let p3 := snd (BackgroundScheduler.callbackRearm again p2) in
  timers p3
  = [(nextTimer p, orElse (scheduleIntervalSeconds s2) 30 * 1000);
     (nextTimer p + 1, orElse (scheduleIntervalSeconds s4) 30 * 1000)]
  /\ isRunning (state p3) = true
  /\ timers (BackgroundScheduler.stop p3)
     = [(nextTimer p, orElse (scheduleIntervalSeconds s2) 30 * 1000)]
  /\ isRunning (state (BackgroundScheduler.stop p3)) = false.
Proof.
  intros Ht Hin H1 He1 H2 He2 H3 He3 H4 p1 p2 p3.
  pose proof (clearTimeout_pending handle p Ht (pending_exists _ _ _ Hin))
    as (Hc & _ & _).
  pose proof (executeSchedule_enabled cycle
                (BackgroundScheduler.clearTimeout handle p) s1 H1 He1) as Hx.
  cbv zeta in Hx. fold (BackgroundScheduler.callbackCycle handle cycle p) in Hx.
  fold p1 in Hx. destruct Hx as (_ & _ & Ht1 & Hn1 & _).
  rewrite Hc in Ht1. cbn [BackgroundScheduler.clearTimeout nextTimer] in Hn1.
  pose proof (tidy_no_timer p1 Ht1) as Htidy1.
  destruct (stop_effect p1 Htidy1) as (_ & Hs2 & Hs3 & _).
  pose proof (stop_tidy p1 Htidy1) as Htidy2.
  pose proof (start_enabled_effect first' cycle' (BackgroundScheduler.stop p1)
                s2 s3 Htidy2 Hs2 H2 He2 H3 He3) as Hst.
  cbv zeta in Hst.
  pose proof (start_enabled_nextTimer first' cycle'
                (BackgroundScheduler.stop p1) s2 s3 Hs2 H2 He2 H3 He3) as Hnt.
  change (snd (BackgroundScheduler.start first' cycle'
                 (BackgroundScheduler.stop p1))) with p2 in Hst, Hnt.
  destruct Hst as (_ & Hr2 & Htm2 & _).
  rewrite Hs3, Hn1 in Htm2, Hnt.
  assert (E3 : p3 = BackgroundScheduler.scheduleNext
                      (orElse (scheduleIntervalSeconds s4) 30) p2).
  { subst p3. unfold BackgroundScheduler.callbackRearm.
    now rewrite H4, Hr2. }
  assert (Etm : timers p3
                = [(nextTimer p, orElse (scheduleIntervalSeconds s2) 30 * 1000);
                   (nextTimer p + 1,
                    orElse (scheduleIntervalSeconds s4) 30 * 1000)]).
  { rewrite E3. unfold BackgroundScheduler.scheduleNext. rewrite Hr2.
    cbn [negb timers]. now rewrite Htm2, Hnt. }
  assert (Er3 : isRunning (state p3) = true).
  { rewrite E3. unfold BackgroundScheduler.scheduleNext. now rewrite Hr2. }
  assert (Ei3 : intervalId (state p3) = Some (nextTimer p + 1)).
  { rewrite E3. unfold BackgroundScheduler.scheduleNext. rewrite Hr2.
    cbn [negb state intervalId]. now rewrite Hnt. }
  split; [exact Etm|]. split; [exact Er3|].
  unfold BackgroundScheduler.stop. rewrite Er3, Ei3.
  cbn [negb BackgroundScheduler.withState BackgroundScheduler.clearTimeout
         timers state isRunning].
  rewrite Etm. cbn [filter fst].
  rewrite Z.eqb_refl.
  destruct (Z.eqb_spec (nextTimer p) (nextTimer p + 1)) as [E|_]; [lia|].
  now split.
Qed.

(** The scheduler keeps at most one timer pending as long as its
    operations do not overlap, and only then.  After any sequence of
    [start], [stop] and [restart] calls and timer callbacks that each run
    to their end before the next one begins, with whatever settings,
    failures and cycle results, at most one timer is pending, the scheduler
    holds its handle, and a scheduler that is not running has no timer
    pending.  But when a [restart] falls between the two halves of a timer
    callback (the callback is suspended at its second [await]) and the
    schedule is switched on, both the restart and the callback arm a timer:
    two timers are pending afterwards, and a [stop] then clears only the
    one whose handle the scheduler holds and leaves the other armed. *)
Theorem scheduler_one_timer :
  (forall (history : list Step) (w : World),
      let p := after history (boot w) in
      (List.length (timers p) <= 1)%nat
      /\ (forall handle delay,
            In (handle, delay) (timers p) ->
            intervalId (state p) = Some handle /\ isRunning (state p) = true)
      /\ (isRunning (state p) = false -> timers p = []))
  /\ (forall (history : list Step) (w : World) (handle delay : Z)
             (cycle again first' cycle' : Moment)
             (s1 s2 s3 s4 : RealtimeSettings),
         let p := after history (boot w) in
         In (handle, delay) (timers p) ->
         readSettings cycle = Returned s1 -> scheduleEnabled s1 = true ->
         readSettings first' = Returned s2 -> scheduleEnabled s2 = true ->
         readSettings cycle' = Returned s3 -> scheduleEnabled s3 = true ->
         readSettings again = Returned s4 ->
         let p1 := BackgroundScheduler.callbackCycle handle cycle p in
         let p2 := snd (BackgroundScheduler.restart first' cycle' p1) in
         let p3 := snd (BackgroundScheduler.callbackRearm again p2) in
         timers p3
         = [(nextTimer p, orElse (scheduleIntervalSeconds s2) 30 * 1000);
            (nextTimer p + 1, orElse (scheduleIntervalSeconds s4) 30 * 1000)]
         /\ isRunning (state p3) = true
         /\ timers (BackgroundScheduler.stop p3)
            = [(nextTimer p, orElse (scheduleIntervalSeconds s2) 30 * 1000)]
         /\ isRunning (state (BackgroundScheduler.stop p3)) = false).
Proof.
  split.
  - intros history w p. subst p.
    pose proof (after_tidy history (boot w) (boot_tidy w)) as Ht.
    split; [|split].
    + destruct Ht as [[H|(h & d & H & _)] _]; rewrite H; simpl; lia.
    + intros handle delay Hin.
      destruct Ht as [[H|(h & d & H & Hi & Hr)] _]; rewrite H in Hin.
      * contradiction.
      * destruct Hin as [E|[]]. inversion E; subst. now split.
    + now apply tidy_stopped.
  - intros history w handle delay cycle again first' cycle' s1 s2 s3 s4 p.
    intros Hin H1 He1 H2 He2 H3 He3 H4.
    exact (overlap_two_timers p handle delay cycle again first' cycle'
             s1 s2 s3 s4 (after_tidy history (boot w) (boot_tidy w))
             Hin H1 He1 H2 He2 H3 He3 H4).
Qed.

Lemma started_pending :
  In (1, 30000) (timers (after SchedulerExamples.started (boot Examples.fresh))).
Proof. vm_compute. now left. Defined.

(** After [start] with the default interval, the timer 1 fires; a
    [restart] falls between the two halves of its callback; timers 2 and 3
    are pending afterwards. *)
Lemma scheduler_one_timer_witness :
  timers
    (snd (BackgroundScheduler.callbackRearm (SchedulerExamples.on None)
            (snd (BackgroundScheduler.restart
                    (SchedulerExamples.on None) (SchedulerExamples.on None)
                    (BackgroundScheduler.callbackCycle 1
                       (SchedulerExamples.on None)
                       (after SchedulerExamples.started
                          (boot Examples.fresh)))))))
  = [(2, 30000); (3, 30000)].
Proof.
  destruct scheduler_one_timer as [_ H].
  specialize (H SchedulerExamples.started Examples.fresh 1 30000
                (SchedulerExamples.on None) (SchedulerExamples.on None)
                (SchedulerExamples.on None) (SchedulerExamples.on None)
                (SchedulerExamples.switchedOn None)
                (SchedulerExamples.switchedOn None)
                (SchedulerExamples.switchedOn None)
                (SchedulerExamples.switchedOn None)).
  cbv zeta in H.
  specialize (H started_pending eq_refl eq_refl eq_refl eq_refl eq_refl
                eq_refl eq_refl).
  destruct H as [H _].
  etransitivity; [exact H|]. vm_compute. reflexivity.
Defined.

(** [stop], from any state of the scheduler, also one that overlapping
    operations have left: afterwards the scheduler is not running, the
    world and the execution counter are untouched, and a second [stop]
    changes nothing; if the scheduler was running, the next execution time
    is withdrawn, the scheduler holds no handle and the timer whose handle
    it held is not pending.  When the operations before the [stop] did not
    overlap, no timer at all is pending afterwards. *)
Theorem scheduler_stop (p : Process) :
  let p' := BackgroundScheduler.stop p in
  isRunning (state p') = false
  /\ world p' = world p
  /\ totalExecutions (state p') = totalExecutions (state p)
  /\ BackgroundScheduler.stop p' = p'
  /\ (isRunning (state p) = true ->
      nextExecutionTime (state p') = None
      /\ intervalId (state p') = None
      /\ forall handle delay,
           intervalId (state p) = Some handle ->
           ~ In (handle, delay) (timers p'))
  /\ (forall (history : list Step) (w : World),
         p = after history (boot w) -> timers p' = []).
Proof.
  intro p'.
  assert (Hr : isRunning (state p') = false).
  { subst p'. unfold BackgroundScheduler.stop.
    destruct (isRunning (state p)) eqn:E; [reflexivity | exact E]. }
  split; [exact Hr|].
  split.
  { subst p'. unfold BackgroundScheduler.stop.
    destruct (isRunning (state p)); [|reflexivity].
    now destruct (intervalId (state p)). }
  split.
  { subst p'. unfold BackgroundScheduler.stop.
    destruct (isRunning (state p)); [|reflexivity].
    now destruct (intervalId (state p)). }
  split.
  { unfold BackgroundScheduler.stop at 1. now rewrite Hr. }
  split.
  - intro Hrun. subst p'. unfold BackgroundScheduler.stop. rewrite Hrun.
    cbn [negb].
    destruct (intervalId (state p)) as [h|] eqn:Ei.
    + cbn. split; [reflexivity|]. split; [reflexivity|].
      intros handle delay E Hin. inversion E; subst h.
      apply filter_In in Hin. destruct Hin as [_ Hne].
      cbn [fst] in Hne. now rewrite Z.eqb_refl in Hne.
    + cbn. split; [reflexivity|]. split; [exact Ei|].
      intros handle delay E. discriminate.
  - intros history w E.
    pose proof (after_tidy history (boot w) (boot_tidy w)) as Ht.
    rewrite <- E in Ht.
    now destruct (stop_effect p Ht) as (H1 & _).
Qed.

(** Stopping a started scheduler withdraws the announced execution time and
    leaves no timer. *)
Lemma scheduler_stop_witness :
  let p := after SchedulerExamples.started (boot Examples.fresh) in
  nextExecutionTime (state (BackgroundScheduler.stop p)) = None
  /\ timers (BackgroundScheduler.stop p) = [].
Proof.
  intro p.
  destruct (scheduler_stop p) as (_ & _ & _ & _ & Hrun & Hhist).
  split.
  - apply Hrun. reflexivity.
  - apply (Hhist SchedulerExamples.started Examples.fresh). reflexivity.
Defined.

(** [start] on a stopped scheduler with the schedule switched on: it runs
    one real cycle at once and arms exactly one timer, whose delay is the
    interval that [start] itself read; the execution counter goes up by
    one, and [lastError] is cleared exactly when the cycle reported
    [ok]. *)
Theorem scheduler_start (history : list Step) (w : World)
    (first cycle : Moment) (s1 s2 : RealtimeSettings) :
  let p := after history (boot w) in
  isRunning (state p) = false ->
  readSettings first = Returned s1 -> scheduleEnabled s1 = true ->
  readSettings cycle = Returned s2 -> scheduleEnabled s2 = true ->
  let run :=
    RealtimeDecisionEngine.execute (env cycle)
      (BackgroundScheduler.mabConfigOf s2) false (world p) in
  let p' := snd (BackgroundScheduler.start first cycle p) in
  fst (BackgroundScheduler.start first cycle p) = Returned tt
  /\ isRunning (state p') = true
  /\ timers p'
     = [(nextTimer p, orElse (scheduleIntervalSeconds s1) 30 * 1000)]
  /\ intervalId (state p') = Some (nextTimer p)
  /\ totalExecutions (state p') = totalExecutions (state p) + 1
  /\ world p' = snd run
  /\ lastExecutionTime (state p') = Some (now (env cycle))
  /\ nextExecutionTime (state p')
     = Some (now (env cycle) + orElse (scheduleIntervalSeconds s2) 30 * 1000)
  /\ (lastError (state p') = None <-> r_ok (fst run) = true).
Proof.
  intros p Hr H1 He1 H2 He2.
  apply start_enabled_effect; try assumption.
  apply after_tidy, boot_tidy.
Qed.

Lemma scheduler_start_witness :
  timers (snd (BackgroundScheduler.start (SchedulerExamples.on (Some 45))
                 (SchedulerExamples.on None) (boot Examples.fresh)))
  = [(1, 45000)].
Proof.
  refine (proj1 (proj2 (proj2
    (scheduler_start [] Examples.fresh (SchedulerExamples.on (Some 45))
       (SchedulerExamples.on None) (SchedulerExamples.switchedOn (Some 45))
       (SchedulerExamples.switchedOn None) _ _ _ _ _))));
    reflexivity.
Defined.

Lemma executeSchedule_unreadable (m : Moment) (p : Process) (msg : string) :
  readSettings m = Thrown msg ->
  let p' := BackgroundScheduler.executeSchedule m p in
  isRunning (state p') = isRunning (state p)
  /\ timers p' = timers p
  /\ world p' = world p
  /\ totalExecutions (state p') = totalExecutions (state p)
  /\ lastError (state p') = Some msg.
Proof.
  intros Hs p'. subst p'.
  unfold BackgroundScheduler.executeSchedule. rewrite Hs. simpl.
  now repeat split.
Qed.

(** When the pending timer fires with the schedule still on, the callback
    runs one real cycle and arms exactly one new timer; its delay is the
    interval found by the read made after the cycle, so a changed interval
    takes effect at once. *)
Theorem scheduler_fire_rearms (history : list Step) (w : World)
    (handle delay : Z) (cycle again : Moment) (s1 s2 : RealtimeSettings) :
  let p := after history (boot w) in
  In (handle, delay) (timers p) ->
  readSettings cycle = Returned s1 -> scheduleEnabled s1 = true ->
  readSettings again = Returned s2 ->
  let p' := snd (BackgroundScheduler.fire handle cycle again p) in
  fst (BackgroundScheduler.fire handle cycle again p) = Returned tt
  /\ isRunning (state p') = true
  /\ timers p'
     = [(nextTimer p, orElse (scheduleIntervalSeconds s2) 30 * 1000)]
  /\ totalExecutions (state p') = totalExecutions (state p) + 1
  /\ world p'
     = snd (RealtimeDecisionEngine.execute (env cycle)
              (BackgroundScheduler.mabConfigOf s1) false (world p)).
Proof.
  intros p Hin H1 He1 H2 p'. subst p'.
  pose proof (after_tidy history (boot w) (boot_tidy w)) as Ht. fold p in Ht.
  assert (Hex : existsb (fun t => fst t =? handle) (timers p) = true).
  { apply existsb_exists. exists (handle, delay). split; [exact Hin|].
    apply Z.eqb_refl. }
  destruct (clearTimeout_pending handle p Ht Hex) as (Hc & Hi & Hr).
  unfold BackgroundScheduler.fire. rewrite Hex, H2.
  destruct (executeSchedule_enabled cycle
              (BackgroundScheduler.clearTimeout handle p) s1 H1 He1)
    as (E1 & E2 & E3 & E4 & E5 & E6 & _).
  cbv zeta in E1, E2, E3, E4, E5, E6.
  cbn [fst snd]. rewrite E1. cbn [BackgroundScheduler.clearTimeout state].
  rewrite Hr. unfold BackgroundScheduler.scheduleNext. rewrite E1.
  cbn [BackgroundScheduler.clearTimeout state]. rewrite Hr. simpl.
  rewrite E3, Hc, E4, E5, E6. now repeat split.
Qed.

Lemma scheduler_fire_rearms_witness :
  timers
    (snd (BackgroundScheduler.fire 1 (SchedulerExamples.on None)
            (SchedulerExamples.on (Some 120))
            (after SchedulerExamples.started (boot Examples.fresh))))
  = [(2, 120000)].
Proof.
  refine (proj1 (proj2 (proj2
    (scheduler_fire_rearms SchedulerExamples.started Examples.fresh 1 30000
       (SchedulerExamples.on None) (SchedulerExamples.on (Some 120))
       (SchedulerExamples.switchedOn None)
       (SchedulerExamples.switchedOn (Some 120))
       started_pending _ _ _))));
    reflexivity.
Defined.

(** When the pending timer fires and the read of the settings made after
    the cycle fails, nothing catches the error and no timer is armed: the
    scheduler still says it is running, but no cycle will follow.  A later
    [start] does nothing because the scheduler counts as running, and no
    timer is left to fire; only [restart] (or [stop] and [start]) brings
    the schedule back. *)
Theorem scheduler_stalls (history : list Step) (w : World)
    (handle delay : Z) (cycle again : Moment) (msg : string) :
  let p := after history (boot w) in
  In (handle, delay) (timers p) ->
  (forall s, readSettings cycle = Returned s -> scheduleEnabled s = true) ->
  readSettings again = Thrown msg ->
  let p' := snd (BackgroundScheduler.fire handle cycle again p) in
  fst (BackgroundScheduler.fire handle cycle again p) = Thrown msg
  /\ isRunning (state p') = true
  /\ timers p' = []
  /\ (forall first cycle',
        BackgroundScheduler.start first cycle' p' = (Returned tt, p'))
  /\ (forall handle' cycle' again',
        BackgroundScheduler.fire handle' cycle' again' p' = (Returned tt, p')).
Proof.
  intros p Hin Hc Ha p'. subst p'.
  pose proof (after_tidy history (boot w) (boot_tidy w)) as Ht. fold p in Ht.
  assert (Hex : existsb (fun t => fst t =? handle) (timers p) = true).
  { apply existsb_exists. exists (handle, delay). split; [exact Hin|].
    apply Z.eqb_refl. }
  destruct (clearTimeout_pending handle p Ht Hex) as (Hcl & Hi & Hr).
  assert (E : BackgroundScheduler.fire handle cycle again p
              = (Thrown msg,
                 BackgroundScheduler.executeSchedule cycle
                   (BackgroundScheduler.clearTimeout handle p))).
  { unfold BackgroundScheduler.fire. now rewrite Hex, Ha. }
  rewrite E. cbn [fst snd]. clear E.
  assert (Hp : isRunning
                 (state (BackgroundScheduler.executeSchedule cycle
                           (BackgroundScheduler.clearTimeout handle p))) = true
               /\ timers (BackgroundScheduler.executeSchedule cycle
                            (BackgroundScheduler.clearTimeout handle p)) = []).
  { destruct (readSettings cycle) as [s|m] eqn:Er.
    - destruct (executeSchedule_enabled cycle
                  (BackgroundScheduler.clearTimeout handle p) s Er
                  (Hc s eq_refl)) as (E1 & _ & E3 & _).
      cbv zeta in E1, E3. rewrite E1, E3. now split.
    - destruct (executeSchedule_unreadable cycle
                  (BackgroundScheduler.clearTimeout handle p) m Er)
        as (E1 & E3 & _).
      cbv zeta in E1, E3. rewrite E1, E3. now split. }
  destruct Hp as [Hrun Hno].
  repeat split; try assumption.
  - intros first cycle'. unfold BackgroundScheduler.start. now rewrite Hrun.
  - intros handle' cycle' again'. unfold BackgroundScheduler.fire.
    now rewrite Hno.
Qed.

Lemma scheduler_stalls_witness :
  isRunning
    (state
       (snd (BackgroundScheduler.fire 1 (SchedulerExamples.on None)
               SchedulerExamples.unreadable
               (after SchedulerExamples.started (boot Examples.fresh)))))
  = true
  /\ timers
       (snd (BackgroundScheduler.fire 1 (SchedulerExamples.on None)
               SchedulerExamples.unreadable
               (after SchedulerExamples.started (boot Examples.fresh))))
     = [].
Proof.
  destruct (scheduler_stalls SchedulerExamples.started Examples.fresh 1 30000
              (SchedulerExamples.on None) SchedulerExamples.unreadable
              "settings unavailable" started_pending)
    as (_ & H1 & H2 & _).
  - intros s Hs. injection Hs as <-. reflexivity.
  - reflexivity.
  - split; assumption.
Defined.

(** When the pending timer fires and the cycle finds the schedule switched
    off, the scheduler stops itself: no cycle is run, the world and the
    execution counter are as before, no timer is armed and the scheduler is
    not running any more. *)
Theorem scheduler_switched_off (history : list Step) (w : World)
    (handle delay : Z) (cycle again : Moment) (s : RealtimeSettings) :
  let p := after history (boot w) in
  In (handle, delay) (timers p) ->
  readSettings cycle = Returned s -> scheduleEnabled s = false ->
  let p' := snd (BackgroundScheduler.fire handle cycle again p) in
  isRunning (state p') = false
  /\ timers p' = []
  /\ world p' = world p
  /\ totalExecutions (state p') = totalExecutions (state p).
Proof.
  intros p Hin Hs He p'. subst p'.
  pose proof (after_tidy history (boot w) (boot_tidy w)) as Ht. fold p in Ht.
  assert (Hex : existsb (fun t => fst t =? handle) (timers p) = true).
  { apply existsb_exists. exists (handle, delay). split; [exact Hin|].
    apply Z.eqb_refl. }
  destruct (clearTimeout_pending handle p Ht Hex) as (Hcl & Hi & Hr).
  assert (Ht1 : tidy (BackgroundScheduler.clearTimeout handle p))
    by now apply tidy_no_timer.
  destruct (stop_effect _ Ht1) as (H1 & H2 & _ & H4 & H5).
  unfold BackgroundScheduler.fire. rewrite Hex.
  unfold BackgroundScheduler.executeSchedule. rewrite Hs, He. cbn [negb].
  destruct (readSettings again); cbn [snd]; rewrite ?H2;
    now repeat split.
Qed.

Lemma scheduler_switched_off_witness :
  isRunning
    (state
       (snd (BackgroundScheduler.fire 1 SchedulerExamples.off
               SchedulerExamples.off
               (after SchedulerExamples.started (boot Examples.fresh)))))
  = false.
Proof.
  refine (proj1
    (scheduler_switched_off SchedulerExamples.started Examples.fresh 1 30000
       SchedulerExamples.off SchedulerExamples.off
       SchedulerExamples.switchedOff started_pending _ _));
    reflexivity.
Defined.

(** ** The commit step of the rule scheduler *)

Lemma rule_update_ok (env : Env) (d : ScheduleDecision) (w : World) :
  updateProviderError env (providerId d) = None ->
  updateProvider env (providerId d) (AutoScheduler.updateOf d) w
  = (Returned tt,
     {| providers :=
          updated (providerId d) (AutoScheduler.updateOf d) (providers w);
        scheduleLogs := scheduleLogs w;
        events := events w ++ [UpdateProviderCall (providerId d)
                                 (AutoScheduler.updateOf d)] |}).
Proof.
  intro H. unfold updateProvider, bind, emit. now rewrite H.
Qed.

Lemma rule_update_fails (env : Env) (d : ScheduleDecision) (w : World)
    (msg : string) :
  updateProviderError env (providerId d) = Some msg ->
  updateProvider env (providerId d) (AutoScheduler.updateOf d) w
  = (Thrown msg,
     {| providers := providers w;
        scheduleLogs := scheduleLogs w;
        events := events w ++ [UpdateProviderCall (providerId d)
                                 (AutoScheduler.updateOf d)] |}).
Proof.
  intro H. unfold updateProvider, bind, emit, throw. now rewrite H.
Qed.

Lemma rule_forEach_until (env : Env) (us : list ScheduleDecision) (w : World) :
  let run :=
    forEach us (fun d =>
      updateProvider env (providerId d) (AutoScheduler.updateOf d)) w in
  let '(done, failure) := untilFailure env us in
  fst run = match failure with
            | None => Returned tt
            | Some (_, msg) => Thrown msg
            end
  /\ providers (snd run) = applied done (providers w)
  /\ updateCalls (events (snd run))
     = updateCalls (events w)
       ++ map ruleCall (done ++ match failure with
                                | None => []
                                | Some (d, _) => [d]
                                end).
Proof.
  revert w. induction us as [|d us IH]; intro w; simpl.
  - rewrite app_nil_r. now repeat split.
  - destruct (updateProviderError env (providerId d)) as [msg|] eqn:E.
    + unfold bind. rewrite (rule_update_fails env d w msg E). simpl.
      calls. now repeat split.
    + unfold bind. rewrite (rule_update_ok env d w E).
      specialize (IH {| providers :=
                         updated (providerId d) (AutoScheduler.updateOf d)
                                 (providers w);
                       scheduleLogs := scheduleLogs w;
                       events := events w ++ [UpdateProviderCall (providerId d)
                                                (AutoScheduler.updateOf d)] |}).
      cbv zeta in IH.
      destruct (untilFailure env us) as [done failure].
      destruct IH as (H1 & H2 & H3). cbn [providers events] in H2, H3.
      split; [exact H1|]. split; [exact H2|].
      rewrite H3. calls. now rewrite <- app_assoc.
Qed.

(** The commit step of the rule scheduler stops at the first update that
    fails: the updates before it have taken effect and stay, the failing
    one has been attempted, the ones after it are never attempted, and the
    error is thrown on.  When no update fails all of them are applied in
    order. *)
Theorem rule_commit_stops_at_failure (env : Env)
    (ds : list ScheduleDecision) (w : World) :
  let run := AutoScheduler.applyDecisions env ds w in
  let us := filter AutoScheduler.toUpdate ds in
  (forall done d msg,
      untilFailure env us = (done, Some (d, msg)) ->
      fst run = Thrown msg
      /\ providers (snd run) = applied done (providers w)
      /\ updateCalls (events (snd run))
         = updateCalls (events w) ++ map ruleCall (done ++ [d]))
  /\ (forall done,
         untilFailure env us = (done, None) ->
         done = us
         /\ fst run = Returned tt
         /\ providers (snd run) = applied us (providers w)
         /\ updateCalls (events (snd run))
            = updateCalls (events w) ++ map ruleCall us).
Proof.
  intros run us. subst run. unfold AutoScheduler.applyDecisions. fold us.
  pose proof (rule_forEach_until env us w) as H. cbv zeta in H.
  split.
  - intros done d msg E. rewrite E in H. exact H.
  - intros done E. rewrite E in H. rewrite app_nil_r in H.
    assert (Hd : done = us).
    { clear H. revert done E. induction us as [|u us' IH]; intros done E;
        simpl in E.
      - now inversion E.
      - destruct (updateProviderError env (providerId u)); [discriminate|].
        destruct (untilFailure env us') as [done' f'].
        inversion E; subst. f_equal. now apply IH. }
    subst done. split; [reflexivity | exact H].
Qed.

Lemma rule_commit_stops_at_failure_witness :
  fst (AutoScheduler.applyDecisions Examples.secondUpdateFails
         (AutoScheduler.decisionsOf Examples.secondUpdateFails
            AutoScheduler.getConfig Examples.twoProviders)
         Examples.twoProviders)
  = Thrown "connection lost".
Proof.
  destruct (rule_commit_stops_at_failure Examples.secondUpdateFails
              (AutoScheduler.decisionsOf Examples.secondUpdateFails
                 AutoScheduler.getConfig Examples.twoProviders)
              Examples.twoProviders) as [H _].
  cbv zeta in H.
  refine (proj1 (H _ _ _ _)). vm_compute. reflexivity.
Defined.

(** ** Resetting a provider to its baseline *)

Lemma find_by_id (rows : list Provider) (p : Provider) :
  NoDup (map id rows) -> In p rows ->
  find (fun q => id q =? id p) rows = Some p.
Proof.
  induction rows as [|q rows IH]; intros Hnd Hin; [contradiction|].
  simpl in *. inversion Hnd as [|? ? Hq Hrest]; subst.
  destruct Hin as [->|Hin].
  - now rewrite Z.eqb_refl.
  - destruct (Z.eqb_spec (id q) (id p)) as [E|_].
    + exfalso. apply Hq. rewrite E. now apply in_map.
    + now apply IH.
Qed.

Lemma find_analytics_row (env : Env) (i : Z) (rows : list Provider) :
  find (fun a => an_id (row_analytics a) =? i) (map (toAnalyticsRow env) rows)
  = option_map (toAnalyticsRow env) (find (fun q => id q =? i) rows).
Proof.
  induction rows as [|q rows IH]; [reflexivity|].
  simpl. now destruct (id q =? i).
Qed.

Lemma enabledRows_perm (w : World) :
  Permutation (enabledRows w) (filter isEnabled (providers w)).
Proof. apply orderRows_perm. Qed.

Lemma NoDup_filter_ids (rows : list Provider) :
  NoDup (map id rows) -> NoDup (map id (filter isEnabled rows)).
Proof.
  induction rows as [|q rows IH]; intro H; [constructor|].
  simpl in *. inversion H as [|? ? Hq Hrest]; subst.
  destruct (isEnabled q); simpl; [constructor|]; auto.
  intro Hin. apply Hq. apply in_map_iff in Hin. destruct Hin as (x & Hx & Hin).
  apply filter_In in Hin. apply in_map_iff. exists x. tauto.
Qed.

Lemma enabledRows_find (w : World) (p : Provider) :
  NoDup (map id (providers w)) -> In p (providers w) -> isEnabled p = true ->
  find (fun q => id q =? id p) (enabledRows w) = Some p.
Proof.
  intros Hnd Hin Hen. apply find_by_id.
  - apply (Permutation_NoDup (l := map id (filter isEnabled (providers w)))).
    + apply Permutation_map. symmetry. apply enabledRows_perm.
    + now apply NoDup_filter_ids.
  - apply (Permutation_in (l := filter isEnabled (providers w))).
    + symmetry. apply enabledRows_perm.
    + apply filter_In. now split.
Qed.

Lemma enabledRows_find_enabled (w : World) (i : Z) (p : Provider) :
  find (fun q => id q =? i) (enabledRows w) = Some p ->
  In p (providers w) /\ id p = i /\ isEnabled p = true.
Proof.
  intro H. apply find_some in H. destruct H as [Hin Hid].
  apply Z.eqb_eq in Hid.
  apply (Permutation_in (l' := filter isEnabled (providers w))) in Hin;
    [|apply enabledRows_perm].
  apply filter_In in Hin. tauto.
Qed.

(** [resetProviderToBaseline], step by step. *)
Lemma reset_unfold (env : Env) (session : option Session) (providerId : Z)
    (w : World) :
  resetProviderToBaseline env session providerId w
  = if negb (isAdmin session) then (Failed noPermission, w)
    else
      match providerAnalyticsQueryError env with
      | Some msg => (Failed msg, logged w [ProviderAnalyticsFailed])
      | None =>
        match find (fun q => id q =? providerId) (enabledRows w) with
        | None => (Failed providerMissing, w)
        | Some p =>
          match baseWeight p, basePriority p with
          | Some bw, Some bp =>
            match updateProviderError env providerId with
            | Some msg =>
                (Failed msg,
                 {| providers := providers w;
                    scheduleLogs := scheduleLogs w;
                    events :=
                      events w
                      ++ [UpdateProviderCall providerId (resetUpdate bw bp)] |})
            | None =>
                (Ok tt,
                 {| providers :=
                      updated providerId (resetUpdate bw bp) (providers w);
                    scheduleLogs := scheduleLogs w;
                    events :=
                      events w
                      ++ [UpdateProviderCall providerId (resetUpdate bw bp)] |})
            end
          | _, _ => (Failed noBaseline, w)
          end
        end
      end.
Proof.
  unfold resetProviderToBaseline, catch_all.
  destruct (negb (isAdmin session)); [reflexivity|].
  unfold bind at 1. unfold getProviderAnalyticsFromDB.
  destruct (providerAnalyticsQueryError env) as [msg|]; [reflexivity|].
  rewrite find_analytics_row.
  destruct (find (fun q => id q =? providerId) (enabledRows w)) as [p|];
    [|reflexivity].
  cbn [option_map toAnalyticsRow row_baseWeight row_basePriority].
  destruct (baseWeight p) as [bw|]; [|reflexivity].
  destruct (basePriority p) as [bp|]; [|reflexivity].
  unfold bind, updateProvider, emit, ret, throw, updated.
  now destruct (updateProviderError env providerId).
Qed.

Lemma updated_reset_baselines (i bw bp : Z) (ps : list Provider) :
  map (fun p => (baseWeight p, basePriority p)) (updated i (resetUpdate bw bp) ps)
  = map (fun p => (baseWeight p, basePriority p)) ps.
Proof.
  unfold updated. rewrite map_map. apply map_ext. intro p.
  now destruct (id p =? i).
Qed.

(** The row of a provider after its reset to the baseline [bw], [bp]. *)
Lemma reset_row (bw bp : Z) (p : Provider) :
  baseWeight p = Some bw -> basePriority p = Some bp ->
  let q := applyUpdate (resetUpdate bw bp) p in
  weight q = bw /\ priority q = bp
  /\ baseWeight q = Some bw /\ basePriority q = Some bp
  /\ lastScheduleTime q = lastScheduleTime p
  /\ isAdjusted q = false.
Proof.
  intros Hw Hp. unfold isAdjusted. simpl. rewrite Hw, Hp.
  now rewrite !Z.eqb_refl.
Qed.

Lemma reset_succeeds (env : Env) (session : option Session) (w : World)
    (p : Provider) (bw bp : Z) :
  isAdmin session = true ->
  providerAnalyticsQueryError env = None ->
  updateProviderError env (id p) = None ->
  NoDup (map id (providers w)) ->
  In p (providers w) ->
  isEnabled p = true ->
  baseWeight p = Some bw ->
  basePriority p = Some bp ->
  resetProviderToBaseline env session (id p) w
  = (Ok tt,
     {| providers := updated (id p) (resetUpdate bw bp) (providers w);
        scheduleLogs := scheduleLogs w;
        events := events w ++ [UpdateProviderCall (id p) (resetUpdate bw bp)] |}).
Proof.
  intros Ha Hq Hu Hnd Hin Hen Hw Hp.
  rewrite reset_unfold, Ha, Hq. cbn [negb].
  rewrite (enabledRows_find w p Hnd Hin Hen), Hw, Hp, Hu. reflexivity.
Qed.

Lemma updated_ids (i : Z) (data : ProviderUpdate) (ps : list Provider) :
  map id (updated i data ps) = map id ps.
Proof.
  unfold updated. rewrite map_map. apply map_ext. intro p.
  now destruct (id p =? i).
Qed.

Lemma updated_reset_twice (i bw bp : Z) (ps : list Provider) :
  updated i (resetUpdate bw bp) (updated i (resetUpdate bw bp) ps)
  = updated i (resetUpdate bw bp) ps.
Proof.
  unfold updated. rewrite map_map. apply map_ext. intro p.
  destruct (id p =? i) eqn:E; cbn [applyUpdate id]; now rewrite E.
Qed.

Lemma updated_others (i : Z) (data : ProviderUpdate) (ps : list Provider) :
  filter (fun q => negb (id q =? i)) (updated i data ps)
  = filter (fun q => negb (id q =? i)) ps.
Proof.
  unfold updated. induction ps as [|q rows IH]; [reflexivity|].
  simpl. destruct (id q =? i) eqn:E; cbn [applyUpdate id]; rewrite E;
    simpl; now rewrite IH.
Qed.

(** An administrator's reset of an enabled provider that has both baseline
    values, with unique provider ids and no failing read or write, succeeds
    with one update: the provider ends at its baseline weight and priority
    and no longer counts as adjusted, its baseline and schedule time stay,
    every other row is as before, and a second reset changes nothing
    more. *)
Theorem reset_restores_baseline (env : Env) (session : option Session)
    (w : World) (p : Provider) (bw bp : Z) :
  isAdmin session = true ->
  providerAnalyticsQueryError env = None ->
  updateProviderError env (id p) = None ->
  NoDup (map id (providers w)) ->
  In p (providers w) ->
  isEnabled p = true ->
  baseWeight p = Some bw ->
  basePriority p = Some bp ->
  let run := resetProviderToBaseline env session (id p) w in
  fst run = Ok tt
  /\ (forall q, In q (providers (snd run)) -> id q = id p ->
        weight q = bw /\ priority q = bp
        /\ baseWeight q = Some bw /\ basePriority q = Some bp
        /\ lastScheduleTime q = lastScheduleTime p
        /\ isAdjusted q = false)
  /\ filter (fun q => negb (id q =? id p)) (providers (snd run))
     = filter (fun q => negb (id q =? id p)) (providers w)
  /\ updateCalls (events (snd run))
     = updateCalls (events w) ++ [(id p, resetUpdate bw bp)]
  /\ providers (snd (resetProviderToBaseline env session (id p) (snd run)))
     = providers (snd run).
Proof.
  intros Ha Hq Hu Hnd Hin Hen Hw Hp run. subst run.
  rewrite (reset_succeeds env session w p bw bp Ha Hq Hu Hnd Hin Hen Hw Hp).
  cbn [fst snd providers events].
  split; [reflexivity|]. split; [|split; [|split]].
  - intros q Hq' Hid. unfold updated in Hq'. apply in_map_iff in Hq'.
    destruct Hq' as (q0 & Eq & Hin0).
    destruct (Z.eqb_spec (id q0) (id p)) as [E|E].
    + assert (q0 = p).
      { pose proof (find_by_id (providers w) p Hnd Hin) as F1.
        pose proof (find_by_id (providers w) q0 Hnd Hin0) as F2.
        rewrite E in F2. congruence. }
      subst q0 q. now apply reset_row.
    + subst q. contradiction.
  - apply updated_others.
  - calls. reflexivity.
  - set (w1 := {| providers := updated (id p) (resetUpdate bw bp) (providers w);
                  scheduleLogs := scheduleLogs w;
                  events := events w
                            ++ [UpdateProviderCall (id p) (resetUpdate bw bp)] |}).
    assert (Hin1 : In (applyUpdate (resetUpdate bw bp) p) (providers w1)).
    { cbn [w1 providers]. unfold updated. apply in_map_iff. exists p.
      now rewrite Z.eqb_refl. }
    pose proof (reset_succeeds env session w1 (applyUpdate (resetUpdate bw bp) p)
                  bw bp Ha Hq Hu) as H1.
    cbn [applyUpdate id] in H1. rewrite H1.
    + cbn [snd providers w1]. apply updated_reset_twice.
    + cbn [w1 providers]. now rewrite updated_ids.
    + exact Hin1.
    + exact Hen.
    + cbn. now rewrite Hw.
    + cbn. now rewrite Hp.
Qed.

Lemma reset_restores_baseline_witness :
  fst (resetProviderToBaseline Examples.allFine ResetExamples.admin 7
         ResetExamples.table) = Ok tt.
Proof.
  refine (proj1 (reset_restores_baseline Examples.allFine ResetExamples.admin
                   ResetExamples.table ResetExamples.moved 50 1
                   _ _ _ _ _ _ _ _)).
  - reflexivity.
  - reflexivity.
  - reflexivity.
  - repeat constructor. simpl. tauto.
  - simpl. now left.
  - reflexivity.
  - reflexivity.
  - reflexivity.
Defined.

(** A reset never changes a baseline: whoever calls it, for whatever
    provider and whatever fails, the baseline columns, the identities of the
    rows and the schedule log are as before.  A reset that does not report
    success leaves the whole provider table as it was, and without an
    administrator's session nothing is read, written or logged at all.  A
    provider that is disabled, or that lacks one of the two baseline values,
    is never reset. *)
Theorem reset_keeps_baselines (env : Env) (session : option Session)
    (providerId : Z) (w : World) :
  let run := resetProviderToBaseline env session providerId w in
  baselines (snd run) = baselines w
  /\ identities (snd run) = identities w
  /\ scheduleLogs (snd run) = scheduleLogs w
  /\ (fst run <> Ok tt -> providers (snd run) = providers w)
  /\ (isAdmin session = false -> run = (Failed noPermission, w))
  /\ (fst run = Ok tt ->
      isAdmin session = true
      /\ exists p bw bp,
           In p (providers w) /\ id p = providerId /\ isEnabled p = true
           /\ baseWeight p = Some bw /\ basePriority p = Some bp).
Proof.
  intro run. subst run. rewrite reset_unfold.
  destruct (isAdmin session); cbn [negb].
  2: { repeat split; try reflexivity; intros; discriminate. }
  destruct (providerAnalyticsQueryError env) as [msg|].
  { repeat split; try reflexivity; intros; discriminate. }
  destruct (find (fun q => id q =? providerId) (enabledRows w)) as [p|] eqn:F.
  2: { repeat split; try reflexivity; intros; discriminate. }
  apply enabledRows_find_enabled in F. destruct F as (Hin & Hid & Hen).
  destruct (baseWeight p) as [bw|] eqn:Hw.
  2: { repeat split; try reflexivity; intros; discriminate. }
  destruct (basePriority p) as [bp|] eqn:Hp.
  2: { repeat split; try reflexivity; intros; discriminate. }
  destruct (updateProviderError env providerId) as [msg|].
  { repeat split; try reflexivity; intros; discriminate. }
  cbn [fst snd providers scheduleLogs].
  split; [apply updated_reset_baselines|].
  split; [apply updated_identity|].
  split; [reflexivity|].
  split; [intro H; now contradiction H|].
  split; [intros; discriminate|].
  intros _. split; [reflexivity|]. now exists p, bw, bp.
Qed.

(** ** The manual trigger *)

Lemma trigger_unfold (m : Moment) (w : World) (st : SystemSettings) :
  settings (env m) = Returned st ->
  let cycle :=
    RealtimeDecisionEngine.execute
      (env m) (BackgroundScheduler.mabConfigOf (realtime m)) false w in
  snd (triggerManualSchedule m w) = snd cycle
  /\ t_ok (fst (triggerManualSchedule m w)) = r_ok (fst cycle).
Proof.
  intros Hs cycle. subst cycle. unfold triggerManualSchedule, readSettings.
  rewrite Hs.
  destruct (RealtimeDecisionEngine.execute _ _ _ _) as [r w'].
  cbn [fst snd]. now destruct (r_ok r).
Qed.

(** The manual trigger does not look at the switch of the schedule: with
    readable settings it runs one real cycle of the realtime engine, with
    the same configuration defaults as a scheduled cycle, and reports that
    cycle's [ok].  With the schedule switched on, a scheduled cycle at the
    same moment leaves the same provider table, log and trace; with it
    switched off the scheduled cycle leaves them untouched, the manual
    trigger does not.  With unreadable settings the trigger fails and
    nothing is touched. *)
Theorem manual_trigger_ignores_switch (m : Moment) (p : Process) :
  let run := triggerManualSchedule m (world p) in
  let cycle :=
    RealtimeDecisionEngine.execute
      (env m) (BackgroundScheduler.mabConfigOf (realtime m)) false (world p) in
  ((exists st, settings (env m) = Returned st) ->
   snd run = snd cycle
   /\ t_ok (fst run) = r_ok (fst cycle)
   /\ (scheduleEnabled (realtime m) = true ->
       world (BackgroundScheduler.executeSchedule m p) = snd run)
   /\ (scheduleEnabled (realtime m) = false ->
       world (BackgroundScheduler.executeSchedule m p) = world p))
  /\ (forall msg, settings (env m) = Thrown msg ->
        run = ({| t_ok := false; t_message := None; t_error := Some msg |},
               world p)
        /\ world (BackgroundScheduler.executeSchedule m p) = world p).
Proof.
  intros run cycle. split.
  - intros [st Hs].
    destruct (trigger_unfold m (world p) st Hs) as [H1 H2].
    split; [exact H1|]. split; [exact H2|]. subst run. rewrite H1.
    unfold BackgroundScheduler.executeSchedule, readSettings. rewrite Hs.
    split; intro He; rewrite He; cbn [negb].
    + subst cycle.
      now destruct (RealtimeDecisionEngine.execute _ _ _ _) as [r w'].
    + unfold BackgroundScheduler.stop.
      destruct (isRunning (state p)); [|reflexivity].
      now destruct (intervalId (state p)).
  - intros msg Hs. subst run.
    unfold triggerManualSchedule, BackgroundScheduler.executeSchedule,
      readSettings.
    rewrite Hs. now split.
Qed.

(** With the schedule switched off and an open circuit, a scheduled cycle
    leaves the provider alone and the manual trigger rewrites it. *)
Lemma manual_trigger_ignores_switch_witness :
  let m := {| env := MoreExamples.allOpen;
              realtime := SchedulerExamples.switchedOff |} in
  world (BackgroundScheduler.executeSchedule m (boot Examples.fresh))
  = Examples.fresh
  /\ providers (snd (triggerManualSchedule m Examples.fresh))
     <> providers Examples.fresh.
Proof.
  intro m.
  destruct (manual_trigger_ignores_switch m (boot Examples.fresh)) as [H _].
  cbv zeta in H.
  destruct (H (ex_intro _ Examples.defaultSettings eq_refl))
    as (_ & _ & _ & Hoff).
  split; [exact (Hoff eq_refl)|]. vm_compute. discriminate.
Defined.
